(* ===== verification/_CoqProject ===== *)
-Q . S2P
Prelude.v
JsString.v
JsArray.v
PortfolioData.v
TextFilter.v
Theme.v
Page.v
Chart.v
Mailto.v
UiPrimitives.v
PageEquiv.v
Modules.v
Decorations.v
Layout.v
DateYear.v
PageTree.v
FormSubmit.v
