(* ===== verification/Prelude.v ===== *)
(** * A verification development of the portfolio page

    The repository is a single React page,
    [src/modern_data_analyst_ai_ml_portfolio_react_tailwind_framer_motion.jsx],
    built on a handful of design-system primitives under
    [src/src/components/ui/].  Its logic is small but real:

    - the hook [useDarkMode] (lines 50-71) initialises a boolean from
      [localStorage] and the [prefers-color-scheme] media query, and an
      effect keyed on that boolean writes the [theme] key and toggles the
      [dark] class of the document root;
    - two memoised filters, [filteredProjects] (221-229) and
      [filteredCerts] (231-240), select the projects and certifications
      whose fields contain the search query, case-insensitively (the
      certification year is compared raw);
    - the page [Portfolio] (216-639) owns three pieces of React state
      ([enabled], [query], [certQuery]), two switches that call
      [setEnabled], two inputs that call [setQuery] and [setCertQuery], and
      renders lists keyed by React keys;
    - the career chart (timeline 155-163, tooltip 379) formats the
      hovered point with two callbacks handed to Recharts;
    - the contact form (588-611) has three required controls, one of
      type [email]; its [onSubmit] (590-600) cancels the submission,
      percent-encodes a subject and a body and navigates to a [mailto:]
      URL;
    - the import declarations (1-48) link the page to React, the
      primitives and three packages; the decorations [AnimatedGradient]
      and [Particles] (166-199) draw forty particles with [Math.random];
      the layout components [Section] and [SectionTitle] (202-213) build
      the sections the navigation bar (248-279) links to; [Portfolio]
      returns the tree of lines 241-639.

    The components interact through the page: [Page] calls [Theme]'s
    [setEnabled] from the switches and [TextFilter]'s filters through
    [useMemo]; the filters call the string and array built-ins of
    [JsString] and [JsArray] through the [CaseMapping] interface; [Chart]
    and [Mailto] are leaves that read the data and the form; the page
    renders through the primitives of [UiPrimitives]; the browser's form
    validation ([FormSubmit]) stands between the rendered form ([Layout])
    and the handler ([Mailto]).

    ** Layout of the library

    - [Prelude] (this file): the JavaScript string type (a list of UTF-16
      code units), the completion type of abrupt ECMAScript operations with
      its [let?] notation, the hint databases [js] and [js_rw], the tactics
      and the list lemmas every component shares.
    - [JsString]: the built-ins the page calls on strings, translated from
      ECMA-262: [StringIndexOf] and [String.prototype.includes] (with the
      reference "is a factor of" and their equivalence),
      [String.prototype.toLowerCase] behind the interface [CaseMapping]
      (the laws the filters need, and an instance exact on ASCII), and
      [Number::toString] on integers.
    - [JsArray]: [Array.prototype.filter], [some] and [map] as the index
      loops of ECMA-262, each proved equal to the list function it
      computes (so the loops terminate with the fuel they are given).
    - [PortfolioData]: the literal arrays [skills], [projects] and
      [certifications] of the page, and their well-formedness (distinct
      titles and keys, non-negative years, titles ending in a non-digit).
    - [TextFilter]: the two filters of the page as the code writes them,
      the abstract contract of the spec (one generic filter over a list of
      searchable fields) and the refinement theorems between them; the
      laws of the filter (identity on the empty query, membership,
      narrowing).
    - [Theme]: [useDarkMode] with the browser state it touches (storage,
      root class list, media query) and React's effect semantics (an
      effect runs on mount and when its dependency changes, an update to
      an equal value is dropped); its invariant (storage, class list and
      flag agree) by induction on the reachability relation, and the
      persistence round trip.
    - [Page]: the component [Portfolio] as a state machine over user
      events (switch, inputs), with [useMemo]'s cache, the rendered lists
      and their React keys; reachability and the invariants of every
      reachable state.
    - [Chart]: the [timeline] data and the tooltip's [labelFormatter] and
      [formatter] over a small model of JavaScript values (optional
      chaining, [||], indexing, [+] on strings, [Number::toString] of
      decimals).
    - [Mailto]: [encodeURIComponent] and [decodeURIComponent] (ECMA-262's
      [Encode] and [Decode], UTF-16 to UTF-8 percent escapes), the
      handler [onSubmit] with its effects and its errors, and a mail
      client's reading of a [mailto:] URL (RFC 6068) as the receiving side.
    - [UiPrimitives]: the components of [src/src/components/ui/] other
      than the switch, as functions from props (JavaScript objects as
      association lists) and children to elements: the class strings
      built with template literals and [String.prototype.trim], read as
      the DOM reads them (tokens between ASCII whitespace), [Button]'s
      [asChild] clone with merged props, the fields' prop spread.
    - [PageEquiv]: the memo-free reference page and the simulation of
      the memoised page by it; the [eventually] relation over user events.
    - [Modules]: the import declarations of lines 1-48 and the export
      table of each primitive file, linked as an ES module graph.
    - [Decorations]: [AnimatedGradient] and [Particles], [Math.random] as
      a source of draws threaded through the calls in order.
    - [Layout]: the parts of the element tree that carry links, ids and
      form controls ([Section], [SectionTitle], the navigation bar, the
      hero's buttons, the project cards, the contact form, the connect
      card, the footer), built with [UiPrimitives].
    - [PageTree]: the remaining sections (hero, about with the career
      chart, education, experience, skills, the two searchable lists,
      contact) and [Portfolio_tree], the whole tree [Portfolio] returns
      in a state of [Page]; the ids, links and props read off it.
    - [DateYear]: [new Date().getFullYear()] of the footer, with
      ECMA-262's time value arithmetic ([Day], [DayFromYear],
      [YearFromTime], [TimeClip], [LocalTime]) over [Z] milliseconds.
    - [FormSubmit]: HTML's constraint validation of the contact form's
      [required] and [type="email"] controls, the sanitization of their
      values, [FormData], and the submission that calls the handler.

    ** Theorems, by group

    - string built-ins: [includes] is the factor relation; the ASCII case
      mapping satisfies the [CaseMapping] laws; [Number::toString] of a
      non-negative integer is a digit string, and is injective;
    - arrays: the ECMA loops compute [filter], [existsb] and [imap];
    - filters: refinement of the spec's generic filter, identity on the
      empty query, membership with the raw year, narrowing;
    - theme: initialisation on every branch (errors included), the
      consistency invariant, persistence across sessions, the first visit
      freezing the system preference;
    - page: invariants of every reachable state (memo coherence, theme
      consistency, unique React keys), the switch toggling;
    - chart: the tooltip always shows the first milestone's label (a bug:
      Recharts' payload has no [index]);
    - contact form: encoding succeeds exactly on well-formed UTF-16, emits
      only unreserved characters and escapes, and decoding inverts it; so
      the URL carries exactly the subject and body the handler reads, and
      the [href] it sets is an ASCII [mailto:] URL;
    - UI primitives: base classes then the caller's, none lost; [Badge]
      ignores [variant]; [Button asChild] forwards its props (so
      [variant] and [size] become attributes of the child); [Input] and
      [Textarea] keep every prop but [className];
    - memo and liveness: every run of user events on the memoised page is
      a run of the memo-free page with the same view; from every reachable
      state the user can get back to the whole portfolio in either theme;
    - decorations: for any [Math.random] in [[0, 1)], forty particles
      keyed 0 to 39 from 160 calls, every style in its bounds;
    - the whole tree: in every reachable state its ids are distinct,
      every in-page link names one of them or is a project's placeholder
      [#] (every project link is a placeholder, a bug); it is the tree
      of a first render of the same theme and
      queries, its switches show the theme the browser applies and its
      search boxes the queries typed;
    - footer year: the year printed is [YearFromTime] of the local time,
      which meets its declarative specification (the last year starting
      before the time), lies in [-271821] to [275760] for a valid date,
      and is [NaN] past the range of dates;
    - submission: the handler runs exactly on a valid form and receives
      the three values of the controls as scalar value strings, so a
      submission that reaches it always navigates to the [mailto:] URL
      and never throws.

    The module graph of lines 1-48 ([Modules]) is data with a linker and
    no theorem: it documents the import of the missing module
    [@/components/ui/tabs].

    ** Choices of the model

    A JavaScript string is its sequence of UTF-16 code units ([list Z]).
    [toLowerCase] is abstract: the filters' theorems assume only the laws
    of [CaseMapping]; Unicode's full case mapping is not modelled, and the
    concrete instance [ascii_case] is exact on code units below 128, which
    covers every literal of the page.  The ECMA loops run on a fuel equal
    to the length of the array, which is the number of iterations the
    specification performs; [decodeURIComponent] runs on a fuel equal to
    the length of its input, enough since each step consumes at least one
    code unit.  Numbers are integers ([Z]) or, in the chart, finite
    decimals, exact for the page's literals.  A JavaScript object is an
    association list whose keys are distinct where a theorem needs it (the
    props a component receives).  [Math.random] is a function from the
    index of a call to a rational ([RandomSource]): the theorems hold for
    every such source with values in [[0, 1)], which is all the code
    assumes of it, and the arithmetic is exact rather than IEEE doubles.
    The npm packages are taken as installed (their exports are not
    checked).  The browser's validation is the part of HTML's that the
    form uses: [required], and [type="email"] with the valid e-mail
    address production; the user's typing is a function from control name
    to the raw string, and [FormData] converts each entry to a scalar
    value string (lone surrogates become U+FFFD).  A write to
    [localStorage] is assumed to fit in the origin's quota: the page
    writes at most ten code units under one key ([QuotaExceededError] is
    not modelled).  The host's clock is an input ([Clock]: the
    current time value and the local time zone adjustment, less than a
    day); [YearFromTime] computes the year from a 400-year estimate and
    corrects it by one year at most, which is enough because the
    estimate is within two days of the year's first day.  Not modelled: the rendering engine, framer-motion's
    animation, styling, the chart drawing (a library), the host's
    clock itself and the layout the styles produce. *)

From Stdlib Require Export ZArith String Ascii.
From stdpp Require Export base list gmap strings.

Open Scope Z_scope.

(** ** JavaScript strings *)

(** A JavaScript string value is a finite sequence of 16-bit code units. *)
Abbreviation jsstr := (list Z).

(** The code units of an ASCII literal: [js "abc"] is the JavaScript
    string literal ["abc"]. *)
Definition js (s : string) : jsstr :=
  map (fun a => Z.of_nat (nat_of_ascii a)) (list_ascii_of_string s).

(** Every code unit lies in [0, 2^16). *)
Definition code_unit_ok (u : Z) : Prop := 0 <= u < 65536.

(** ** Completion records

    An ECMAScript operation either completes normally with a value or
    throws.  Only the errors the page can raise are listed. *)
Inductive js_error :=
| TypeError
| SecurityError
| URIError.

Inductive completion (A : Type) :=
| Normal (v : A)
| Throw (e : js_error).
Arguments Normal {A} v.
Arguments Throw {A} e.

Definition completion_bind {A B} (c : completion A) (k : A -> completion B)
  : completion B :=
  match c with
  | Normal v => k v
  | Throw e => Throw e
  end.

Declare Scope js_scope.
Delimit Scope js_scope with js.
(** [let? x := c in k] is ECMA-262's [? c]: propagate an abrupt
    completion, continue with the value otherwise. *)
Notation "'let?' x ':=' c 'in' k" := (completion_bind c (fun x => k))
  (at level 10, x name, c at level 100, k at level 200) : js_scope.
Open Scope js_scope.

Lemma completion_bind_normal {A B} (v : A) (k : A -> completion B) :
  completion_bind (Normal v) k = k v.
Proof. reflexivity. Qed.

Lemma completion_bind_throw {A B} e (k : A -> completion B) :
  completion_bind (Throw e) k = Throw e.
Proof. reflexivity. Qed.

(** ** Automation *)

Create HintDb js discriminated.
Create Rewrite HintDb js_rw.
#[export] Hint Rewrite @completion_bind_normal @completion_bind_throw : js_rw.

(** Turn boolean connectives in hypotheses and goal into propositions. *)
Ltac js_bool :=
  repeat match goal with
  | H : (_ || _)%bool = true |- _ => apply orb_true_iff in H as [H|H]
  | H : (_ && _)%bool = true |- _ => apply andb_true_iff in H as [? H]
  | H : (_ || _)%bool = false |- _ => apply orb_false_iff in H as [? H]
  | H : negb _ = true |- _ => apply negb_true_iff in H
  | H : negb _ = false |- _ => apply negb_false_iff in H
  | H : bool_decide _ = true |- _ => apply bool_decide_eq_true_1 in H
  | H : bool_decide _ = false |- _ => apply bool_decide_eq_false_1 in H
  end.

(** Decide the integer comparisons of the goal that follow from the
    context, divisions and remainders by constants included. *)
Ltac zdecide :=
  repeat match goal with
  | |- context [?a <? ?b] =>
      first [ rewrite (proj2 (Z.ltb_lt a b)) by (Z.div_mod_to_equations; lia)
            | rewrite (proj2 (Z.ltb_ge a b)) by (Z.div_mod_to_equations; lia) ]
  | |- context [?a <=? ?b] =>
      first [ rewrite (proj2 (Z.leb_le a b)) by (Z.div_mod_to_equations; lia)
            | rewrite (proj2 (Z.leb_gt a b)) by (Z.div_mod_to_equations; lia) ]
  end.

(** Close a decidable goal on closed data (a membership in a literal
    string, say) by evaluating its decision procedure. *)
Ltac decide_closed := apply (bool_decide_unpack _); vm_compute; exact I.

(** ** Lists: the lemmas the components share *)

Section ListFacts.
Context {A : Type}.

(** Filtering twice with the same boolean test filters once. *)
Lemma filter_bool_idem (f : A -> bool) (l : list A) :
  filter (fun x => f x = true) (filter (fun x => f x = true) l)
  = filter (fun x => f x = true) l.
Proof.
  rewrite list_filter_filter. apply list_filter_iff. tauto.
Qed.

(** Filters with pointwise-equal tests agree. *)
Lemma filter_bool_ext (f g : A -> bool) (l : list A) :
  (forall x, x ∈ l -> f x = g x) ->
  filter (fun x => f x = true) l = filter (fun x => g x = true) l.
Proof.
  induction l as [|x l IH]; intros Hfg; [done|].
  rewrite !filter_cons, Hfg by set_solver.
  rewrite IH by set_solver. done.
Qed.

(** A filter keeps a list without duplicates free of duplicates. *)
Lemma NoDup_fmap_filter {B} (g : A -> B) (P : A -> Prop)
    `{!forall x, Decision (P x)} (l : list A) :
  NoDup (g <$> l) -> NoDup (g <$> filter P l).
Proof.
  intros Hnd. eapply sublist_NoDup; [exact Hnd|].
  apply fmap_sublist, sublist_filter.
Qed.

(** The factor at the end of a prefix is recovered by [take]/[drop]. *)
Lemma take_drop_factor (pre q suf : list A) :
  take (length q) (drop (length pre) (pre ++ q ++ suf)) = q.
Proof.
  rewrite drop_app_length, take_app_length. done.
Qed.
(** Filters with predicates equivalent on the list agree. *)
Lemma filter_ext_in (P1 P2 : A -> Prop) `{!forall x, Decision (P1 x)}
    `{!forall x, Decision (P2 x)} (l : list A) :
  (forall x, x ∈ l -> P1 x <-> P2 x) -> filter P1 l = filter P2 l.
Proof.
  induction l as [|x l IH]; intros HP; [done|].
  rewrite !filter_cons. rewrite IH by set_solver.
  assert (P1 x <-> P2 x) by (apply HP; set_solver).
  do 2 case_decide; tauto.
Qed.

(** [existsb] decides [Exists] of a predicate it reflects. *)
Lemma existsb_Exists_iff (f : A -> bool) (P : A -> Prop) (l : list A) :
  (forall x, x ∈ l -> f x = true <-> P x) ->
  existsb f l = true <-> Exists P l.
Proof.
  induction l as [|x l IH]; intros Hf; simpl.
  - split; [done|]. by intros ?%Exists_nil.
  - rewrite orb_true_iff, Exists_cons, Hf, IH by set_solver. done.
Qed.
(** A filter whose test holds on the whole list keeps the list. *)
Lemma filter_all (P : A -> Prop) `{!forall x, Decision (P x)} (l : list A) :
  (forall x, x ∈ l -> P x) -> filter P l = l.
Proof.
  induction l as [|x l IH]; intros HP; [done|].
  rewrite filter_cons_True by (apply HP; set_solver).
  rewrite IH by set_solver. done.
Qed.

(** A weaker test keeps more: filtering is monotone for [sublist]. *)
Lemma filter_sublist_mono (P1 P2 : A -> Prop) `{!forall x, Decision (P1 x)}
    `{!forall x, Decision (P2 x)} (l : list A) :
  (forall x, x ∈ l -> P1 x -> P2 x) -> filter P1 l `sublist_of` filter P2 l.
Proof.
  induction l as [|x l IH]; intros HP; [done|].
  rewrite !filter_cons.
  assert (filter P1 l `sublist_of` filter P2 l) by (apply IH; set_solver).
  case_decide; case_decide.
  - by apply sublist_skip.
  - exfalso. eauto with set_solver.
  - by apply sublist_cons.
  - done.
Qed.
(** A property of every element holds on a subsequence. *)
Lemma Forall_sublist_of (P : A -> Prop) (l1 l2 : list A) :
  l1 `sublist_of` l2 -> Forall P l2 -> Forall P l1.
Proof.
  induction 1 as [|x l1 l2 _ IH|x l1 l2 _ IH]; intros HF; [done| |];
    apply Forall_cons in HF as [? ?]; [constructor|]; auto.
Qed.

(** [imap] with a function that determines the index has no
    duplicates. *)
Lemma NoDup_imap_inj {B} (f : nat -> A -> B) (l : list A) :
  (forall i j x y, l !! i = Some x -> l !! j = Some y -> f i x = f j y -> i = j) ->
  NoDup (imap f l).
Proof.
  intros Hf. apply NoDup_alt. intros i j z Hi Hj.
  rewrite list_lookup_imap in Hi, Hj.
  destruct (l !! i) as [x|] eqn:Hx, (l !! j) as [y|] eqn:Hy; simplify_eq/=.
  eapply Hf; eauto.
Qed.
End ListFacts.

#[export] Hint Resolve NoDup_fmap_filter : js.
#[export] Hint Rewrite @filter_bool_idem @take_drop_factor : js_rw.
