(* ===== verification/JsString.v ===== *)
(** * String built-ins used by the page

    The ECMA-262 algorithms behind [s.includes(q)], [s.toLowerCase()] and
    the string conversion of an integer ([c.year + ""]), on strings as
    lists of UTF-16 code units.  [includes] is proved equal to the
    factor relation; [toLowerCase] is an interface ([CaseMapping]) with the
    laws the filters rely on and an instance exact on ASCII; the integer
    conversion is proved to produce digits and to be injective. *)

From S2P Require Import Prelude.
From Stdlib Require Import DecimalString DecimalZ.

(** ** [StringIndexOf] and [String.prototype.includes] *)

(** [substring(from, to)] of a string whose bounds are in range. *)
Definition substring (s : jsstr) (from to : nat) : jsstr :=
  take (to - from) (drop from s).

(** Step 4 of [StringIndexOf]: for each [i] with
    [fromIndex <= i <= len - searchLen], in ascending order, compare the
    candidate [substring(i, i + searchLen)] with the search value.  The
    fuel is the number of candidates. *)
Fixpoint index_of_loop (s q : jsstr) (i : nat) (fuel : nat) : Z :=
  match fuel with
  | O => -1
  | S fuel' =>
      if bool_decide (substring s i (i + length q) = q) then Z.of_nat i
      else index_of_loop s q (S i) fuel'
  end.

(** [StringIndexOf(string, searchValue, fromIndex)]: [-1] is
    "not-found". *)
Definition StringIndexOf (s q : jsstr) (fromIndex : nat) : Z :=
  let len := length s in
  let searchLen := length q in
  if bool_decide (q = []) && (fromIndex <=? len)%nat then Z.of_nat fromIndex
  else if (fromIndex + searchLen <=? len)%nat
       then index_of_loop s q fromIndex (S (len - searchLen - fromIndex))
       else -1.

(** [S.includes(searchString)] with [position] undefined: the start is
    [ToIntegerOrInfinity(undefined) = 0] clamped to [0, len], and the
    result is whether [StringIndexOf] found the search string. *)
Definition includes (S searchString : jsstr) : bool :=
  let start := 0%nat in
  negb (StringIndexOf S searchString start =? -1).

(** The reference: [q] is a factor (contiguous substring) of [s]. *)
Definition is_factor (q s : jsstr) : Prop :=
  exists pre suf, s = pre ++ q ++ suf.

(** ** [String.prototype.toLowerCase], as an interface *)

(** A decimal digit code unit, ['0'] to ['9']. *)
Definition is_decimal_unit (u : Z) : Prop := 48 <= u <= 57.

#[export] Instance is_decimal_unit_dec u : Decision (is_decimal_unit u).
Proof. unfold is_decimal_unit. apply _. Defined.

(** What the page calls as [x.toLowerCase()]. *)
Class CaseMapping := { toLowerCase : jsstr -> jsstr }.

(** The laws of Unicode's lower-case mapping the filters use: the empty
    string and digit strings are fixed, and no code unit is mapped to a
    digit unless it is that digit. *)
Class CaseMappingLaws `{CaseMapping} : Prop := {
  lower_nil : toLowerCase [] = [];
  lower_decimal s : Forall is_decimal_unit s -> toLowerCase s = s;
  lower_reflects_decimal s :
    Forall is_decimal_unit (toLowerCase s) -> Forall is_decimal_unit s
}.

(** A case mapping that works code unit by code unit (true of ASCII, not
    of Unicode's final-sigma rule). *)
Definition pointwise_case `{CaseMapping} : Prop :=
  exists f : Z -> Z, forall s, toLowerCase s = map f s.

(** The lower-case mapping of ASCII: ['A'..'Z'] to ['a'..'z']. *)
Definition ascii_lower_unit (u : Z) : Z :=
  if (65 <=? u) && (u <=? 90) then u + 32 else u.

#[export] Instance ascii_case : CaseMapping := {
  toLowerCase := map ascii_lower_unit
}.

(** ** [Number::toString] on integers *)

(** The code units of a decimal digit string of the Standard Library. *)
Fixpoint uint_units (d : Decimal.uint) : jsstr :=
  match d with
  | Decimal.Nil => []
  | Decimal.D0 d => 48 :: uint_units d
  | Decimal.D1 d => 49 :: uint_units d
  | Decimal.D2 d => 50 :: uint_units d
  | Decimal.D3 d => 51 :: uint_units d
  | Decimal.D4 d => 52 :: uint_units d
  | Decimal.D5 d => 53 :: uint_units d
  | Decimal.D6 d => 54 :: uint_units d
  | Decimal.D7 d => 55 :: uint_units d
  | Decimal.D8 d => 56 :: uint_units d
  | Decimal.D9 d => 57 :: uint_units d
  end.

(** [Number::toString(x, 10)] for an integral [x] with [|x| < 10^21]:
    ["-"] before the digits of [-x] when [x < 0], ["0"] for zero, the
    shortest decimal digits otherwise. *)
Definition Number_toString_int (z : Z) : jsstr :=
  match Z.to_int z with
  | Decimal.Pos d => uint_units d
  | Decimal.Neg d => 45 :: uint_units d
  end.

(** ** Lemmas *)

Lemma substring_take_drop (s q : jsstr) (i : nat) :
  substring s i (i + length q) = take (length q) (drop i s).
Proof. unfold substring. f_equal. lia. Qed.

(** The factor relation, by position. *)
Lemma is_factor_at (q s : jsstr) :
  is_factor q s <->
  exists j, (j + length q <= length s)%nat /\ take (length q) (drop j s) = q.
Proof.
  split.
  - intros (pre & suf & ->). exists (length pre).
    rewrite take_drop_factor, !length_app. split; [lia|done].
  - intros (j & Hlen & Hq). exists (take j s), (drop (length q) (drop j s)).
    rewrite <- Hq at 1. rewrite take_drop, take_drop. done.
Qed.

(** The scan finds a candidate exactly when one exists in its range. *)
Lemma index_of_loop_found (s q : jsstr) (i n : nat) :
  index_of_loop s q i n <> -1 <->
  exists j, (i <= j < i + n)%nat /\ take (length q) (drop j s) = q.
Proof.
  revert i. induction n as [|n IH]; intros i; simpl.
  - split; [done|]. intros (j & ? & _). lia.
  - rewrite substring_take_drop. case_bool_decide as Hc.
    + split; [|lia]. intros _. exists i. split; [lia|done].
    + rewrite IH. split.
      * intros (j & ? & ?). exists j. split; [lia|done].
      * intros (j & ? & Hj). destruct (decide (j = i)) as [->|]; [done|].
        exists j. split; [lia|done].
Qed.

(** A returned index is a position where the search value occurs. *)
Lemma index_of_loop_result (s q : jsstr) (i n j : nat) :
  index_of_loop s q i n = Z.of_nat j ->
  (i <= j < i + n)%nat /\ take (length q) (drop j s) = q.
Proof.
  revert i. induction n as [|n IH]; intros i; simpl; [lia|].
  rewrite substring_take_drop. case_bool_decide as Hc.
  - intros Hj%Nat2Z.inj. subst. split; [lia|done].
  - intros (? & ?)%IH. split; [lia|done].
Qed.

(** No earlier candidate matched. *)
Lemma index_of_loop_least (s q : jsstr) (i n j : nat) :
  index_of_loop s q i n = Z.of_nat j ->
  forall i', (i <= i' < j)%nat -> take (length q) (drop i' s) <> q.
Proof.
  revert i. induction n as [|n IH]; intros i; simpl; [lia|].
  rewrite substring_take_drop. case_bool_decide as Hc.
  - intros Hj%Nat2Z.inj i' ?. lia.
  - intros Hj i' Hi'. destruct (decide (i' = i)) as [->|]; [done|].
    apply (IH (S i)); [done|lia].
Qed.

(** The scan returns [-1] or an index. *)
Lemma index_of_loop_cases (s q : jsstr) (i n : nat) :
  index_of_loop s q i n = -1 \/ exists j, index_of_loop s q i n = Z.of_nat j.
Proof.
  revert i. induction n as [|n IH]; intros i; simpl; [by left|].
  case_bool_decide; [right; by eexists|apply IH].
Qed.

#[export] Hint Resolve index_of_loop_found : js.

Lemma uint_units_decimal d : Forall is_decimal_unit (uint_units d).
Proof.
  induction d; simpl; constructor; try done; unfold is_decimal_unit; lia.
Qed.

Lemma uint_units_inj d1 d2 : uint_units d1 = uint_units d2 -> d1 = d2.
Proof.
  revert d2; induction d1; intros []; simpl; intros H;
    try discriminate; try done; injection H as H; f_equal; auto.
Qed.

Lemma uint_units_no_minus d rest : uint_units d <> 45 :: rest.
Proof. destruct d; discriminate. Qed.

(** ** Theorems *)

(** [s.includes(q)] holds exactly when [q] occurs in [s] as a
    contiguous run of code units; in particular the empty query occurs in
    every string.  The ECMA scan over candidate positions is therefore
    equivalent to the reference factor relation. *)
Theorem includes_spec (s q : jsstr) :
  includes s q = true <-> is_factor q s.
Proof.
  unfold includes, StringIndexOf. rewrite is_factor_at.
  destruct (decide (q = [])) as [->|Hq].
  - rewrite bool_decide_true by done. simpl. split; [|done].
    intros _. exists 0%nat. simpl. split; [lia|done].
  - rewrite bool_decide_false by done. cbn [andb Nat.add].
    destruct (Nat.leb_spec (length q) (length s)) as [Hle|Hgt].
    + rewrite negb_true_iff, Z.eqb_neq, index_of_loop_found.
      split; intros (j & Hj & Hm); exists j; split; [lia|done|lia|done].
    + split; [done|]. intros (j & Hj & _). lia.
Qed.

Lemma includes_nil (s : jsstr) : includes s [] = true.
Proof. apply includes_spec. by exists [], s. Qed.

(** A factor of a digit string is a digit string. *)
Lemma factor_decimal (q s : jsstr) :
  is_factor q s -> Forall is_decimal_unit s -> Forall is_decimal_unit q.
Proof.
  intros (pre & suf & ->). rewrite !Forall_app. tauto.
Qed.

(** the ASCII case mapping meets the laws of [CaseMapping]: it fixes
    the empty string and digit strings, and never maps a non-digit to a
    digit. *)
Theorem ascii_case_laws : CaseMappingLaws.
Proof.
  split; simpl.
  - done.
  - intros s Hs. induction Hs as [|u s Hu _ IH]; [done|]. simpl. rewrite IH.
    unfold ascii_lower_unit, is_decimal_unit in *.
    destruct (Z.leb_spec 65 u), (Z.leb_spec u 90); simpl; lia || done.
  - induction s as [|u s IH]; simpl; intros Hs; [done|].
    apply Forall_cons in Hs as [Hu Hs]. constructor; [|auto].
    unfold ascii_lower_unit, is_decimal_unit in *.
    destruct (Z.leb_spec 65 u), (Z.leb_spec u 90); simpl in Hu; lia.
Qed.

#[export] Existing Instance ascii_case_laws.

Lemma ascii_case_pointwise : @pointwise_case ascii_case.
Proof. by exists ascii_lower_unit. Qed.

(** the decimal string of a non-negative integer consists of digit
    code units only; this is what makes the raw comparison of a year with
    the query equivalent to a case-insensitive one. *)
Theorem Number_toString_int_decimal (z : Z) :
  0 <= z -> Forall is_decimal_unit (Number_toString_int z).
Proof.
  intros Hz. unfold Number_toString_int.
  destruct z as [|p|p]; simpl; [|apply uint_units_decimal|lia].
  constructor; [unfold is_decimal_unit; lia|constructor].
Qed.

(** Distinct integers have distinct decimal strings. *)
Theorem Number_toString_int_inj (z1 z2 : Z) :
  Number_toString_int z1 = Number_toString_int z2 -> z1 = z2.
Proof.
  unfold Number_toString_int. intros H. apply DecimalZ.to_int_inj.
  destruct (Z.to_int z1), (Z.to_int z2); simpl in H.
  - by rewrite (uint_units_inj _ _ H).
  - by apply uint_units_no_minus in H.
  - symmetry in H. by apply uint_units_no_minus in H.
  - injection H as H. by rewrite (uint_units_inj _ _ H).
Qed.

(** Factors: the empty string, transitivity, images by a code-unit
    map. *)
Lemma is_factor_nil (s : jsstr) : is_factor [] s.
Proof. by exists [], s. Qed.

Lemma is_factor_refl (s : jsstr) : is_factor s s.
Proof. exists [], []. by rewrite app_nil_r. Qed.

Lemma is_factor_trans (a b c : jsstr) :
  is_factor a b -> is_factor b c -> is_factor a c.
Proof.
  intros (p1 & s1 & ->) (p2 & s2 & ->).
  exists (p2 ++ p1), (s1 ++ s2). by rewrite <- !app_assoc.
Qed.

Lemma is_factor_map (f : Z -> Z) (a b : jsstr) :
  is_factor a b -> is_factor (map f a) (map f b).
Proof.
  intros (pre & suf & ->). exists (map f pre), (map f suf).
  by rewrite !map_app.
Qed.

(** A factor of a digit string is fixed by any lawful case mapping, and
    so is its image. *)
Lemma digits_factor_lower `{CaseMappingLaws} (q d : jsstr) :
  Forall is_decimal_unit d ->
  is_factor q d <-> is_factor (toLowerCase q) (toLowerCase d).
Proof.
  intros Hd. rewrite (lower_decimal d Hd). split.
  - intros Hf. by rewrite (lower_decimal q (factor_decimal q d Hf Hd)).
  - intros Hf. pose proof (factor_decimal _ _ Hf Hd) as Hq.
    by rewrite (lower_decimal q (lower_reflects_decimal q Hq)) in Hf.
Qed.

#[export] Hint Resolve is_factor_nil is_factor_refl : js.

(** A string whose last code unit is not a digit. *)
Definition ends_non_digit (t : jsstr) : Prop :=
  match last t with
  | Some u => ~ is_decimal_unit u
  | None => False
  end.

#[export] Instance ends_non_digit_dec t : Decision (ends_non_digit t).
Proof. unfold ends_non_digit. destruct (last t); apply _. Defined.

Lemma ends_non_digit_app (t k d : jsstr) :
  ends_non_digit (t ++ k) -> Forall is_decimal_unit (k ++ d) -> k = [].
Proof.
  unfold ends_non_digit. rewrite last_app. destruct (last k) as [u|] eqn:Hk.
  - intros Hu Hd. exfalso. apply Hu. rewrite Forall_forall in Hd.
    apply Hd. apply last_Some_elem_of in Hk. set_solver.
  - intros _ _. by apply last_None.
Qed.

(** A string ending in a non-digit, followed by digits, splits in one way
    only. *)
Lemma app_digits_inj (t1 t2 d1 d2 : jsstr) :
  ends_non_digit t1 -> ends_non_digit t2 ->
  Forall is_decimal_unit d1 -> Forall is_decimal_unit d2 ->
  t1 ++ d1 = t2 ++ d2 -> t1 = t2 /\ d1 = d2.
Proof.
  intros H1 H2 Hd1 Hd2 Heq.
  destruct (app_eq_inv _ _ _ _ Heq) as [(k & -> & ->)|(k & -> & ->)].
  - by rewrite (ends_non_digit_app t2 k d1 H1 Hd2), app_nil_r.
  - by rewrite (ends_non_digit_app t1 k d2 H2 Hd1), app_nil_r.
Qed.

(** [StringIndexOf(s, q, 0)], the search behind [s.includes(q)],
    returns the least position at which [q] occurs in [s], or [-1]
    ("not-found") when [q] does not occur in [s]. *)
Theorem StringIndexOf_least (s q : jsstr) :
  (StringIndexOf s q 0 = -1 /\ ~ is_factor q s) \/
  (exists j, StringIndexOf s q 0 = Z.of_nat j /\
     (j + length q <= length s)%nat /\ take (length q) (drop j s) = q /\
     forall i, (i < j)%nat -> take (length q) (drop i s) <> q).
Proof.
  rewrite is_factor_at. unfold StringIndexOf.
  destruct (decide (q = [])) as [->|Hq].
  - rewrite bool_decide_true by done. right. exists 0%nat.
    split; [done|]. split; [simpl; lia|]. split; [done|lia].
  - rewrite bool_decide_false by done. cbn [andb Nat.add].
    destruct (Nat.leb_spec (length q) (length s)) as [Hle|Hgt].
    + destruct (index_of_loop_cases s q 0 (S (length s - length q - 0)))
        as [Hm|[j Hj]].
      * left. split; [done|]. intros (j & ? & ?).
        enough (index_of_loop s q 0 (S (length s - length q - 0)) <> -1) by done.
        apply index_of_loop_found. exists j. split; [lia|done].
      * right. exists j. split; [done|].
        pose proof (index_of_loop_result _ _ _ _ _ Hj) as [? ?].
        split; [lia|]. split; [done|].
        intros i ?. apply (index_of_loop_least _ _ _ _ _ Hj). lia.
    + left. split; [done|]. intros (j & ? & _). lia.
Qed.

Example Number_toString_2022 : Number_toString_int 2022 = js "2022".
Proof. reflexivity. Qed.

Example Number_toString_neg : Number_toString_int (-7) = js "-7".
Proof. reflexivity. Qed.
