(* ===== verification/JsArray.v ===== *)
(** * Array built-ins used by the page

    [Array.prototype.filter], [Array.prototype.some] and
    [Array.prototype.map] as the index loops of ECMA-262, on arrays
    without holes (every array of the page is a literal or the result of
    one of these methods).  Each loop runs on a fuel equal to the number
    of iterations the specification performs, and is proved equal to the
    list function it computes: with that fuel it never stops early. *)

From S2P Require Import Prelude.

(** Steps 5-6 of [Array.prototype.filter]: while [k < len], read
    [O[k]] if present, call the callback, append the selected value. *)
Fixpoint filter_loop {A} (arr : list A) (callbackfn : A -> bool)
    (k fuel : nat) (acc : list A) : list A :=
  match fuel with
  | O => acc
  | S fuel' =>
      match arr !! k with
      | Some kValue =>
          let selected := callbackfn kValue in
          filter_loop arr callbackfn (S k) fuel'
            (if selected then acc ++ [kValue] else acc)
      | None => filter_loop arr callbackfn (S k) fuel' acc
      end
  end.

(** [arr.filter(callbackfn)]: [len = LengthOfArrayLike(O)], [k = 0],
    [A = ArraySpeciesCreate(O, 0)]. *)
Definition Array_filter {A} (arr : list A) (callbackfn : A -> bool) : list A :=
  let len := length arr in
  filter_loop arr callbackfn 0 len [].

(** Step 4 of [Array.prototype.some]: return [true] at the first
    selected element, [false] after the loop. *)
Fixpoint some_loop {A} (arr : list A) (callbackfn : A -> bool)
    (k fuel : nat) : bool :=
  match fuel with
  | O => false
  | S fuel' =>
      match arr !! k with
      | Some kValue =>
          if callbackfn kValue then true
          else some_loop arr callbackfn (S k) fuel'
      | None => some_loop arr callbackfn (S k) fuel'
      end
  end.

Definition Array_some {A} (arr : list A) (callbackfn : A -> bool) : bool :=
  let len := length arr in
  some_loop arr callbackfn 0 len.

(** Step 6 of [Array.prototype.map]: [A[k] = callbackfn(O[k], k)]. *)
Fixpoint map_loop {A B} (arr : list A) (callbackfn : A -> nat -> B)
    (k fuel : nat) : list B :=
  match fuel with
  | O => []
  | S fuel' =>
      match arr !! k with
      | Some kValue => callbackfn kValue k :: map_loop arr callbackfn (S k) fuel'
      | None => map_loop arr callbackfn (S k) fuel'
      end
  end.

Definition Array_map {A B} (arr : list A) (callbackfn : A -> nat -> B) : list B :=
  let len := length arr in
  map_loop arr callbackfn 0 len.

(** ** Loop lemmas *)

Section Loops.
Context {A : Type}.

(** Reading the array from [k] on is reading [drop k arr]. *)
Lemma lookup_drop_head (arr : list A) (k : nat) :
  arr !! k = head (drop k arr).
Proof.
  revert k. induction arr as [|x arr IH]; intros [|k]; simpl; auto.
Qed.

Lemma drop_S_lookup (arr : list A) (k : nat) (x : A) :
  arr !! k = Some x -> drop k arr = x :: drop (S k) arr.
Proof.
  revert k. induction arr as [|y arr IH]; intros [|k] Hk; simpl in *;
    try discriminate; [by injection Hk as ->|auto].
Qed.

Lemma filter_loop_drop (arr : list A) f k acc :
  filter_loop arr f k (length arr - k) acc
  = acc ++ filter (fun x => f x = true) (drop k arr).
Proof.
  remember (length arr - k)%nat as n eqn:Hn. revert k acc Hn.
  induction n as [|n IH]; intros k acc Hn; simpl.
  - rewrite drop_ge by lia. by rewrite app_nil_r.
  - destruct (arr !! k) as [x|] eqn:Hk.
    + rewrite (drop_S_lookup _ _ _ Hk), filter_cons, IH by lia.
      case_decide as Hfx; [rewrite Hfx; by rewrite <- app_assoc|].
      by destruct (f x).
    + apply lookup_ge_None in Hk. lia.
Qed.

Lemma some_loop_drop (arr : list A) f k :
  some_loop arr f k (length arr - k) = existsb f (drop k arr).
Proof.
  remember (length arr - k)%nat as n eqn:Hn. revert k Hn.
  induction n as [|n IH]; intros k Hn; simpl.
  - by rewrite drop_ge by lia.
  - destruct (arr !! k) as [x|] eqn:Hk.
    + rewrite (drop_S_lookup _ _ _ Hk). simpl.
      destruct (f x); simpl; [done|]. apply IH. lia.
    + apply lookup_ge_None in Hk. lia.
Qed.

Lemma map_loop_drop {B} (arr : list A) (f : A -> nat -> B) k :
  map_loop arr f k (length arr - k) = imap (fun i x => f x (k + i)%nat) (drop k arr).
Proof.
  remember (length arr - k)%nat as n eqn:Hn. revert k Hn.
  induction n as [|n IH]; intros k Hn; simpl.
  - by rewrite drop_ge by lia.
  - destruct (arr !! k) as [x|] eqn:Hk.
    + rewrite (drop_S_lookup _ _ _ Hk). simpl. rewrite Nat.add_0_r, IH by lia.
      f_equal. apply imap_ext. intros i y _. simpl. f_equal. lia.
    + apply lookup_ge_None in Hk. lia.
Qed.
(** The loop stops changing once it has read the whole array: any fuel
    from the number of remaining indices on gives the same result. *)
Lemma filter_loop_fuel (arr : list A) f k fuel acc :
  (length arr - k <= fuel)%nat ->
  filter_loop arr f k fuel acc = acc ++ filter (fun x => f x = true) (drop k arr).
Proof.
  revert k acc. induction fuel as [|fuel IH]; intros k acc Hf; simpl.
  - rewrite drop_ge by lia. by rewrite app_nil_r.
  - destruct (arr !! k) as [x|] eqn:Hk.
    + rewrite (drop_S_lookup _ _ _ Hk), filter_cons, IH by lia.
      case_decide as Hfx; [rewrite Hfx; by rewrite <- app_assoc|].
      by destruct (f x).
    + apply lookup_ge_None in Hk. rewrite IH by lia.
      by rewrite !drop_ge by lia.
Qed.
End Loops.

(** ** Theorems *)

(** [arr.filter(callbackfn)] returns, in their original order, the
    elements of [arr] the callback selects: the ECMA loop computes the
    list filter, and with its fuel (the array's length) it runs to the
    end of the array. *)
Theorem Array_filter_spec {A} (arr : list A) (callbackfn : A -> bool) :
  Array_filter arr callbackfn = filter (fun x => callbackfn x = true) arr.
Proof.
  unfold Array_filter. rewrite <- (Nat.sub_0_r (length arr)).
  by rewrite filter_loop_drop.
Qed.

(** [arr.some(callbackfn)] is true exactly when some element is
    selected by the callback; the early return agrees with [existsb]. *)
Theorem Array_some_spec {A} (arr : list A) (callbackfn : A -> bool) :
  Array_some arr callbackfn = existsb callbackfn arr.
Proof.
  unfold Array_some. rewrite <- (Nat.sub_0_r (length arr)).
  by rewrite some_loop_drop.
Qed.

(** [arr.map((x, i) => ...)] is [imap] with the arguments swapped. *)
Lemma Array_map_spec {A B} (arr : list A) (callbackfn : A -> nat -> B) :
  Array_map arr callbackfn = imap (fun i x => callbackfn x i) arr.
Proof.
  unfold Array_map. rewrite <- (Nat.sub_0_r (length arr)).
  by rewrite map_loop_drop.
Qed.

#[export] Hint Rewrite @Array_map_spec : js_rw.

(** A callback that ignores the index maps the array. *)
Lemma Array_map_const {A B} (arr : list A) (f : A -> nat -> B) (g : A -> B) :
  (forall x i, f x i = g x) -> Array_map arr f = g <$> arr.
Proof.
  intros Hf. rewrite Array_map_spec, <- imap_const.
  apply imap_ext. intros i x _. apply Hf.
Qed.
