(* ===== verification/PortfolioData.v ===== *)
(** * The literal data of the page

    The module-level constants [skills], [projects] and [certifications]
    of the page (lines 74-154), as Rocq values, and the facts about them
    the page relies on: the React keys drawn from them are distinct, the
    years are non-negative, and every string is ASCII (so the ASCII case
    mapping is exact on them). *)

From S2P Require Import Prelude JsString.

(** A project: [{ title, tags, blurb, link }]. *)
Module Project.
Record t := mk {
  title : jsstr;
  tags : list jsstr;
  blurb : jsstr;
  link : jsstr
}.
End Project.

(** A certification: [{ title, org, year }]; [year] is an integral
    number. *)
Module Certification.
Record t := mk {
  title : jsstr;
  org : jsstr;
  year : Z
}.
End Certification.

(** [const skills = { ... }]: an object with string keys, whose
    [Object.entries] follow insertion order. *)
Definition skills : list (jsstr * list jsstr) := [
  (js "Data & Database", map js ["SQL"; "PL/SQL"; "Oracle DB"; "Data Modeling"]);
  (js "Visualization", map js ["Power BI"; "Crystal Reports"; "Seaborn"; "Matplotlib"]);
  (js "AI/ML & GenAI", map js ["Python"; "Pandas"; "NumPy"; "HuggingFace";
     "LangChain"; "Pinecone"; "Weaviate"; "FAISS"; "FastAPI"; "Flask"; "Streamlit"]);
  (js "Banking Solutions", map js ["Core Banking"; "MIS Reports"; "Data Analytics"])
]%string.

Definition project (title : string) (tags : list string) (blurb link : string)
  : Project.t :=
  Project.mk (js title) (map js tags) (js blurb) (js link).

(** [const projects = [ ... ]]. *)
Definition projects : list Project.t := [
  project "Loan Performance Analysis" ["SQL"; "Python"; "Power BI"]
    "Analyzed loan portfolios to identify delinquency patterns and optimized risk metrics; interactive KPI dashboards."
    "#";
  project "Branch-wise Profit & Loss Prediction Dashboard" ["Forecasting"; "Python"; "Power BI"]
    "Predictive modeling for P&L with feature-engineered macro & seasonal signals; deployed for management review."
    "#";
  project "Clean Cash Analysis" ["ETL"; "SQL"; "Excel"]
    "Automated ingestion and reconciliation workflows to flag anomalies in cash cycles."
    "#";
  project "Zone-wise Sales Forecasting" ["Time Series"; "Python"; "Streamlit"]
    "ARIMA/Prophet-based forecasts with what-if analysis embedded into a Streamlit app."
    "#";
  project "Customer Review Sentiment Analysis (Food Shop)" ["NLP"; "HuggingFace"; "LangChain"]
    "Fine-tuned transformers for sentiment trends and aspect mining from multi-source reviews."
    "#";
  project "Bulk Email Automation with AI" ["Generative AI"; "FastAPI"; "LangChain"]
    "Context-aware email generation & scheduling; integrated vector search using Pinecone."
    "#";
  project "Email Data Analytics (Response Time & Trends)" ["Analytics"; "Python"; "Dashboards"]
    "Response time SLAs & trend analytics with anomaly detection and executive summaries."
    "#"
]%string.

Definition certification (title org : string) (year : Z) : Certification.t :=
  Certification.mk (js title) (js org) year.

(** [const certifications = [ ... ]]. *)
Definition certifications : list Certification.t := [
  certification "Advanced Power BI Custom Visuals with d3.js" "LinkedIn" 2023;
  certification "Python for Data Science & ML" "LinkedIn" 2022;
  certification "SQL Data Reporting & Analysis" "LinkedIn" 2021;
  certification "Career Essentials in Data Analysis" "Microsoft" 2024
]%string.

(** ** Well-formedness of the data *)

(** Every code unit is ASCII. *)
Definition ascii_str (s : jsstr) : Prop := Forall (fun u => 0 <= u < 128) s.

#[export] Instance ascii_str_dec s : Decision (ascii_str s).
Proof. unfold ascii_str. apply _. Defined.

(** The data the page renders with React keys: project titles
    ([key={p.title}]), the tags of each project ([key={t}]), the skill
    groups ([key={group}]) and their items ([key={s}]); the certification
    titles, to which the card key appends an index, end in a non-digit. *)
Definition data_wf : Prop :=
  NoDup (Project.title <$> projects) /\
  Forall (fun p => NoDup (Project.tags p)) projects /\
  NoDup (fst <$> skills) /\
  Forall (fun g => NoDup g.2) skills /\
  NoDup (Certification.title <$> certifications) /\
  Forall (fun c => 0 <= Certification.year c) certifications /\
  Forall (fun c => ends_non_digit (Certification.title c)) certifications /\
  Forall (fun p => ascii_str (Project.title p) /\ Forall ascii_str (Project.tags p))
    projects /\
  Forall (fun c => ascii_str (Certification.title c) /\ ascii_str (Certification.org c))
    certifications.

#[export] Instance data_wf_dec : Decision data_wf.
Proof. unfold data_wf. apply _. Defined.

Lemma data_wf_holds : data_wf.
Proof. apply (bool_decide_eq_true_1 _). vm_compute. reflexivity. Qed.

Lemma projects_titles_NoDup : NoDup (Project.title <$> projects).
Proof. apply data_wf_holds. Qed.

Lemma projects_tags_NoDup : Forall (fun p => NoDup (Project.tags p)) projects.
Proof. apply data_wf_holds. Qed.

Lemma certifications_titles_NoDup : NoDup (Certification.title <$> certifications).
Proof. apply data_wf_holds. Qed.

Lemma certifications_years_nonneg :
  Forall (fun c => 0 <= Certification.year c) certifications.
Proof. apply data_wf_holds. Qed.

Lemma certifications_titles_end : 
  Forall (fun c => ends_non_digit (Certification.title c)) certifications.
Proof. apply data_wf_holds. Qed.

Lemma skills_keys_NoDup :
  NoDup (fst <$> skills) /\ Forall (fun g => NoDup g.2) skills.
Proof. split; apply data_wf_holds. Qed.

#[export] Hint Resolve projects_titles_NoDup projects_tags_NoDup
  certifications_titles_NoDup certifications_years_nonneg : js.
