(* ===== verification/TextFilter.v ===== *)
(** * The two search filters of the page

    [filteredProjects] (lines 221-229) and [filteredCerts] (231-240) as
    the code writes them: [Array.prototype.filter] over the literal array,
    with a callback that lower-cases the field and the query and calls
    [includes]; the certification year is converted with [c.year + ""]
    and compared with the raw query.

    The spec states one contract for both ([text_filter]: keep, in order,
    the items one of whose fields contains the query case-insensitively).
    The refinement theorems show the code implements it, the year's raw
    comparison included, for every case mapping satisfying the
    [CaseMapping] laws; the laws of the filter are proved on the code. *)

From S2P Require Import Prelude JsString JsArray PortfolioData.

(** ** The code *)

Section Filters.
Context `{CM : CaseMapping}.

(** The callback of [projects.filter]: title or some tag contains the
    query, both lower-cased. *)
Definition project_matches (query : jsstr) (p : Project.t) : bool :=
  includes (toLowerCase (Project.title p)) (toLowerCase query) ||
  Array_some (Project.tags p)
    (fun t => includes (toLowerCase t) (toLowerCase query)).

Definition filter_projects (query : jsstr) (ps : list Project.t)
  : list Project.t :=
  Array_filter ps (project_matches query).

(** The memoised value [filteredProjects] for the current [query]. *)
Definition filteredProjects (query : jsstr) : list Project.t :=
  filter_projects query projects.

(** The callback of [certifications.filter]: title or organisation
    contains the lower-cased query, or the year's decimal string
    contains the raw query. *)
Definition cert_matches (certQuery : jsstr) (c : Certification.t) : bool :=
  includes (toLowerCase (Certification.title c)) (toLowerCase certQuery) ||
  includes (toLowerCase (Certification.org c)) (toLowerCase certQuery) ||
  includes (Number_toString_int (Certification.year c) ++ js "") certQuery.

Definition filter_certs (certQuery : jsstr) (cs : list Certification.t)
  : list Certification.t :=
  Array_filter cs (cert_matches certQuery).

Definition filteredCerts (certQuery : jsstr) : list Certification.t :=
  filter_certs certQuery certifications.

(** ** The contract of the spec *)

#[export] Instance is_factor_dec (q s : jsstr) : Decision (is_factor q s).
Proof.
  destruct (includes s q) eqn:E.
  - left. by apply includes_spec.
  - right. intros Hf%includes_spec. congruence.
Defined.

(** An item is selected when one of its searchable fields contains the
    query, both compared lower-cased. *)
Definition selects {T} (fields : T -> list jsstr) (query : jsstr) (x : T)
  : Prop :=
  Exists (fun f => is_factor (toLowerCase query) (toLowerCase f)) (fields x).

(** [filter(query, items, fields)] of the spec. *)
Definition text_filter {T} (fields : T -> list jsstr) (query : jsstr)
    (items : list T) : list T :=
  filter (selects fields query) items.

Definition project_fields (p : Project.t) : list jsstr :=
  Project.title p :: Project.tags p.

Definition cert_fields (c : Certification.t) : list jsstr :=
  [Certification.title c; Certification.org c;
   Number_toString_int (Certification.year c)].
End Filters.

(** ** The code against the contract *)

Section Refinement.
Context `{CM : CaseMapping}.

Lemma project_matches_selects (q : jsstr) (p : Project.t) :
  project_matches q p = true <-> selects project_fields q p.
Proof.
  unfold project_matches, selects, project_fields.
  rewrite orb_true_iff, Exists_cons, includes_spec, Array_some_spec.
  rewrite (existsb_Exists_iff _ (fun f => is_factor (toLowerCase q) (toLowerCase f)));
    [done|].
  intros t _. apply includes_spec.
Qed.

Lemma filter_projects_spec (q : jsstr) (ps : list Project.t) :
  filter_projects q ps = text_filter project_fields q ps.
Proof.
  unfold filter_projects, text_filter. rewrite Array_filter_spec.
  apply list_filter_iff. intros p. apply project_matches_selects.
Qed.

(** The code's test for a certification, year compared raw. *)
Lemma cert_matches_raw (q : jsstr) (c : Certification.t) :
  cert_matches q c = true <->
  is_factor (toLowerCase q) (toLowerCase (Certification.title c)) \/
  is_factor (toLowerCase q) (toLowerCase (Certification.org c)) \/
  is_factor q (Number_toString_int (Certification.year c)).
Proof.
  unfold cert_matches. replace (js "") with (@nil Z) by reflexivity.
  rewrite app_nil_r, !orb_true_iff, !includes_spec. tauto.
Qed.

Lemma cert_matches_selects `{!CaseMappingLaws} (q : jsstr) (c : Certification.t) :
  0 <= Certification.year c ->
  cert_matches q c = true <-> selects cert_fields q c.
Proof.
  intros Hy. rewrite cert_matches_raw. unfold selects, cert_fields.
  rewrite !Exists_cons, Exists_nil.
  rewrite (digits_factor_lower q _ (Number_toString_int_decimal _ Hy)). tauto.
Qed.

Lemma filter_certs_spec `{!CaseMappingLaws} (q : jsstr) (cs : list Certification.t) :
  Forall (fun c => 0 <= Certification.year c) cs ->
  filter_certs q cs = text_filter cert_fields q cs.
Proof.
  intros Hy. unfold filter_certs, text_filter. rewrite Array_filter_spec.
  apply filter_ext_in. intros c Hc. apply cert_matches_selects.
  rewrite Forall_forall in Hy. by apply Hy.
Qed.

Lemma filter_certs_as_filter (q : jsstr) (cs : list Certification.t) :
  filter_certs q cs = filter (fun c => cert_matches q c = true) cs.
Proof. apply Array_filter_spec. Qed.

Lemma filter_projects_as_filter (q : jsstr) (ps : list Project.t) :
  filter_projects q ps = filter (fun p => project_matches q p = true) ps.
Proof. apply Array_filter_spec. Qed.

Lemma filter_projects_nil `{!CaseMappingLaws} (ps : list Project.t) : filter_projects [] ps = ps.
Proof.
  rewrite filter_projects_as_filter. apply filter_all. intros p _.
  unfold project_matches. by rewrite lower_nil, includes_nil.
Qed.

Lemma filter_certs_nil `{!CaseMappingLaws} (cs : list Certification.t) : filter_certs [] cs = cs.
Proof.
  rewrite filter_certs_as_filter. apply filter_all. intros c _.
  unfold cert_matches. by rewrite lower_nil, includes_nil.
Qed.
End Refinement.

#[export] Hint Rewrite @filter_certs_as_filter @filter_projects_as_filter : js_rw.

(** ** Theorems *)

Section Theorems.
Context `{CM : CaseMapping}.

(** C2: the filters implement the spec's contract: [filter_projects]
    is the generic case-insensitive filter over the fields [title] and
    [tags], and [filter_certs], whose year is compared with the raw
    query, is the generic filter over [title], [org] and the year's
    decimal string, for every case mapping with the [CaseMapping] laws
    and every list of certifications with non-negative years. *)
Theorem filters_refine_contract `{!CaseMappingLaws} (q : jsstr)
    (ps : list Project.t) (cs : list Certification.t) :
  Forall (fun c => 0 <= Certification.year c) cs ->
  filter_projects q ps = text_filter project_fields q ps /\
  filter_certs q cs = text_filter cert_fields q cs.
Proof.
  intros Hy. split; [apply filter_projects_spec|by apply filter_certs_spec].
Qed.

(** C13: the empty query keeps every item: both filters are the
    identity on the empty string. *)
Theorem filters_empty_query `{!CaseMappingLaws} (ps : list Project.t)
    (cs : list Certification.t) :
  filter_projects [] ps = ps /\ filter_certs [] cs = cs.
Proof. split; [apply filter_projects_nil|apply filter_certs_nil]. Qed.

(** C12: a certification is shown exactly when it is in the list and its
    lower-cased title or organisation contains the lower-cased query,
    or the decimal string of its year contains the query as typed. *)
Theorem filter_certs_members (q : jsstr) (cs : list Certification.t)
    (c : Certification.t) :
  c ∈ filter_certs q cs <->
  c ∈ cs /\
  (is_factor (toLowerCase q) (toLowerCase (Certification.title c)) \/
   is_factor (toLowerCase q) (toLowerCase (Certification.org c)) \/
   is_factor q (Number_toString_int (Certification.year c))).
Proof.
  rewrite filter_certs_as_filter, list_elem_of_filter, cert_matches_raw.
  tauto.
Qed.

(** C22: typing more characters narrows the view: when the old query
    [q] occurs in the new query [q'], every item shown for [q'] was
    already shown for [q], in the same order.  This needs a case mapping
    that works code unit by code unit. *)
Theorem filters_narrow (Hpw : pointwise_case) (q q' : jsstr)
    (ps : list Project.t) (cs : list Certification.t) :
  is_factor q q' ->
  filter_projects q' ps `sublist_of` filter_projects q ps /\
  filter_certs q' cs `sublist_of` filter_certs q cs.
Proof.
  intros Hq. destruct Hpw as [f Hf].
  assert (Hl : forall s, is_factor (toLowerCase q') (toLowerCase s) ->
                         is_factor (toLowerCase q) (toLowerCase s)).
  { intros s. apply is_factor_trans. rewrite !Hf. by apply is_factor_map. }
  rewrite !filter_projects_as_filter, !filter_certs_as_filter.
  split; apply filter_sublist_mono; intros x _.
  - rewrite !project_matches_selects. unfold selects.
    intros Hx. eapply Exists_impl; [exact Hx|]. auto.
  - rewrite !cert_matches_raw. intros [?|[?|?]]; [left|right;left|right;right];
      eauto using is_factor_trans.
Qed.
End Theorems.

(** ** Witnesses *)

Lemma filters_refine_contract_witness :
  filter_projects (js "sql") projects = text_filter project_fields (js "sql") projects /\
  filter_certs (js "sql") certifications
    = text_filter cert_fields (js "sql") certifications.
Proof.
  apply filters_refine_contract.
  apply (bool_decide_eq_true_1 _). vm_compute. reflexivity.
Defined.

Lemma filters_empty_query_witness :
  filter_projects [] projects = projects /\ filter_certs [] certifications = certifications.
Proof. apply filters_empty_query. Defined.

Lemma filters_narrow_witness :
  filter_projects (js "python") projects `sublist_of` filter_projects (js "py") projects /\
  filter_certs (js "python") certifications `sublist_of` filter_certs (js "py") certifications.
Proof.
  assert (Hpw : pointwise_case) by (exists ascii_lower_unit; reflexivity).
  apply (filters_narrow Hpw (js "py")). exists [], (js "thon"). reflexivity.
Defined.
