(* ===== verification/Theme.v ===== *)
(** * The dark-mode hook [useDarkMode]

    Lines 50-71 of the page.  The hook keeps one React state, [enabled],
    whose initializer reads [localStorage] and the media query
    [(prefers-color-scheme: dark)], and one effect, keyed on [[enabled]],
    that adds or removes the class [dark] of the document root and writes
    ["dark"] or ["light"] under the storage key ["theme"].

    The browser is explicit state ([Browser]): the storage (absent when
    reading [window.localStorage] throws, as it does when site data is
    blocked), the result of [matchMedia] (absent when [window.matchMedia]
    is not a function) and the class list of the root.  React's rules are
    written out: the initializer runs once, the effect runs after the
    first commit and after every commit whose dependency changed, and a
    state update with the current value bails out without rendering. *)

From S2P Require Import Prelude JsString.

(** ** Browser state *)

Record Browser := mkBrowser {
  localStorage : option (gmap jsstr jsstr);
  matchMedia_dark : option bool;
  root_classes : list jsstr
}.

(** Where the initializer runs: during server rendering
    ([typeof window === "undefined"]) or in a browser. *)
Inductive Env :=
| Server
| Client (b : Browser).

(** [DOMTokenList.add]: append the token when it is absent. *)
Definition classList_add (t : jsstr) (cl : list jsstr) : list jsstr :=
  if bool_decide (t ∈ cl) then cl else cl ++ [t].

(** [DOMTokenList.remove]: drop the token. *)
Definition classList_remove (t : jsstr) (cl : list jsstr) : list jsstr :=
  filter (fun u => u <> t) cl.

(** [localStorage.setItem(k, v)]: throws a [SecurityError] when storage
    is inaccessible.  The [QuotaExceededError] of a full storage area is
    not modelled: the page's only writes put ["dark"] or ["light"] under
    ["theme"], at most ten code units replacing the page's own value, in
    an origin's area of several megabytes; the model assumes that such a
    write fits, which fails only when other content of the same origin
    has filled the area to within a unit. *)
Definition setItem (k v : jsstr) (b : Browser) : Browser * completion unit :=
  match localStorage b with
  | None => (b, Throw SecurityError)
  | Some st => (mkBrowser (Some (<[k := v]> st)) (matchMedia_dark b) (root_classes b),
                Normal tt)
  end.

Definition set_root_classes (cl : list jsstr) (b : Browser) : Browser :=
  mkBrowser (localStorage b) (matchMedia_dark b) cl.

(** ** The hook *)

(** The state initializer of [useState] (lines 51-57).  The operators
    [||] and [&&] short-circuit: [matchMedia] is only called when the
    stored value is not ["dark"] and the key is absent. *)
Definition useDarkMode_init (env : Env) : completion bool :=
  match env with
  | Server => Normal true
  | Client b =>
      match localStorage b with
      | None => Throw SecurityError
      | Some st =>
          if bool_decide (st !! js "theme" = Some (js "dark")) then Normal true
          else if negb (bool_decide (is_Some (st !! js "theme"))) then
            match matchMedia_dark b with
            | None => Throw TypeError
            | Some matches => Normal matches
            end
          else Normal false
      end
  end.

(** The value the effect stores for a flag. *)
Definition theme_value (enabled : bool) : jsstr :=
  if enabled then js "dark" else js "light".

(** The effect body (lines 59-68): class list first, then storage; a
    throwing [setItem] leaves the class change in place. *)
Definition theme_effect (enabled : bool) (b : Browser) : Browser * completion unit :=
  if enabled then
    setItem (js "theme") (js "dark")
      (set_root_classes (classList_add (js "dark") (root_classes b)) b)
  else
    setItem (js "theme") (js "light")
      (set_root_classes (classList_remove (js "dark") (root_classes b)) b).

(** The hook's React state: the flag and the dependency array of the
    effect's last run ([None] before the first commit). *)
Record DarkMode := mkDarkMode {
  enabled : bool;
  effect_deps : option bool
}.

(** Commit: run the effect when its dependency [[enabled]] differs from
    the last run (always, on the first commit). *)
Definition commit_effect (h : DarkMode) (b : Browser)
  : DarkMode * Browser * completion unit :=
  if bool_decide (effect_deps h = Some (enabled h)) then (h, b, Normal tt)
  else
    let (b', r) := theme_effect (enabled h) b in
    (mkDarkMode (enabled h) (Some (enabled h)), b', r).

(** Mounting in a browser: render with the initializer, then commit. *)
Definition mount (b : Browser) : completion (DarkMode * Browser) :=
  let? en := useDarkMode_init (Client b) in
  match commit_effect (mkDarkMode en None) b with
  | (h, b', Normal _) => Normal (h, b')
  | (_, _, Throw e) => Throw e
  end.

(** [setEnabled(v)]: the same value bails out; another value re-renders
    and commits. *)
Definition setEnabled (v : bool) (h : DarkMode) (b : Browser)
  : DarkMode * Browser * completion unit :=
  if Bool.eqb v (enabled h) then (h, b, Normal tt)
  else commit_effect (mkDarkMode v (effect_deps h)) b.

(** ** Invariant and reachable states *)

(** Flag, effect, storage and class list agree: the effect has run for
    the current flag, storage holds its value under ["theme"], and the
    root has the class [dark] exactly when the flag is set. *)
Definition synced (h : DarkMode) (b : Browser) : Prop :=
  effect_deps h = Some (enabled h) /\
  (exists st, localStorage b = Some st /\
              st !! js "theme" = Some (theme_value (enabled h))) /\
  (js "dark" ∈ root_classes b <-> enabled h = true).

(** The states of a mounted page: after the first commit, and after
    every [setEnabled] that completed. *)
Inductive reachable : DarkMode -> Browser -> Prop :=
| reach_mount b h b' :
    mount b = Normal (h, b') -> reachable h b'
| reach_set v h b h' b' :
    reachable h b -> setEnabled v h b = (h', b', Normal tt) -> reachable h' b'.

(** ** Lemmas *)

Lemma classList_add_elem t cl : t ∈ classList_add t cl.
Proof. unfold classList_add. case_bool_decide; set_solver. Qed.

Lemma classList_remove_not_elem t cl : t ∉ classList_remove t cl.
Proof. unfold classList_remove. rewrite list_elem_of_filter. tauto. Qed.

(** With storage accessible, the effect completes and leaves storage and
    class list in agreement with its flag. *)
Lemma theme_effect_ok (en : bool) (b : Browser) (st : gmap jsstr jsstr) :
  localStorage b = Some st ->
  exists b', theme_effect en b = (b', Normal tt) /\
    localStorage b' = Some (<[js "theme" := theme_value en]> st) /\
    matchMedia_dark b' = matchMedia_dark b /\
    (js "dark" ∈ root_classes b' <-> en = true).
Proof.
  intros Hst. unfold theme_effect, setItem, set_root_classes.
  destruct en; simpl; rewrite Hst; eexists;
    (split; [reflexivity|]); (split; [reflexivity|]); (split; [reflexivity|]); simpl.
  - split; [done|]. intros _. apply classList_add_elem.
  - split; [|done]. intros Hin. by apply classList_remove_not_elem in Hin.
Qed.

Lemma commit_effect_synced (h : DarkMode) (b : Browser) (st : gmap jsstr jsstr) :
  localStorage b = Some st ->
  effect_deps h <> Some (enabled h) ->
  exists b', commit_effect h b = (mkDarkMode (enabled h) (Some (enabled h)), b', Normal tt) /\
    synced (mkDarkMode (enabled h) (Some (enabled h))) b' /\
    matchMedia_dark b' = matchMedia_dark b.
Proof.
  intros Hst Hd. unfold commit_effect. rewrite bool_decide_false by done.
  destruct (theme_effect_ok (enabled h) b st Hst) as (b' & -> & Hs & Hm & Hc).
  exists b'. split; [done|]. split; [|done].
  split; [done|]. split; [|done]. eexists. split; [done|].
  apply lookup_insert_eq.
Qed.

Lemma mount_synced (b : Browser) (h : DarkMode) (b' : Browser) :
  mount b = Normal (h, b') -> synced h b'.
Proof.
  unfold mount. destruct (useDarkMode_init (Client b)) as [en|] eqn:Hi;
    simpl; [|done].
  destruct (localStorage b) as [st|] eqn:Hst; [|simpl in Hi; by rewrite Hst in Hi].
  destruct (commit_effect_synced (mkDarkMode en None) b st Hst) as (b'' & Hc & Hs & _);
    [done|].
  rewrite Hc. by intros [= <- <-].
Qed.

Lemma setEnabled_synced (v : bool) (h : DarkMode) (b : Browser) :
  synced h b ->
  exists h' b', setEnabled v h b = (h', b', Normal tt) /\ synced h' b' /\ enabled h' = v.
Proof.
  intros Hs. unfold setEnabled. destruct (Bool.eqb_spec v (enabled h)) as [->|Hne].
  - by exists h, b.
  - destruct Hs as (Hd & (st & Hst & _) & _).
    destruct (commit_effect_synced (mkDarkMode v (effect_deps h)) b st Hst)
      as (b' & Hc & Hs' & _); simpl.
    { rewrite Hd. by intros [= ?]. }
    rewrite Hc. by eexists _, b'.
Qed.

Lemma reachable_synced_aux (h : DarkMode) (b : Browser) :
  reachable h b -> synced h b.
Proof.
  induction 1 as [b h b' Hm|v h b h' b' _ IH Hset].
  - by apply mount_synced in Hm.
  - destruct (setEnabled_synced v h b IH) as (h'' & b'' & Hs & Hsy & _).
    rewrite Hs in Hset. by injection Hset as <- <-.
Qed.

(** A synced state is what the next session's initializer reads back. *)
Lemma synced_init (h : DarkMode) (b b' : Browser) :
  synced h b -> localStorage b' = localStorage b ->
  useDarkMode_init (Client b') = Normal (enabled h).
Proof.
  intros (_ & (st & Hst & Hth) & _) Hb'. simpl. rewrite Hb', Hst, Hth.
  unfold theme_value. destruct (enabled h).
  - by rewrite bool_decide_true.
  - rewrite bool_decide_false by (vm_compute; congruence).
    rewrite bool_decide_true by done. done.
Qed.

(** ** Theorems *)

(** C18: a stored preference decides the initial flag whatever the media
    query says, even when [window.matchMedia] is missing: ["dark"] gives
    [true], any other stored string ("light", but also "Dark" or "") gives
    [false]. *)
Theorem useDarkMode_init_stored (b : Browser) (st : gmap jsstr jsstr) (v : jsstr) :
  localStorage b = Some st -> st !! js "theme" = Some v ->
  useDarkMode_init (Client b) = Normal (bool_decide (v = js "dark")).
Proof.
  intros Hst Hv. simpl. rewrite Hst, Hv.
  destruct (decide (v = js "dark")) as [->|Hne].
  - by rewrite !bool_decide_true.
  - rewrite (bool_decide_false (Some v = _)) by congruence.
    rewrite (bool_decide_true (is_Some _)) by by eexists.
    by rewrite bool_decide_false.
Qed.

(** C19: without a stored preference the flag is the media query's
    answer; when [window.matchMedia] is not a function the initializer
    throws a [TypeError], when reading [localStorage] throws the
    initializer throws that [SecurityError], and only during server
    rendering does it default to dark. *)
Theorem useDarkMode_init_fallback (b : Browser) :
  useDarkMode_init Server = Normal true /\
  (localStorage b = None -> useDarkMode_init (Client b) = Throw SecurityError) /\
  (forall st, localStorage b = Some st -> st !! js "theme" = None ->
     useDarkMode_init (Client b) =
       match matchMedia_dark b with
       | Some m => Normal m
       | None => Throw TypeError
       end).
Proof.
  split; [done|]. split.
  - intros Hst. simpl. by rewrite Hst.
  - intros st Hst Hn. simpl. rewrite Hst, Hn.
    rewrite bool_decide_false by done. rewrite bool_decide_false by (by intros []).
    simpl. by destruct (matchMedia_dark b).
Qed.

(** C3: in every state of a mounted page the effect has run for the
    current flag, storage holds ["dark"] or ["light"] for it under
    ["theme"], and the document root carries the class [dark] exactly
    when the flag is set. *)
Theorem reachable_synced (h : DarkMode) (b : Browser) :
  reachable h b ->
  effect_deps h = Some (enabled h) /\
  (exists st, localStorage b = Some st /\
              st !! js "theme" = Some (if enabled h then js "dark" else js "light")) /\
  (js "dark" ∈ root_classes b <-> enabled h = true).
Proof. apply reachable_synced_aux. Qed.

(** C4: the preference persists: whatever sequence of toggles led to a
    state, a new session over the same storage (any media query, any
    class list) starts with the same flag. *)
Theorem theme_persists (h : DarkMode) (b b' : Browser) :
  reachable h b -> localStorage b' = localStorage b ->
  useDarkMode_init (Client b') = Normal (enabled h).
Proof.
  intros Hr Hb'. apply (synced_init h b); [|done].
  by apply reachable_synced_aux.
Qed.

(** C23: the first visit stores the media query's answer of that moment,
    without any user action; every later session then ignores the media
    query, so a change of the system preference is never followed. *)
Theorem first_visit_freezes_preference (b : Browser) (st : gmap jsstr jsstr) (m : bool) :
  localStorage b = Some st -> st !! js "theme" = None -> matchMedia_dark b = Some m ->
  exists h b', mount b = Normal (h, b') /\ enabled h = m /\
    forall m' cl, useDarkMode_init (Client (mkBrowser (localStorage b') m' cl)) = Normal m.
Proof.
  intros Hst Hn Hm.
  assert (Hi : useDarkMode_init (Client b) = Normal m).
  { simpl. rewrite Hst, Hn, Hm. rewrite bool_decide_false by done.
    by rewrite bool_decide_false by (by intros []). }
  destruct (commit_effect_synced (mkDarkMode m None) b st Hst) as (b' & Hc & Hs & _);
    [done|].
  exists (mkDarkMode m (Some m)), b'.
  assert (Hmount : mount b = Normal (mkDarkMode m (Some m), b')).
  { unfold mount. rewrite Hi. simpl. by rewrite Hc. }
  split; [done|]. split; [done|]. intros m' cl.
  apply (synced_init _ b' _ Hs). done.
Qed.

(** ** Witnesses *)

(** A first visit with the system in dark mode. *)
Definition first_visit : Browser := mkBrowser (Some ∅) (Some true) [js "antialiased"].

Lemma useDarkMode_init_stored_witness :
  useDarkMode_init (Client (mkBrowser (Some {[js "theme" := js "Dark"]}) None []))
    = Normal false.
Proof.
  apply (useDarkMode_init_stored _ {[js "theme" := js "Dark"]} (js "Dark"));
    reflexivity.
Defined.

Lemma useDarkMode_init_fallback_witness :
  useDarkMode_init (Client (mkBrowser (Some ∅) None [])) = Throw TypeError.
Proof.
  apply (proj2 (proj2 (useDarkMode_init_fallback (mkBrowser (Some ∅) None []))) ∅);
    reflexivity.
Defined.

Lemma reachable_synced_witness :
  exists h b, mount first_visit = Normal (h, b) /\ js "dark" ∈ root_classes b.
Proof.
  destruct (mount first_visit) as [[h b]|] eqn:Hm; [|discriminate].
  exists h, b. split; [done|].
  apply (reachable_synced h b (reach_mount _ _ _ Hm)).
  revert Hm. vm_compute. by intros [= <- _].
Defined.

(** The spec's scenario: [setEnabled(false)] and a new session reads back
    [false]. *)
Lemma theme_persists_witness :
  exists h b h' b', mount first_visit = Normal (h, b) /\
    setEnabled false h b = (h', b', Normal tt) /\
    useDarkMode_init (Client (mkBrowser (localStorage b') (Some true) [])) = Normal false.
Proof.
  destruct (mount first_visit) as [[h b]|] eqn:Hm; [|discriminate].
  destruct (setEnabled_synced false h b (mount_synced _ _ _ Hm))
    as (h' & b' & Hs & _ & Hh').
  exists h, b, h', b'. split; [done|]. split; [done|].
  rewrite <- Hh'. apply (theme_persists h' b'); [|done].
  eapply reach_set; [eapply reach_mount, Hm|exact Hs].
Defined.

Lemma first_visit_freezes_preference_witness :
  exists h b', mount first_visit = Normal (h, b') /\ enabled h = true /\
    forall m' cl, useDarkMode_init (Client (mkBrowser (localStorage b') m' cl)) = Normal true.
Proof. apply (first_visit_freezes_preference first_visit ∅); reflexivity. Defined.
