(* ===== verification/Page.v ===== *)
(** * The page component [Portfolio]

    Lines 216-639 of the page, and the [Switch] of
    [src/src/components/ui/switch.jsx].  The component's React state is
    the dark-mode hook, the two search strings and the caches of its two
    [useMemo] calls; the browser is the state of [Theme].  A user event
    (either theme switch, typing in either search box) updates the state
    the way React does (an update with the current value bails out, a
    render recomputes a memo whose dependency changed, a commit runs the
    effects whose dependency changed), and [view] is what the render
    shows: the navigation links, the switches, the skill cards, the
    project cards and the certification cards, each list with its React
    keys.

    The theorems hold in every reachable state: the memoised lists are
    the filters of the current queries, the theme is synced, the views
    show them, and the keys of every rendered list are distinct. *)

From S2P Require Import Prelude JsString JsArray PortfolioData TextFilter Theme.

(** ** The [Switch] primitive *)

(** [onChange={(e) => onCheckedChange && onCheckedChange(e.target.checked)}]:
    the handler is called when given. *)
Definition Switch_onChange {X} (target_checked : bool)
    (onCheckedChange : option (bool -> X)) : option X :=
  match onCheckedChange with
  | Some f => Some (f target_checked)
  | None => None
  end.

(** ** [useMemo] *)

(** [useMemo(compute, [deps])]: the cached value while the dependency is
    the same ([Object.is], value equality on strings), a fresh one
    otherwise; no cache on the first render. *)
Definition useMemo {D V} `{EqDecision D} (compute : D -> V) (deps : D)
    (cache : option (D * V)) : D * V :=
  match cache with
  | Some (d, v) => if bool_decide (d = deps) then (d, v) else (deps, compute deps)
  | None => (deps, compute deps)
  end.

(** ** State, render and events *)

Section Portfolio.
Context `{CM : CaseMapping}.

Record PageState := mkPage {
  dark : DarkMode;
  query : jsstr;
  certQuery : jsstr;
  memoProjects : jsstr * list Project.t;
  memoCerts : jsstr * list Certification.t
}.

(** The body of [Portfolio] up to its JSX (lines 217-240), given the
    hook states and the previous render's memo caches. *)
Definition render (d : DarkMode) (q cq : jsstr) (prev : option PageState)
  : PageState :=
  let fp := useMemo filteredProjects q (memoProjects <$> prev) in
  let fc := useMemo filteredCerts cq (memoCerts <$> prev) in
  mkPage d q cq fp fc.

(** First render and commit: [useState("")] twice and the hook. *)
Definition mount_page (b : Browser) : completion (PageState * Browser) :=
  let? hb := mount b in
  Normal (render hb.1 [] [] None, hb.2).

Inductive UiEvent :=
(** a click on the desktop ([true]) or the mobile ([false]) switch *)
| ThemeSwitch (desktop : bool)
(** [onChange={(e) => setQuery(e.target.value)}] *)
| ProjectSearch (value : jsstr)
(** [onChange={(e) => setCertQuery(e.target.value)}] *)
| CertSearch (value : jsstr).

(** One event handled to completion.  A click toggles the checkbox, so
    the switch reports [e.target.checked = !enabled]; both switches are
    given [onCheckedChange={setEnabled}]. *)
Definition page_step (ev : UiEvent) (st : PageState) (b : Browser)
  : PageState * Browser * completion unit :=
  match ev with
  | ThemeSwitch _ =>
      match Switch_onChange (negb (enabled (dark st)))
              (Some (fun v => setEnabled v (dark st) b)) with
      | Some (h, b', r) => (render h (query st) (certQuery st) (Some st), b', r)
      | None => (st, b, Normal tt)
      end
  | ProjectSearch v =>
      if bool_decide (v = query st) then (st, b, Normal tt)
      else (render (dark st) v (certQuery st) (Some st), b, Normal tt)
  | CertSearch v =>
      if bool_decide (v = certQuery st) then (st, b, Normal tt)
      else (render (dark st) (query st) v (Some st), b, Normal tt)
  end.

(** A sequence of events, stopping at the first one that throws. *)
Fixpoint run_events (evs : list UiEvent) (st : PageState) (b : Browser)
  : PageState * Browser * completion unit :=
  match evs with
  | [] => (st, b, Normal tt)
  | ev :: evs' =>
      match page_step ev st b with
      | (st', b', Normal _) => run_events evs' st' b'
      | (st', b', Throw e) => (st', b', Throw e)
      end
  end.

Inductive page_reachable : PageState -> Browser -> Prop :=
| page_mounted b st b' :
    mount_page b = Normal (st, b') -> page_reachable st b'
| page_stepped ev st b st' b' :
    page_reachable st b -> page_step ev st b = (st', b', Normal tt) ->
    page_reachable st' b'.
End Portfolio.

(** ** What the render shows *)

(** The navigation entries (lines 253-261): [[label, href]]. *)
Definition nav_sections : list (jsstr * jsstr) :=
  map (fun '(l, h) => (js l, js h))
    [("About", "about"); ("Education", "education"); ("Experience", "experience");
     ("Skills", "skills"); ("Projects", "projects");
     ("Certifications", "certifications"); ("Contact", "contact")]%string.

(** A navigation button: [key={href}], text [label], link [#href]. *)
Record NavLink := mkNavLink { nav_key : jsstr; nav_label : jsstr; nav_href : jsstr }.

Definition nav_link (lh : jsstr * jsstr) (_ : nat) : NavLink :=
  mkNavLink lh.2 lh.1 (js "#" ++ lh.2).

(** A skill card (lines 468-488): [key={group}], badges [key={s}]. *)
Record SkillCard := mkSkillCard { skill_key : jsstr; skill_badges : list jsstr }.

Definition skill_card (entry : jsstr * list jsstr) (_ : nat) : SkillCard :=
  mkSkillCard entry.1 (Array_map entry.2 (fun s _ => s)).

(** A project card (lines 509-538): [key={p.title}], title, blurb, tag
    badges [key={t}] and the link [href={p.link}]. *)
Record ProjectCard := mkProjectCard {
  pc_key : jsstr;
  pc_title : jsstr;
  pc_blurb : jsstr;
  pc_badges : list jsstr;
  pc_href : jsstr
}.

Definition project_card (p : Project.t) (_ : nat) : ProjectCard :=
  mkProjectCard (Project.title p) (Project.title p) (Project.blurb p)
    (Array_map (Project.tags p) (fun t _ => t)) (Project.link p).

(** A certification card (lines 560-574): [key={c.title + idx}] with
    [idx] the position in the filtered list, the title, and the caption
    [{c.org} • {c.year}]. *)
Record CertCard := mkCertCard { cc_key : jsstr; cc_title : jsstr; cc_caption : jsstr }.

Definition cert_card (c : Certification.t) (idx : nat) : CertCard :=
  mkCertCard (Certification.title c ++ Number_toString_int (Z.of_nat idx))
    (Certification.title c)
    (Certification.org c ++ [32; 8226; 32] ++ Number_toString_int (Certification.year c)).

Record View := mkView {
  nav : list NavLink;
  switches : list bool;
  skill_cards : list SkillCard;
  search_value : jsstr;
  project_cards : list ProjectCard;
  cert_search_value : jsstr;
  cert_cards : list CertCard
}.

(** The JSX of [Portfolio] (lines 242-639), reduced to its data. *)
Definition view (st : PageState) : View :=
  mkView
    (Array_map nav_sections nav_link)
    [enabled (dark st); enabled (dark st)]
    (Array_map skills skill_card)
    (query st)
    (Array_map (memoProjects st).2 project_card)
    (certQuery st)
    (Array_map (memoCerts st).2 cert_card).

(** Every list rendered with React keys has distinct keys. *)
Definition keys_unique (v : View) : Prop :=
  NoDup (nav_key <$> nav v) /\
  NoDup (skill_key <$> skill_cards v) /\
  Forall (fun c => NoDup (skill_badges c)) (skill_cards v) /\
  NoDup (pc_key <$> project_cards v) /\
  Forall (fun c => NoDup (pc_badges c)) (project_cards v) /\
  NoDup (cc_key <$> cert_cards v).

(** ** Invariant *)

Section Invariant.
Context `{CM : CaseMapping}.

(** The memo caches hold the filters of the current queries, and the
    theme is synced with the browser. *)
Definition page_inv (st : PageState) (b : Browser) : Prop :=
  memoProjects st = (query st, filteredProjects (query st)) /\
  memoCerts st = (certQuery st, filteredCerts (certQuery st)) /\
  synced (dark st) b.

Lemma useMemo_coherent {D V} `{EqDecision D} (f : D -> V) (x : D)
    (cache : option (D * V)) :
  (forall d v, cache = Some (d, v) -> v = f d) ->
  useMemo f x cache = (x, f x).
Proof.
  intros Hc. unfold useMemo. destruct cache as [[d v]|]; [|done].
  rewrite (Hc d v eq_refl). case_bool_decide; by subst.
Qed.

Lemma render_inv (d : DarkMode) (q cq : jsstr) (prev : option PageState) (b : Browser) :
  (forall st, prev = Some st ->
     memoProjects st = (query st, filteredProjects (query st)) /\
     memoCerts st = (certQuery st, filteredCerts (certQuery st))) ->
  synced d b -> page_inv (render d q cq prev) b.
Proof.
  intros Hp Hs. unfold render, page_inv; simpl.
  split; [|split; [|done]]; apply useMemo_coherent;
    intros d' v' Hc; destruct prev as [st|]; simplify_eq/=;
    destruct (Hp st eq_refl) as [Hm1 Hm2];
    [rewrite Hm1 in Hc|rewrite Hm2 in Hc]; congruence.
Qed.

Lemma mount_page_inv (b : Browser) (st : PageState) (b' : Browser) :
  mount_page b = Normal (st, b') -> page_inv st b'.
Proof.
  unfold mount_page. destruct (mount b) as [[h b'']|] eqn:Hm; simpl; [|done].
  intros [= <- <-]. apply render_inv; [done|]. by apply (mount_synced b).
Qed.

(** A switch click completes and sets the flag to its negation. *)
Lemma page_step_switch (d : bool) (st : PageState) (b : Browser) :
  page_inv st b ->
  exists h b', setEnabled (negb (enabled (dark st))) (dark st) b = (h, b', Normal tt) /\
    page_step (ThemeSwitch d) st b
      = (render h (query st) (certQuery st) (Some st), b', Normal tt) /\
    synced h b' /\ enabled h = negb (enabled (dark st)).
Proof.
  intros (_ & _ & Hs).
  destruct (setEnabled_synced (negb (enabled (dark st))) (dark st) b Hs)
    as (h & b' & Hset & Hs' & He).
  exists h, b'. simpl. by rewrite Hset.
Qed.

Lemma page_step_inv (ev : UiEvent) (st st' : PageState) (b b' : Browser) :
  page_inv st b -> page_step ev st b = (st', b', Normal tt) -> page_inv st' b'.
Proof.
  intros Hi Hstep. pose proof Hi as (Hm1 & Hm2 & Hs).
  assert (Hprev : forall s, Some st = Some s ->
     memoProjects s = (query s, filteredProjects (query s)) /\
     memoCerts s = (certQuery s, filteredCerts (certQuery s))).
  { intros s [= <-]. done. }
  destruct ev as [d|v|v].
  - destruct (page_step_switch d st b Hi) as (h & b'' & _ & Heq & Hs' & _).
    rewrite Heq in Hstep. injection Hstep as <- <-. by apply render_inv.
  - simpl in Hstep. case_bool_decide; injection Hstep as <- <-; [done|].
    by apply render_inv.
  - simpl in Hstep. case_bool_decide; injection Hstep as <- <-; [done|].
    by apply render_inv.
Qed.

Lemma page_reachable_inv (st : PageState) (b : Browser) :
  page_reachable st b -> page_inv st b.
Proof.
  induction 1 as [b st b' Hm|ev st b st' b' _ IH Hstep].
  - by apply (mount_page_inv b).
  - by apply (page_step_inv ev st st' b b').
Qed.

(** From an invariant state every event completes. *)
Lemma page_step_total (ev : UiEvent) (st : PageState) (b : Browser) :
  page_inv st b -> exists st' b', page_step ev st b = (st', b', Normal tt).
Proof.
  intros Hi. destruct ev as [d|v|v].
  - destruct (page_step_switch d st b Hi) as (h & b' & _ & Heq & _).
    rewrite Heq. by eexists _, _.
  - simpl. case_bool_decide; by eexists _, _.
  - simpl. case_bool_decide; by eexists _, _.
Qed.
End Invariant.

(** ** React keys *)

(** Certification cards: the key appends the position to a title that
    ends in a non-digit, so positions make the keys distinct. *)
Lemma cert_card_keys_NoDup (cs : list Certification.t) :
  Forall (fun c => ends_non_digit (Certification.title c)) cs ->
  NoDup (cc_key <$> Array_map cs cert_card).
Proof.
  intros Hend. rewrite Array_map_spec, fmap_imap. apply NoDup_imap_inj.
  intros i j x y Hx Hy Heq. simpl in Heq.
  rewrite Forall_lookup in Hend.
  apply app_digits_inj in Heq as [_ Heq];
    [|eauto|eauto|apply Number_toString_int_decimal; lia
     |apply Number_toString_int_decimal; lia].
  apply Number_toString_int_inj in Heq. lia.
Qed.

Lemma project_card_keys (ps : list Project.t) :
  pc_key <$> Array_map ps project_card = Project.title <$> ps.
Proof.
  rewrite (Array_map_const _ _ (fun p => project_card p 0)) by done.
  rewrite <- list_fmap_compose. done.
Qed.

Lemma project_card_badges (ps : list Project.t) :
  Forall (fun p => NoDup (Project.tags p)) ps ->
  Forall (fun c => NoDup (pc_badges c)) (Array_map ps project_card).
Proof.
  intros Hps. rewrite (Array_map_const _ _ (fun p => project_card p 0)) by done.
  apply Forall_fmap. eapply Forall_impl; [exact Hps|]. intros p Hp. simpl.
  by rewrite (Array_map_const _ _ id), list_fmap_id.
Qed.

(** The static parts of the view: navigation and skills. *)
Lemma static_keys_unique :
  NoDup (nav_key <$> Array_map nav_sections nav_link) /\
  NoDup (skill_key <$> Array_map skills skill_card) /\
  Forall (fun c => NoDup (skill_badges c)) (Array_map skills skill_card).
Proof. apply (bool_decide_eq_true_1 _). vm_compute. reflexivity. Qed.

Section KeyFacts.
Context `{CM : CaseMapping}.

Lemma filteredProjects_sublist (q : jsstr) : filteredProjects q `sublist_of` projects.
Proof. unfold filteredProjects. rewrite filter_projects_as_filter. apply sublist_filter. Qed.

Lemma filteredCerts_sublist (q : jsstr) : filteredCerts q `sublist_of` certifications.
Proof. unfold filteredCerts. rewrite filter_certs_as_filter. apply sublist_filter. Qed.

Lemma page_inv_keys (st : PageState) (b : Browser) :
  page_inv st b -> keys_unique (view st).
Proof.
  intros (Hm1 & Hm2 & _). destruct static_keys_unique as (Hn & Hs & Hb).
  unfold keys_unique, view; simpl. rewrite Hm1, Hm2; simpl.
  split; [done|]. split; [done|]. split; [done|]. split; [|split].
  - rewrite project_card_keys.
    eapply sublist_NoDup; [apply projects_titles_NoDup|].
    apply fmap_sublist, filteredProjects_sublist.
  - apply project_card_badges.
    eapply Forall_sublist_of; [apply filteredProjects_sublist|apply projects_tags_NoDup].
  - apply cert_card_keys_NoDup.
    eapply Forall_sublist_of; [apply filteredCerts_sublist|apply certifications_titles_end].
Qed.
End KeyFacts.

(** ** Theorems *)

Section Theorems.
Context `{CM : CaseMapping}.

(** C1: in every reachable state the page shows what the spec's derived
    views promise: the project cards are those of [filteredProjects] for
    the current query, the certification cards those of [filteredCerts]
    for the current certification query (the memo caches are never
    stale), and the theme flag, its stored value and the root's class
    agree. *)
Theorem page_reachable_consistent (st : PageState) (b : Browser) :
  page_reachable st b ->
  project_cards (view st) = Array_map (filteredProjects (query st)) project_card /\
  cert_cards (view st) = Array_map (filteredCerts (certQuery st)) cert_card /\
  synced (dark st) b.
Proof.
  intros Hr. destruct (page_reachable_inv st b Hr) as (Hm1 & Hm2 & Hs).
  unfold view; simpl. by rewrite Hm1, Hm2.
Qed.

(** C20: in every reachable state the keys of each list React renders
    are distinct: navigation links, skill groups and their badges,
    project cards and their tag badges, certification cards. *)
Theorem page_keys_unique (st : PageState) (b : Browser) :
  page_reachable st b -> keys_unique (view st).
Proof. intros Hr. eapply page_inv_keys, page_reachable_inv, Hr. Qed.

(** C21: a click on either theme switch completes, flips the flag,
    stores the new value under ["theme"] and leaves both searches as
    they were. *)
Theorem theme_switch_toggles (d : bool) (st : PageState) (b : Browser) :
  page_reachable st b ->
  exists st' b', page_step (ThemeSwitch d) st b = (st', b', Normal tt) /\
    enabled (dark st') = negb (enabled (dark st)) /\
    query st' = query st /\ certQuery st' = certQuery st /\
    exists s, localStorage b' = Some s /\
              s !! js "theme" = Some (theme_value (enabled (dark st'))).
Proof.
  intros Hr.
  destruct (page_step_switch d st b (page_reachable_inv st b Hr))
    as (h & b' & _ & Heq & (_ & Hst & _) & He).
  eexists _, b'. split; [exact Heq|]. simpl. by repeat split.
Qed.

End Theorems.

(** ** Witnesses *)

(** The page mounted on a first visit, then a search and a toggle. *)
Lemma page_first_visit_reachable :
  exists st b, page_reachable st b /\ query st = js "py".
Proof.
  destruct (mount_page first_visit) as [[st b]|] eqn:Hm; [|discriminate].
  assert (Hr : page_reachable st b) by (eapply page_mounted, Hm).
  destruct (page_step_total (ProjectSearch (js "py")) st b (page_reachable_inv st b Hr))
    as (st' & b' & Hs).
  exists st', b'. split; [by eapply page_stepped|].
  revert Hs. simpl. assert (query st = []) as ->.
  { revert Hm. vm_compute. intros [= <- _]. reflexivity. }
  simpl. by intros [= <- _].
Defined.

Lemma page_reachable_consistent_witness :
  exists st b, page_reachable st b /\
    project_cards (view st) = Array_map (filteredProjects (query st)) project_card.
Proof.
  destruct page_first_visit_reachable as (st & b & Hr & _).
  exists st, b. split; [done|]. apply (page_reachable_consistent st b Hr).
Defined.

Lemma page_keys_unique_witness :
  exists st b, page_reachable st b /\ keys_unique (view st).
Proof.
  destruct page_first_visit_reachable as (st & b & Hr & _).
  exists st, b. split; [done|]. apply (page_keys_unique st b Hr).
Defined.

Lemma theme_switch_toggles_witness :
  exists st b st' b', page_reachable st b /\
    page_step (ThemeSwitch true) st b = (st', b', Normal tt) /\
    enabled (dark st') = negb (enabled (dark st)).
Proof.
  destruct page_first_visit_reachable as (st & b & Hr & _).
  destruct (theme_switch_toggles true st b Hr) as (st' & b' & Hs & He & _).
  by exists st, b, st', b'.
Defined.

