(* ===== verification/Chart.v ===== *)
(** * The career chart and its tooltip

    The [timeline] data (lines 156-164) and the two formatters the page
    gives Recharts' [Tooltip] (line 379):
    [labelFormatter={(v)=>`Year: ${v}`}] and
    [formatter={(v,_,p)=>["Level "+v, timeline[p?.payload?.index||0]?.label]}].

    The formatters are JavaScript over untyped values, so this file has a
    small value type ([JsValue]) with the operations they use: property
    access with optional chaining, [||], [+] on a string, array indexing
    and template literals.  Numbers are finite decimals ([mant / 10^exp]),
    which is exact for the literals of the page, and print as
    [Number::toString] prints them (no trailing zeros).  Recharts calls
    [formatter] with the point's value, its series name and the tooltip
    item, whose [payload] is the data object of the point. *)

From S2P Require Import Prelude JsString.
From Stdlib Require Import Sorted.

(** ** Values *)

Record decimal := mkDecimal { mant : Z; exp10 : nat }.

#[warning="-register-all"]
Inductive JsValue :=
| JUndefined
| JNull
| JBool (b : bool)
| JNum (d : decimal)
| JStr (s : jsstr)
| JObj (props : list (jsstr * JsValue))
| JArr (elems : list JsValue).

Definition int_num (z : Z) : JsValue := JNum (mkDecimal z 0).

(** Drop trailing zeros of the fractional part. *)
Fixpoint normalize (m : Z) (e : nat) : Z * nat :=
  match e with
  | O => (m, O)
  | S e' => if Z.rem m 10 =? 0 then normalize (Z.quot m 10) e' else (m, e)
  end.

(** Left-pad with ['0'] to [n] code units. *)
Definition pad_zeros (n : nat) (s : jsstr) : jsstr :=
  replicate (n - length s) 48 ++ s.

(** [Number::toString] of a finite decimal. *)
Definition decimal_toString (d : decimal) : jsstr :=
  let '(m, e) := normalize (mant d) (exp10 d) in
  match e with
  | O => Number_toString_int m
  | S _ =>
      let a := Z.abs m in
      (if m <? 0 then [45] else []) ++
      Number_toString_int (a / 10 ^ Z.of_nat e) ++ [46] ++
      pad_zeros e (Number_toString_int (a mod 10 ^ Z.of_nat e))
  end.

(** [ToString] of the values the formatters print. *)
Definition js_ToString (v : JsValue) : jsstr :=
  match v with
  | JUndefined => js "undefined"
  | JNull => js "null"
  | JBool true => js "true"
  | JBool false => js "false"
  | JNum d => decimal_toString d
  | JStr s => s
  | JObj _ => js "[object Object]"
  | JArr _ => js ""
  end.

(** [ToBoolean]. *)
Definition truthy (v : JsValue) : bool :=
  match v with
  | JUndefined | JNull => false
  | JBool b => b
  | JNum d => negb (mant d =? 0)
  | JStr s => negb (bool_decide (s = []))
  | JObj _ | JArr _ => true
  end.

(** [a || b]: [a] when truthy, [b] otherwise. *)
Definition js_or (a b : JsValue) : JsValue := if truthy a then a else b.

(** [o?.k]: [undefined] on [undefined] or [null], the own property [k]
    of an object, [undefined] when it has none. *)
Definition opt_get (o : JsValue) (k : jsstr) : JsValue :=
  match o with
  | JObj ps =>
      match list_find (fun kv => kv.1 = k) ps with
      | Some (_, (_, v)) => v
      | None => JUndefined
      end
  | _ => JUndefined
  end.

(** [arr[x]] for a numeric [x]: the element at a non-negative integral
    index in range, [undefined] otherwise. *)
Definition array_get (arr : list JsValue) (x : JsValue) : JsValue :=
  match x with
  | JNum (mkDecimal z O) =>
      if 0 <=? z then
        match arr !! Z.to_nat z with Some v => v | None => JUndefined end
      else JUndefined
  | _ => JUndefined
  end.

(** [s + v] with a string on the left. *)
Definition js_add_str (s : jsstr) (v : JsValue) : JsValue := JStr (s ++ js_ToString v).

(** ** The data *)

(** A timeline point [{ year, label, value }]. *)
Definition point (year : decimal) (label : jsstr) (value : Z) : JsValue :=
  JObj [(js "year", JNum year); (js "label", JStr label); (js "value", int_num value)].

(** [const timeline = [ ... ]]; the en dash of the last label is the
    code unit 8211. *)
Definition timeline : list JsValue := [
  point (mkDecimal 20199 1) (js "Joined Leads Corporation Ltd") 1;
  point (mkDecimal 20205 1) (js "Core Banking & Data Analytics") 2;
  point (mkDecimal 20215 1) (js "Crystal Reports & Power BI") 3;
  point (mkDecimal 20225 1) (js "Performance Tuning & SQL Automation") 4;
  point (mkDecimal 20232 1) (js "Joined Meghna Bank PLC") 5;
  point (mkDecimal 20242 1) (js "GenAI Apps & Vector Search") 6;
  point (mkDecimal 20250 1)
    (js "Assistant Officer " ++ [8211] ++ js " DA & Python Dev") 7
].

(** ** The formatters *)

(** [labelFormatter={(v)=>`Year: ${v}`}]. *)
Definition labelFormatter (v : JsValue) : JsValue := JStr (js "Year: " ++ js_ToString v).

(** [formatter={(v,_,p)=>["Level "+v, timeline[p?.payload?.index||0]?.label]}]. *)
Definition formatter (v : JsValue) (name : JsValue) (p : JsValue) : JsValue :=
  JArr [js_add_str (js "Level ") v;
        opt_get (array_get timeline
                   (js_or (opt_get (opt_get p (js "payload")) (js "index")) (int_num 0)))
                (js "label")].

(** The tooltip item Recharts passes for a point of the [value] series:
    its name, value, data key and the point itself as [payload]. *)
Definition tooltip_item (pt : JsValue) : JsValue :=
  JObj [(js "name", JStr (js "value")); (js "value", opt_get pt (js "value"));
        (js "dataKey", JStr (js "value")); (js "payload", pt)].

(** ** Theorems *)

(** The label of a point, as the data object holds it. *)
Definition point_label (pt : JsValue) : JsValue := opt_get pt (js "label").

(** C9: the tooltip always names the first milestone: for every point of
    the timeline the formatter returns ["Level <value>"] and the label
    "Joined Leads Corporation Ltd", because the data object Recharts
    passes as [p.payload] has no [index], so [p?.payload?.index||0] is
    [0]; for every point but the first this is not the point's own
    label. *)
Theorem tooltip_label_always_first (i : nat) (pt : JsValue) :
  timeline !! i = Some pt ->
  formatter (opt_get pt (js "value")) (JStr (js "value")) (tooltip_item pt) =
    JArr [JStr (js "Level " ++ js_ToString (opt_get pt (js "value")));
          JStr (js "Joined Leads Corporation Ltd")] /\
  ((1 <= i)%nat -> point_label pt <> JStr (js "Joined Leads Corporation Ltd")).
Proof.
  intros Hi.
  do 7 (destruct i as [|i];
        [injection Hi as <-; split; [vm_compute; reflexivity|];
         intros ?; (lia || (vm_compute; discriminate))|]).
  discriminate.
Qed.

Example labelFormatter_years :
  map (fun pt => labelFormatter (opt_get pt (js "year"))) timeline =
  map (fun s => JStr (js "Year: " ++ js s))
    ["2019.9"; "2020.5"; "2021.5"; "2022.5"; "2023.2"; "2024.2"; "2025"]%string.
Proof. vm_compute. reflexivity. Qed.

(** ** Witness *)

Lemma tooltip_label_always_first_witness :
  formatter (int_num 5) (JStr (js "value"))
    (tooltip_item (point (mkDecimal 20232 1) (js "Joined Meghna Bank PLC") 5)) =
    JArr [JStr (js "Level 5"); JStr (js "Joined Leads Corporation Ltd")].
Proof.
  exact (proj1 (tooltip_label_always_first 4
                 (point (mkDecimal 20232 1) (js "Joined Meghna Bank PLC") 5)
                 ltac:(reflexivity))).
Defined.
