(* ===== verification/Mailto.v ===== *)
(** * The contact form

    The [onSubmit] handler of the contact form (lines 588-600): it cancels
    the default submission, reads [name], [email] and [message], builds a
    subject and a body with template literals, percent-encodes both with
    [encodeURIComponent] and navigates to a [mailto:] URL.

    [encodeURIComponent] and [decodeURIComponent] are ECMA-262's [Encode]
    and [Decode] with an empty extra set: code units outside the
    unreserved set are read as code points (a surrogate pair is one code
    point, a lone surrogate throws a [URIError]), converted to UTF-8 and
    written as [%XY] with upper-case hex digits.  The UTF-8 table of
    Unicode is written with arithmetic on the code point ([cp / 64],
    [cp mod 64], ...), which is the bit layout of the table.

    The theorems: encoding succeeds exactly on well-formed UTF-16, its
    output uses only unreserved characters and escapes, decoding inverts
    it, and therefore the URL the form opens carries exactly the subject
    and the body the handler read, whatever characters they contain,
    and its [href] is ASCII.  A field holding a lone surrogate would make
    the handler throw after the default submission was cancelled; the
    fields [FormData] gives it never do ([FormSubmit]). *)

From S2P Require Import Prelude JsString.

(** ** [encodeURIComponent] *)

(** The characters [Encode] leaves as they are: ASCII letters and digits
    and [- _ . ! ~ * ' ( )]. *)
Definition uri_unreserved (c : Z) : bool :=
  ((65 <=? c) && (c <=? 90)) || ((97 <=? c) && (c <=? 122)) ||
  ((48 <=? c) && (c <=? 57)) ||
  bool_decide (c ∈ [45; 95; 46; 33; 126; 42; 39; 40; 41]).

Definition is_lead_surrogate (c : Z) : bool := (55296 <=? c) && (c <=? 56319).
Definition is_trail_surrogate (c : Z) : bool := (56320 <=? c) && (c <=? 57343).

(** [UTF16SurrogatePairToCodePoint(lead, trail)]. *)
Definition surrogate_pair_to_code_point (lead trail : Z) : Z :=
  (lead - 55296) * 1024 + (trail - 56320) + 65536.

(** The UTF-8 octets of a code point (Unicode, table 3-6). *)
Definition utf8_octets (cp : Z) : list Z :=
  if cp <? 128 then [cp]
  else if cp <? 2048 then [192 + cp / 64; 128 + cp mod 64]
  else if cp <? 65536 then
    [224 + cp / 4096; 128 + (cp / 64) mod 64; 128 + cp mod 64]
  else [240 + cp / 262144; 128 + (cp / 4096) mod 64; 128 + (cp / 64) mod 64;
        128 + cp mod 64].

(** An upper-case hexadecimal digit. *)
Definition hex_digit (d : Z) : Z := if d <? 10 then 48 + d else 55 + d.

(** ["%" + the two hex digits of an octet]. *)
Definition percent_octet (o : Z) : jsstr := [37; hex_digit (o / 16); hex_digit (o mod 16)].

Definition percent_encode (cp : Z) : jsstr := List.concat (map percent_octet (utf8_octets cp)).

(** [Encode(string, "")]: one step per unreserved unit or code point;
    [CodePointAt] reads a surrogate pair as one code point and reports a
    lone surrogate as unpaired, which throws. *)
Fixpoint encodeURIComponent (s : jsstr) : completion jsstr :=
  match s with
  | [] => Normal []
  | c :: rest =>
      if uri_unreserved c then
        let? r := encodeURIComponent rest in Normal (c :: r)
      else if is_lead_surrogate c then
        match rest with
        | c2 :: rest' =>
            if is_trail_surrogate c2 then
              let? r := encodeURIComponent rest' in
              Normal (percent_encode (surrogate_pair_to_code_point c c2) ++ r)
            else Throw URIError
        | [] => Throw URIError
        end
      else if is_trail_surrogate c then Throw URIError
      else let? r := encodeURIComponent rest in Normal (percent_encode c ++ r)
  end.

(** ** [decodeURIComponent] *)

Definition hex_value (c : Z) : option Z :=
  if (48 <=? c) && (c <=? 57) then Some (c - 48)
  else if (65 <=? c) && (c <=? 70) then Some (c - 55)
  else if (97 <=? c) && (c <=? 102) then Some (c - 87)
  else None.

(** ["%XY"] at the head of the string: the octet and the rest. *)
Definition parse_escape (s : jsstr) : option (Z * jsstr) :=
  match s with
  | c :: h :: l :: rest =>
      if c =? 37 then
        match hex_value h, hex_value l with
        | Some hv, Some lv => Some (hv * 16 + lv, rest)
        | _, _ => None
        end
      else None
  | _ => None
  end.

(** The number of leading 1 bits of an octet, up to 5. *)
Definition leading_ones (b : Z) : nat :=
  if b <? 128 then 0 else if b <? 192 then 1 else if b <? 224 then 2
  else if b <? 240 then 3 else if b <? 248 then 4 else 5.

(** The [n - 1] continuation escapes that follow a leading octet. *)
Fixpoint read_continuations (n : nat) (s : jsstr) : option (list Z * jsstr) :=
  match n with
  | O => Some ([], s)
  | S n' =>
      match parse_escape s with
      | Some (b, rest) =>
          match read_continuations n' rest with
          | Some (bs, r) => Some (b :: bs, r)
          | None => None
          end
      | None => None
      end
  end.

Definition is_continuation (b : Z) : bool := (128 <=? b) && (b <=? 191).

(** The code point of a valid multi-octet UTF-8 sequence: continuation
    octets, shortest form, no surrogate, at most U+10FFFF. *)
Definition utf8_decode (octets : list Z) : option Z :=
  match octets with
  | [b0; b1] =>
      let cp := (b0 - 192) * 64 + (b1 - 128) in
      if is_continuation b1 && (128 <=? cp) then Some cp else None
  | [b0; b1; b2] =>
      let cp := (b0 - 224) * 4096 + (b1 - 128) * 64 + (b2 - 128) in
      if is_continuation b1 && is_continuation b2 && (2048 <=? cp) &&
         negb ((55296 <=? cp) && (cp <=? 57343))
      then Some cp else None
  | [b0; b1; b2; b3] =>
      let cp := (b0 - 240) * 262144 + (b1 - 128) * 4096 + (b2 - 128) * 64 + (b3 - 128) in
      if is_continuation b1 && is_continuation b2 && is_continuation b3 &&
         (65536 <=? cp) && (cp <=? 1114111)
      then Some cp else None
  | _ => None
  end.

(** [UTF16EncodeCodePoint]. *)
Definition utf16_encode (cp : Z) : jsstr :=
  if cp <? 65536 then [cp]
  else [(cp - 65536) / 1024 + 55296; (cp - 65536) mod 1024 + 56320].

(** The loop of [Decode(string, "")]: every step consumes at least one
    code unit, so the length of the string is enough fuel. *)
Fixpoint decode_loop (fuel : nat) (s : jsstr) : completion jsstr :=
  match fuel with
  | O => Normal []
  | S fuel' =>
      match s with
      | [] => Normal []
      | c :: rest =>
          if negb (c =? 37) then let? r := decode_loop fuel' rest in Normal (c :: r)
          else
            match parse_escape s with
            | None => Throw URIError
            | Some (b, rest1) =>
                match leading_ones b with
                | O => let? r := decode_loop fuel' rest1 in Normal (b :: r)
                | n =>
                    if (n =? 1)%nat || (4 <? n)%nat then Throw URIError
                    else
                      match read_continuations (n - 1) rest1 with
                      | None => Throw URIError
                      | Some (bs, rest2) =>
                          match utf8_decode (b :: bs) with
                          | None => Throw URIError
                          | Some cp =>
                              let? r := decode_loop fuel' rest2 in
                              Normal (utf16_encode cp ++ r)
                          end
                      end
                end
            end
      end
  end.

Definition decodeURIComponent (s : jsstr) : completion jsstr :=
  decode_loop (length s) s.

(** ** The submit handler *)

(** The entries [new FormData(form)] holds for the three fields. *)
Record FormFields := mkFormFields {
  field_name : jsstr;
  field_email : jsstr;
  field_message : jsstr
}.

Inductive SubmitEffect :=
| PreventDefault
| SetLocationHref (url : jsstr).

(** [`Portfolio Inquiry from ${name}`]. *)
Definition subject_text (f : FormFields) : jsstr :=
  js "Portfolio Inquiry from " ++ field_name f.

(** [`${message}\n\n— ${name} (${email})`]; the em dash is U+2014. *)
Definition body_text (f : FormFields) : jsstr :=
  field_message f ++ [10; 10; 8212; 32] ++ field_name f ++ js " (" ++ field_email f ++ js ")".

Definition mailto_url (subject body : jsstr) : jsstr :=
  js "mailto:youremail@example.com?subject=" ++ subject ++ js "&body=" ++ body.

(** The handler: [e.preventDefault()] first, then the two encodings; a
    throw leaves only the cancelled submission. *)
Definition contact_onSubmit (f : FormFields) : list SubmitEffect * completion unit :=
  match (let? subject := encodeURIComponent (subject_text f) in
         let? body := encodeURIComponent (body_text f) in
         Normal (mailto_url subject body)) with
  | Normal url => ([PreventDefault; SetLocationHref url], Normal tt)
  | Throw e => ([PreventDefault], Throw e)
  end.

(** ** Well-formed UTF-16 *)

(** Unicode's well-formed UTF-16: a sequence of code points, each one
    non-surrogate code unit or a lead surrogate followed by a trail
    surrogate. *)
Inductive utf16_wf : jsstr -> Prop :=
| utf16_wf_nil : utf16_wf []
| utf16_wf_bmp c s :
    0 <= c <= 65535 -> is_lead_surrogate c = false -> is_trail_surrogate c = false ->
    utf16_wf s -> utf16_wf (c :: s)
| utf16_wf_pair l t s :
    is_lead_surrogate l = true -> is_trail_surrogate t = true ->
    utf16_wf s -> utf16_wf (l :: t :: s).

(** The same check as a program, so that well-formedness is decided by
    evaluation. *)
Fixpoint utf16_wfb (s : jsstr) : bool :=
  match s with
  | [] => true
  | c :: r =>
      if is_lead_surrogate c then
        match r with
        | t :: r' => is_trail_surrogate t && utf16_wfb r'
        | [] => false
        end
      else negb (is_trail_surrogate c) && (0 <=? c) && (c <=? 65535) && utf16_wfb r
  end.

(** ** Lemmas: hex escapes *)

Lemma hex_value_digit (d : Z) : 0 <= d < 16 -> hex_value (hex_digit d) = Some d.
Proof.
  intros Hd. unfold hex_digit, hex_value.
  destruct (Z.ltb_spec d 10);
    repeat match goal with
    | |- context [?a <=? ?b] => destruct (Z.leb_spec a b)
    end; simpl; f_equal; lia.
Qed.

Lemma parse_escape_octet (o : Z) (rest : jsstr) :
  0 <= o < 256 -> parse_escape (percent_octet o ++ rest) = Some (o, rest).
Proof.
  intros Ho. simpl.
  assert (0 <= o / 16 < 16) by (split; [apply Z.div_pos|apply Z.div_lt_upper_bound]; lia).
  assert (0 <= o mod 16 < 16) by (apply Z.mod_pos_bound; lia).
  rewrite !hex_value_digit by done.
  f_equal. f_equal. pose proof (Z.div_mod o 16). lia.
Qed.

Lemma read_continuations_octets (bs : list Z) (rest : jsstr) :
  Forall (fun b => 0 <= b < 256) bs ->
  read_continuations (length bs) (List.concat (map percent_octet bs) ++ rest)
  = Some (bs, rest).
Proof.
  induction 1 as [|b bs Hb _ IH]; [done|].
  cbn [map List.concat length read_continuations].
  rewrite <- app_assoc, parse_escape_octet by done. by rewrite IH.
Qed.

(** ** Lemmas: UTF-8 and UTF-16 *)

Definition valid_code_point (cp : Z) : Prop :=
  0 <= cp <= 1114111 /\ ~ (55296 <= cp <= 57343).

Lemma utf8_octets_ascii (cp : Z) : 0 <= cp < 128 -> utf8_octets cp = [cp].
Proof. intros H. unfold utf8_octets. by zdecide. Qed.

(** A code point from U+0080 on: a leading octet announcing the number
    of continuation octets, and the sequence decodes back. *)
Lemma utf8_octets_multi (cp : Z) :
  valid_code_point cp -> 128 <= cp ->
  exists b0 bs, utf8_octets cp = b0 :: bs /\ (1 <= length bs <= 3)%nat /\
    leading_ones b0 = S (length bs) /\ utf8_decode (b0 :: bs) = Some cp /\
    Forall (fun b => 0 <= b < 256) (b0 :: bs).
Proof.
  intros [Hr Hs] H128. unfold utf8_octets.
  destruct (Z.ltb_spec cp 128); [lia|].
  destruct (Z.ltb_spec cp 2048); [|destruct (Z.ltb_spec cp 65536)];
    destruct (Z.ltb_spec cp 55296); try (exfalso; lia);
    (eexists _, _; split; [reflexivity|]); simpl;
    (split; [lia|]); unfold leading_ones, is_continuation; zdecide;
    (split; [reflexivity|]); simpl; zdecide;
    (split; [f_equal; Z.div_mod_to_equations; lia|]);
    repeat constructor; Z.div_mod_to_equations; lia.
Qed.

Lemma utf16_encode_bmp (c : Z) : 0 <= c < 65536 -> utf16_encode c = [c].
Proof. intros H. unfold utf16_encode. by zdecide. Qed.

Lemma surrogate_pair_valid (l t : Z) :
  is_lead_surrogate l = true -> is_trail_surrogate t = true ->
  valid_code_point (surrogate_pair_to_code_point l t) /\
  65536 <= surrogate_pair_to_code_point l t /\
  utf16_encode (surrogate_pair_to_code_point l t) = [l; t].
Proof.
  unfold is_lead_surrogate, is_trail_surrogate, surrogate_pair_to_code_point, utf16_encode.
  intros Hl Ht. js_bool. apply Z.leb_le in Hl, Ht. apply Z.leb_le in H, H0.
  split; [split; lia|]. split; [lia|]. zdecide. f_equal; [|f_equal];
    Z.div_mod_to_equations; lia.
Qed.

(** ** Lemmas: decoding what was encoded *)

(** The loop step at an escape of an ASCII octet. *)
Lemma decode_loop_ascii_escape (o : Z) (f : nat) (rest : jsstr) :
  0 <= o < 128 ->
  decode_loop (S f) (percent_octet o ++ rest) = let? r := decode_loop f rest in Normal (o :: r).
Proof.
  intros Ho. pose proof (parse_escape_octet o rest ltac:(lia)) as Hp.
  cbn [percent_octet app] in *. cbn [decode_loop]. rewrite Z.eqb_refl. cbn [negb].
  rewrite Hp. unfold leading_ones. by zdecide.
Qed.

(** The loop step at the escapes of a multi-octet sequence. *)
Lemma decode_loop_multi (b0 : Z) (bs : list Z) (cp : Z) (f : nat) (rest : jsstr) :
  Forall (fun b => 0 <= b < 256) (b0 :: bs) -> (1 <= length bs <= 3)%nat ->
  leading_ones b0 = S (length bs) -> utf8_decode (b0 :: bs) = Some cp ->
  decode_loop (S f) (List.concat (map percent_octet (b0 :: bs)) ++ rest)
  = let? r := decode_loop f rest in Normal (utf16_encode cp ++ r).
Proof.
  intros Hoct Hlen Hlead Hdec. apply Forall_cons in Hoct as [Hb0 Hbs].
  pose proof (parse_escape_octet b0 (List.concat (map percent_octet bs) ++ rest) Hb0) as Hp.
  cbn [map List.concat]. rewrite <- app_assoc.
  cbn [percent_octet app] in *. cbn [decode_loop]. rewrite Z.eqb_refl. cbn [negb].
  rewrite Hp, Hlead. cbv iota.
  assert (E : ((S (length bs) =? 1)%nat || (4 <? S (length bs))%nat) = false)
    by (destruct bs as [|? [|? [|? [|]]]]; simpl in *; [lia|done|done|done|lia]).
  rewrite E, Nat.sub_succ, Nat.sub_0_r, read_continuations_octets by done.
  by rewrite Hdec.
Qed.

(** One loop step of [Decode] reads back the escapes of one code point. *)
Lemma decode_loop_percent (cp : Z) (f : nat) (rest : jsstr) :
  valid_code_point cp ->
  decode_loop (S f) (percent_encode cp ++ rest)
  = let? r := decode_loop f rest in Normal (utf16_encode cp ++ r).
Proof.
  intros Hv. pose proof Hv as [Hr _]. unfold percent_encode.
  destruct (Z.ltb_spec cp 128) as [Hlt|Hge].
  - rewrite utf8_octets_ascii by lia.
    cbn [map List.concat]. rewrite app_nil_r.
    rewrite decode_loop_ascii_escape by lia.
    by rewrite utf16_encode_bmp by lia.
  - destruct (utf8_octets_multi cp Hv Hge) as (b0 & bs & -> & Hlen & Hlead & Hdec & Hoct).
    by apply decode_loop_multi.
Qed.

Lemma uri_unreserved_not_percent (c : Z) : uri_unreserved c = true -> c <> 37.
Proof. intros Hc ->. vm_compute in Hc. discriminate. Qed.

Lemma unreserved_code_point (c : Z) : uri_unreserved c = true -> 0 <= c < 128.
Proof.
  unfold uri_unreserved. intros Hc. js_bool;
    repeat match goal with H : (_ <=? _) = true |- _ => apply Z.leb_le in H end;
    try lia.
  repeat (apply elem_of_cons in Hc as [->|Hc]; [lia|]).
  by apply not_elem_of_nil in Hc.
Qed.

(** Encoding then decoding, with enough fuel, gives back the string. *)
Lemma decode_encode_loop (s e : jsstr) (f : nat) :
  Forall code_unit_ok s -> encodeURIComponent s = Normal e ->
  (length s <= f)%nat -> decode_loop f e = Normal s.
Proof.
  revert s e. induction f as [|f IH]; intros s e Hok Henc Hlen.
  - destruct s; [|simpl in Hlen; lia]. injection Henc as <-. done.
  - destruct s as [|c rest]; [injection Henc as <-; done|].
    apply Forall_cons in Hok as [Hc Hok]. simpl in Henc, Hlen.
    destruct (uri_unreserved c) eqn:Hu.
    + destruct (encodeURIComponent rest) as [r|] eqn:Hr; [|discriminate].
      injection Henc as <-. simpl.
      rewrite (proj2 (Z.eqb_neq c 37)) by (by apply uri_unreserved_not_percent).
      simpl. rewrite (IH rest r) by (done || lia). done.
    + destruct (is_lead_surrogate c) eqn:Hl.
      * destruct rest as [|c2 rest']; [discriminate|].
        destruct (is_trail_surrogate c2) eqn:Ht; [|discriminate].
        apply Forall_cons in Hok as [_ Hok].
        destruct (encodeURIComponent rest') as [r|] eqn:Hr; [|discriminate].
        injection Henc as <-.
        destruct (surrogate_pair_valid c c2 Hl Ht) as (Hv & _ & Hu16).
        rewrite decode_loop_percent by done.
        rewrite (IH rest' r) by (done || (simpl in Hlen; lia)). simpl.
        by rewrite Hu16.
      * destruct (is_trail_surrogate c) eqn:Ht; [discriminate|].
        destruct (encodeURIComponent rest) as [r|] eqn:Hr; [|discriminate].
        injection Henc as <-.
        unfold is_lead_surrogate, is_trail_surrogate, code_unit_ok in *.
        rewrite decode_loop_percent.
        2:{ split; [lia|]. intros ?. js_bool;
            repeat match goal with H : (_ <=? _) = false |- _ => apply Z.leb_gt in H end;
            lia. }
        rewrite (IH rest r) by (done || lia). simpl.
        by rewrite utf16_encode_bmp by lia.
Qed.

Lemma encodeURIComponent_length (s e : jsstr) :
  encodeURIComponent s = Normal e -> (length s <= length e)%nat.
Proof.
  revert e. induction s as [s IH] using (induction_ltof1 _ (@length Z)); intros e Henc.
  unfold ltof in IH. destruct s as [|c rest]; simpl; [lia|]. simpl in Henc.
  destruct (uri_unreserved c).
  - destruct (encodeURIComponent rest) as [r|] eqn:Hr; [|discriminate].
    injection Henc as <-. simpl. specialize (IH rest ltac:(simpl; lia) r Hr). lia.
  - destruct (is_lead_surrogate c).
    + destruct rest as [|c2 rest']; [discriminate|].
      destruct (is_trail_surrogate c2); [|discriminate].
      destruct (encodeURIComponent rest') as [r|] eqn:Hr; [|discriminate].
      injection Henc as <-. specialize (IH rest' ltac:(simpl; lia) r Hr).
      rewrite length_app. unfold percent_encode, utf8_octets.
      repeat case_match; simpl; lia.
    + destruct (is_trail_surrogate c); [discriminate|].
      destruct (encodeURIComponent rest) as [r|] eqn:Hr; [|discriminate].
      injection Henc as <-. specialize (IH rest ltac:(simpl; lia) r Hr).
      rewrite length_app. unfold percent_encode, utf8_octets.
      repeat case_match; simpl; lia.
Qed.

(** ** Lemmas: the fuel of [Decode] *)

Lemma parse_escape_length (s r : jsstr) (b : Z) :
  parse_escape s = Some (b, r) -> (length r + 3 = length s)%nat.
Proof.
  destruct s as [|c [|h [|l rest]]]; simpl; try discriminate.
  destruct (c =? 37), (hex_value h), (hex_value l); intros; simplify_eq. lia.
Qed.

Lemma read_continuations_length (n : nat) (s r : jsstr) (bs : list Z) :
  read_continuations n s = Some (bs, r) -> (length r <= length s)%nat.
Proof.
  revert s bs. induction n as [|n IH]; intros s bs; simpl; [intros; simplify_eq; lia|].
  destruct (parse_escape s) as [[b r1]|] eqn:He; [|discriminate].
  destruct (read_continuations n r1) as [[bs' r2]|] eqn:Hr; [|discriminate].
  intros; simplify_eq. apply parse_escape_length in He. apply IH in Hr. lia.
Qed.

(** Every step of [Decode] consumes at least one code unit: any fuel
    from the length of the input on gives the same result, so
    [decodeURIComponent]'s fuel never cuts the loop short. *)
Lemma decode_loop_fuel (f1 f2 : nat) (s : jsstr) :
  (length s <= f1)%nat -> (length s <= f2)%nat -> decode_loop f1 s = decode_loop f2 s.
Proof.
  revert f2 s. induction f1 as [|f1 IH]; intros f2 s H1 H2.
  - destruct s; [|simpl in H1; lia]. by destruct f2.
  - destruct s as [|c rest]; [by destruct f2|]. destruct f2 as [|f2]; [simpl in H2; lia|].
    simpl in H1, H2. cbn [decode_loop]. destruct (negb (c =? 37)).
    { by rewrite (IH f2 rest) by lia. }
    destruct (parse_escape (c :: rest)) as [[b r1]|] eqn:He; [|done].
    apply parse_escape_length in He. simpl in He.
    destruct (leading_ones b) as [|n]; [by rewrite (IH f2 r1) by lia|].
    destruct (_ || _)%bool; [done|].
    destruct (read_continuations _ r1) as [[bs r2]|] eqn:Hr; [|done].
    apply read_continuations_length in Hr.
    destruct (utf8_decode _); [|done]. by rewrite (IH f2 r2) by lia.
Qed.

(** ** Lemmas: success, alphabet, well-formedness *)

Lemma hex_digit_unreserved (d : Z) : 0 <= d < 16 -> uri_unreserved (hex_digit d) = true.
Proof.
  intros Hd. unfold hex_digit, uri_unreserved.
  destruct (Z.ltb_spec d 10); zdecide; reflexivity.
Qed.

(** The characters an encoding is made of: unreserved ones and [%]. *)
Definition uri_char (u : Z) : Prop := uri_unreserved u = true \/ u = 37.

Lemma percent_octet_chars (o : Z) :
  0 <= o < 256 -> Forall uri_char (percent_octet o).
Proof.
  intros Ho. unfold percent_octet, uri_char.
  constructor; [by right|]. constructor; [|constructor; [|constructor]];
    left; apply hex_digit_unreserved; Z.div_mod_to_equations; lia.
Qed.

Lemma percent_encode_chars (cp : Z) :
  valid_code_point cp -> Forall uri_char (percent_encode cp).
Proof.
  intros Hv. pose proof Hv as [Hr _]. unfold percent_encode.
  assert (Forall (fun b => 0 <= b < 256) (utf8_octets cp)) as Hoct.
  { destruct (Z.ltb_spec cp 128).
    - rewrite utf8_octets_ascii by lia. repeat constructor; lia.
    - by destruct (utf8_octets_multi cp Hv ltac:(lia)) as (b0 & bs & -> & _ & _ & _ & ?). }
  induction Hoct as [|b bs Hb _ IH]; cbn [map List.concat]; [done|].
  apply Forall_app_2; [by apply percent_octet_chars|done].
Qed.

Lemma non_surrogate_valid (c : Z) :
  code_unit_ok c -> is_lead_surrogate c = false -> is_trail_surrogate c = false ->
  valid_code_point c.
Proof.
  unfold code_unit_ok, is_lead_surrogate, is_trail_surrogate. intros Hc Hl Ht.
  split; [lia|]. intros ?. js_bool;
    repeat match goal with H : (_ <=? _) = false |- _ => apply Z.leb_gt in H end; lia.
Qed.

Lemma unreserved_not_surrogate (c : Z) :
  uri_unreserved c = true -> is_lead_surrogate c = false /\ is_trail_surrogate c = false.
Proof.
  intros Hc%unreserved_code_point. unfold is_lead_surrogate, is_trail_surrogate.
  by zdecide.
Qed.

(** Encoding succeeds on well-formed UTF-16 and emits only unreserved
    characters and escapes. *)
Lemma encode_wf (s : jsstr) :
  utf16_wf s -> exists e, encodeURIComponent s = Normal e /\ Forall uri_char e.
Proof.
  induction 1 as [|c s Hc Hl Ht _ (e & He & Hce)|l t s Hl Ht _ (e & He & Hce)].
  - by exists [].
  - simpl. destruct (uri_unreserved c) eqn:Hu.
    + rewrite He. eexists. split; [done|]. constructor; [by left|done].
    + rewrite Hl, Ht, He. eexists. split; [done|]. apply Forall_app_2; [|done].
      apply percent_encode_chars, non_surrogate_valid; [unfold code_unit_ok; lia|done|done].
  - simpl. destruct (uri_unreserved l) eqn:Hu.
    { apply unreserved_not_surrogate in Hu as [Hl' _]. congruence. }
    rewrite Hl, Ht, He. eexists. split; [done|]. apply Forall_app_2; [|done].
    apply percent_encode_chars. by apply surrogate_pair_valid.
Qed.

(** A successful encoding came from well-formed UTF-16. *)
Lemma encode_ok_wf (s e : jsstr) :
  Forall code_unit_ok s -> encodeURIComponent s = Normal e -> utf16_wf s.
Proof.
  revert e. induction s as [s IH] using (induction_ltof1 _ (@length Z)); intros e Hok Henc.
  unfold ltof in IH. destruct s as [|c rest]; [constructor|].
  apply Forall_cons in Hok as [Hc Hok]. simpl in Henc.
  destruct (uri_unreserved c) eqn:Hu.
  - destruct (encodeURIComponent rest) as [r|] eqn:Hr; [|discriminate].
    destruct (unreserved_not_surrogate c Hu).
    constructor; [unfold code_unit_ok in Hc; lia|done|done|].
    apply (IH rest ltac:(simpl; lia) r Hok Hr).
  - destruct (is_lead_surrogate c) eqn:Hl.
    + destruct rest as [|c2 rest']; [discriminate|].
      destruct (is_trail_surrogate c2) eqn:Ht; [|discriminate].
      destruct (encodeURIComponent rest') as [r|] eqn:Hr; [|discriminate].
      apply Forall_cons in Hok as [_ Hok].
      constructor; [done|done|]. apply (IH rest' ltac:(simpl; lia) r Hok Hr).
    + destruct (is_trail_surrogate c) eqn:Ht; [discriminate|].
      destruct (encodeURIComponent rest) as [r|] eqn:Hr; [|discriminate].
      constructor; [unfold code_unit_ok in Hc; lia|done|done|].
      apply (IH rest ltac:(simpl; lia) r Hok Hr).
Qed.

Lemma utf16_wf_app (a b : jsstr) : utf16_wf a -> utf16_wf b -> utf16_wf (a ++ b).
Proof. induction 1; intros Hb; simpl; [done|constructor..]; by auto. Qed.

Lemma utf16_wf_units (s : jsstr) : utf16_wf s -> Forall code_unit_ok s.
Proof.
  unfold code_unit_ok, is_lead_surrogate, is_trail_surrogate.
  induction 1 as [|c s Hc _ _ _ IH|l t s Hl Ht _ IH]; [done|constructor; [cbv beta; lia|done]|].
  unfold is_lead_surrogate, is_trail_surrogate in *.
  js_bool; repeat match goal with H : (_ <=? _) = true |- _ => apply Z.leb_le in H end.
  constructor; [cbv beta; lia|constructor; [cbv beta; lia|done]].
Qed.

Lemma utf16_wf_ascii (s : string) : utf16_wf (js s).
Proof.
  induction s as [|a s IH]; simpl; constructor; try done;
    pose proof (nat_ascii_bounded a); unfold is_lead_surrogate, is_trail_surrogate; zdecide;
    done || lia.
Qed.

(** ** Reading a [mailto:] URL back

    How a mail client reads the URL (RFC 6068): the address up to [?],
    then [name=value] fields separated by [&], each value still
    percent-encoded.  This is the receiving side, stated to express what
    the handler's URL carries. *)

Fixpoint strip_prefix (p s : jsstr) : option jsstr :=
  match p, s with
  | [], _ => Some s
  | a :: p', b :: s' => if a =? b then strip_prefix p' s' else None
  | _ :: _, [] => None
  end.

(** The part before the first [sep], and what follows it, if any. *)
Fixpoint break_at (sep : Z) (s : jsstr) : jsstr * option jsstr :=
  match s with
  | [] => ([], None)
  | c :: r => if c =? sep then ([], Some r) else let '(a, b) := break_at sep r in (c :: a, b)
  end.

(** The pieces between the occurrences of [sep]. *)
Fixpoint split_on (sep : Z) (s : jsstr) : list jsstr :=
  match s with
  | [] => [[]]
  | c :: r =>
      if c =? sep then [] :: split_on sep r
      else match split_on sep r with
           | [] => [[c]]
           | w :: ws => (c :: w) :: ws
           end
  end.

Definition parse_field (hf : jsstr) : jsstr * jsstr :=
  let '(n, v) := break_at 61 hf in (n, default [] v).

Definition parse_mailto (url : jsstr) : option (jsstr * list (jsstr * jsstr)) :=
  match strip_prefix (js "mailto:") url with
  | None => None
  | Some rest =>
      let '(addr, query) := break_at 63 rest in
      Some (addr, match query with
                  | None => []
                  | Some q => map parse_field (split_on 38 q)
                  end)
  end.

Lemma strip_prefix_app (p s : jsstr) : strip_prefix p (p ++ s) = Some s.
Proof. induction p as [|a p IH]; simpl; [done|]. by rewrite Z.eqb_refl. Qed.

Lemma break_at_app (sep : Z) (a b : jsstr) :
  sep ∉ a -> break_at sep (a ++ sep :: b) = (a, Some b).
Proof.
  induction a as [|c a IH]; intros Ha; simpl; [by rewrite Z.eqb_refl|].
  apply not_elem_of_cons in Ha as [Hc Ha].
  destruct (Z.eqb_spec c sep); [congruence|]. by rewrite IH.
Qed.

Lemma split_on_none (sep : Z) (s : jsstr) : sep ∉ s -> split_on sep s = [s].
Proof.
  induction s as [|c s IH]; intros Hs; simpl; [done|].
  apply not_elem_of_cons in Hs as [Hc Hs].
  destruct (Z.eqb_spec c sep); [congruence|]. by rewrite IH.
Qed.

Lemma split_on_app (sep : Z) (a b : jsstr) :
  sep ∉ a -> split_on sep (a ++ sep :: b) = a :: split_on sep b.
Proof.
  induction a as [|c a IH]; intros Ha; simpl; [by rewrite Z.eqb_refl|].
  apply not_elem_of_cons in Ha as [Hc Ha].
  destruct (Z.eqb_spec c sep); [congruence|]. by rewrite IH.
Qed.

Lemma uri_chars_not (u : Z) (e : jsstr) :
  Forall uri_char e -> uri_unreserved u = false -> u <> 37 -> u ∉ e.
Proof.
  intros He Hu H37 Hin. destruct (proj1 (Forall_forall _ _) He u Hin); congruence.
Qed.

(** The handler's URL reads back as the address and the two fields. *)
Lemma parse_mailto_url (subject body : jsstr) :
  Forall uri_char subject -> Forall uri_char body ->
  parse_mailto (mailto_url subject body) =
    Some (js "youremail@example.com", [(js "subject", subject); (js "body", body)]).
Proof.
  intros Hs%(uri_chars_not 38) Hb%(uri_chars_not 38); [|done..].
  unfold parse_mailto, mailto_url.
  change (js "mailto:youremail@example.com?subject=")
    with (js "mailto:" ++ js "youremail@example.com" ++ 63 :: js "subject=").
  rewrite <-!app_assoc, strip_prefix_app, <-app_comm_cons, break_at_app by decide_closed.
  change (js "&body=") with (38 :: js "body=").
  rewrite <-app_comm_cons, app_assoc, split_on_app, split_on_none; [done|..];
    rewrite elem_of_app; intros [H|H]; [revert H; decide_closed|done|revert H; decide_closed|done].
Qed.

(** ** Lemmas: where encoding fails *)

(** Code units below the surrogate range, as the literal parts of the
    handler's templates are. *)
Definition low_unit (u : Z) : Prop := 0 <= u < 55296.

Lemma js_low (s : string) : Forall low_unit (js s).
Proof.
  induction s as [|a s IH]; simpl; constructor; [|done].
  pose proof (nat_ascii_bounded a). unfold low_unit. lia.
Qed.

Lemma low_not_surrogate (u : Z) :
  low_unit u -> is_lead_surrogate u = false /\ is_trail_surrogate u = false.
Proof. unfold low_unit, is_lead_surrogate, is_trail_surrogate. intros. by zdecide. Qed.

Lemma utf16_wf_low_prefix (l b : jsstr) :
  Forall low_unit l -> utf16_wf (l ++ b) -> utf16_wf b.
Proof.
  induction 1 as [|u l Hu _ IH]; simpl; [done|]. intros Hwf.
  destruct (low_not_surrogate u Hu). inversion Hwf; subst; [by apply IH|congruence].
Qed.

(** A well-formed string cut just before low code units is well formed on
    both sides. *)
Lemma utf16_wf_split (a l b : jsstr) :
  Forall low_unit l -> l <> [] -> utf16_wf (a ++ l ++ b) -> utf16_wf a /\ utf16_wf (l ++ b).
Proof.
  intros Hl Hne. induction a as [a IH] using (induction_ltof1 _ (@length Z)).
  unfold ltof in IH. intros Hwf. destruct a as [|c [|t a'']].
  - split; [constructor|done].
  - destruct l as [|u l']; [done|]. apply Forall_cons in Hl as [Hu _].
    destruct (low_not_surrogate u Hu).
    inversion Hwf; subst; [|congruence]. split; [by constructor; [..|constructor]|done].
  - inversion Hwf as [|? ? Hc Hlc Htc Hrest|? ? ? Hlc Htc Hrest]; subst.
    + destruct (IH (t :: a'') ltac:(simpl; lia) Hrest). split; [by constructor|done].
    + destruct (IH a'' ltac:(simpl; lia) Hrest). split; [by constructor|done].
Qed.

(** [Encode] throws nothing but a [URIError]. *)
Lemma encode_throw_uri (s : jsstr) (e : js_error) :
  encodeURIComponent s = Throw e -> e = URIError.
Proof.
  revert e. induction s as [s IH] using (induction_ltof1 _ (@length Z)); intros e Henc.
  unfold ltof in IH. destruct s as [|c rest]; simpl in Henc; [discriminate|].
  destruct (uri_unreserved c); [|destruct (is_lead_surrogate c);
    [destruct rest as [|c2 rest']; [by simplify_eq|];
     destruct (is_trail_surrogate c2); [|by simplify_eq]
    |destruct (is_trail_surrogate c); [by simplify_eq|]]].
  all: match goal with
       | H : context [encodeURIComponent ?r] |- _ =>
           destruct (encodeURIComponent r) eqn:Hr; simpl in H; simplify_eq;
           apply (IH r); [simpl; lia|done]
       end.
Qed.

Lemma encode_not_wf (s : jsstr) :
  Forall code_unit_ok s -> ~ utf16_wf s -> encodeURIComponent s = Throw URIError.
Proof.
  intros Hok Hn. destruct (encodeURIComponent s) as [e|e] eqn:He.
  - by destruct (Hn (encode_ok_wf s e Hok He)).
  - by rewrite (encode_throw_uri s e He).
Qed.

Lemma decode_encode (s e : jsstr) :
  utf16_wf s -> encodeURIComponent s = Normal e -> decodeURIComponent e = Normal s.
Proof.
  intros Hwf He. unfold decodeURIComponent.
  apply (decode_encode_loop s); [by apply utf16_wf_units|done|].
  by apply encodeURIComponent_length.
Qed.

Lemma utf16_wf_low (l : jsstr) : Forall low_unit l -> utf16_wf l.
Proof.
  induction 1 as [|u l Hu _ IH]; [constructor|].
  destruct (low_not_surrogate u Hu). constructor; [unfold low_unit in Hu; lia|done..].
Qed.

Lemma utf16_wf_split_end (a l : jsstr) :
  Forall low_unit l -> l <> [] -> utf16_wf (a ++ l) -> utf16_wf a.
Proof. intros Hl Hne Hwf. apply (utf16_wf_split a l []); [done..|by rewrite app_nil_r]. Qed.

Lemma em_dash_sep_low : Forall low_unit [10; 10; 8212; 32].
Proof. repeat constructor; unfold low_unit; lia. Qed.

#[local] Hint Resolve js_low em_dash_sep_low utf16_wf_low utf16_wf_app : js.

(** The subject template is well formed exactly when the name is. *)
Lemma subject_text_wf (f : FormFields) : utf16_wf (subject_text f) <-> utf16_wf (field_name f).
Proof.
  unfold subject_text. split.
  - apply utf16_wf_low_prefix, js_low.
  - auto with js.
Qed.

(** The body template is well formed exactly when the three fields are. *)
Lemma body_text_wf (f : FormFields) :
  utf16_wf (body_text f) <->
  utf16_wf (field_message f) /\ utf16_wf (field_name f) /\ utf16_wf (field_email f).
Proof.
  unfold body_text. split.
  - intros (Hm & Hr)%utf16_wf_split; [|auto with js|done].
    apply utf16_wf_low_prefix in Hr; [|auto with js].
    apply utf16_wf_split in Hr as (Hn & Hr); [|auto with js|done].
    apply utf16_wf_low_prefix in Hr; [|auto with js].
    apply utf16_wf_split_end in Hr; [|auto with js|done]. done.
  - intros (? & ? & ?). auto 10 with js.
Qed.

Lemma utf16_wfb_spec (s : jsstr) : utf16_wfb s = true <-> utf16_wf s.
Proof.
  induction s as [s IH] using (induction_ltof1 _ (@length Z)). unfold ltof in IH.
  destruct s as [|c r]; [split; [constructor|done]|]. simpl.
  destruct (is_lead_surrogate c) eqn:Hl.
  - destruct r as [|t r'].
    + split; [done|]. intros Hw. inversion Hw; congruence.
    + rewrite andb_true_iff, (IH r') by (simpl; lia). split.
      * intros [Ht Hw]. by constructor.
      * intros Hw. inversion Hw; [congruence|done].
  - rewrite !andb_true_iff, negb_true_iff, Z.leb_le, Z.leb_le, (IH r) by (simpl; lia).
    split.
    + intros (((Ht & ?) & ?) & Hw). constructor; [lia|done..].
    + intros Hw. inversion Hw; [|congruence]. split_and!; (done || lia).
Qed.

#[export] Instance utf16_wf_dec (s : jsstr) : Decision (utf16_wf s).
Proof.
  destruct (utf16_wfb s) eqn:E; [left|right]; rewrite <-utf16_wfb_spec; [done|congruence].
Defined.

(** ** Lemmas: the templates' code units *)

Lemma js_units (s : string) : Forall code_unit_ok (js s).
Proof. eapply Forall_impl; [apply js_low|]. unfold low_unit, code_unit_ok. lia. Qed.

Lemma subject_text_units (f : FormFields) :
  Forall code_unit_ok (field_name f) -> Forall code_unit_ok (subject_text f).
Proof. intros. apply Forall_app_2; [apply js_units|done]. Qed.

Lemma body_text_units (f : FormFields) :
  Forall code_unit_ok (field_name f) -> Forall code_unit_ok (field_email f) ->
  Forall code_unit_ok (field_message f) -> Forall code_unit_ok (body_text f).
Proof.
  intros. unfold body_text. repeat apply Forall_app_2; try done; try apply js_units.
  repeat constructor; unfold code_unit_ok; lia.
Qed.

(** On JavaScript strings, a successful encoding emits only unreserved
    characters and [%]. *)
Lemma encode_chars (s e : jsstr) :
  Forall code_unit_ok s -> encodeURIComponent s = Normal e -> Forall uri_char e.
Proof.
  intros Hok He. destruct (encode_wf s (encode_ok_wf s e Hok He)) as (e' & He' & Hc).
  rewrite He in He'. by injection He' as ->.
Qed.

Lemma uri_char_ascii (u : Z) : uri_char u -> 0 <= u < 128.
Proof. intros [Hu%unreserved_code_point| ->]; lia. Qed.

(** The handler either navigates to the URL of the two encodings or
    only cancels the submission. *)
Lemma contact_onSubmit_cases (f : FormFields) :
  (exists subject body, encodeURIComponent (subject_text f) = Normal subject /\
     encodeURIComponent (body_text f) = Normal body /\
     contact_onSubmit f = ([PreventDefault; SetLocationHref (mailto_url subject body)], Normal tt)) \/
  (exists e, contact_onSubmit f = ([PreventDefault], Throw e)).
Proof.
  unfold contact_onSubmit.
  destruct (encodeURIComponent (subject_text f)) as [subject|e] eqn:Hes;
    rewrite ?completion_bind_normal, ?completion_bind_throw; [|right; by eexists].
  destruct (encodeURIComponent (body_text f)) as [body|e] eqn:Heb;
    rewrite ?completion_bind_normal, ?completion_bind_throw; [left|right; by eexists].
  by exists subject, body.
Qed.

(** With well-formed fields the handler completes. *)
Lemma contact_onSubmit_normal (f : FormFields) :
  utf16_wf (field_name f) -> utf16_wf (field_email f) -> utf16_wf (field_message f) ->
  (contact_onSubmit f).2 = Normal tt.
Proof.
  intros Hn He Hm.
  destruct (encode_wf (subject_text f)) as (s & Hs & _); [by apply subject_text_wf|].
  destruct (encode_wf (body_text f)) as (b & Hb & _); [by apply body_text_wf|].
  unfold contact_onSubmit. by rewrite Hs, Hb.
Qed.

(** With a field that is not well formed the handler throws after
    cancelling the submission. *)
Lemma contact_onSubmit_not_wf (f : FormFields) :
  Forall code_unit_ok (field_name f) -> Forall code_unit_ok (field_email f) ->
  Forall code_unit_ok (field_message f) ->
  ~ (utf16_wf (field_name f) /\ utf16_wf (field_email f) /\ utf16_wf (field_message f)) ->
  contact_onSubmit f = ([PreventDefault], Throw URIError).
Proof.
  intros Hn He Hm Hnot. unfold contact_onSubmit.
  destruct (encodeURIComponent (subject_text f)) as [subject|e] eqn:Hes;
    [|by rewrite (encode_throw_uri _ _ Hes)].
  apply encode_ok_wf, subject_text_wf in Hes; [|by apply subject_text_units].
  rewrite (encode_not_wf (body_text f)); [done|by apply body_text_units|].
  rewrite body_text_wf; tauto.
Qed.

(** ** Theorems *)

(** C5: when the three fields are well-formed UTF-16 text, submitting the
    contact form cancels the native submission and navigates to a
    [mailto:] URL that a mail client reads as the address
    [youremail@example.com] (the template's placeholder, whatever the
    user typed) with exactly two fields, [subject] and [body], which
    decode to ["Portfolio Inquiry from <name>"] and
    ["<message>\n\n— <name> (<email>)"]: no character the user typed
    (an [&], [=], [?] or [#]) can split or cut the query. *)
Theorem contact_mailto_faithful (f : FormFields) :
  utf16_wf (field_name f) -> utf16_wf (field_email f) -> utf16_wf (field_message f) ->
  exists subject body,
    contact_onSubmit f =
      ([PreventDefault; SetLocationHref (mailto_url subject body)], Normal tt) /\
    parse_mailto (mailto_url subject body) =
      Some (js "youremail@example.com", [(js "subject", subject); (js "body", body)]) /\
    decodeURIComponent subject = Normal (subject_text f) /\
    decodeURIComponent body = Normal (body_text f).
Proof.
  intros Hn He Hm.
  assert (Hs : utf16_wf (subject_text f)) by (by apply subject_text_wf).
  assert (Hb : utf16_wf (body_text f)) by (by apply body_text_wf).
  destruct (encode_wf _ Hs) as (subject & Hes & Hcs).
  destruct (encode_wf _ Hb) as (body & Heb & Hcb).
  exists subject, body. unfold contact_onSubmit. rewrite Hes, Heb.
  split_and!; [done|by apply parse_mailto_url|by apply decode_encode..].
Qed.

(** C15: the address the handler navigates to is a URL in ASCII: for
    any text the user typed, the only navigation the submit handler
    performs is to a string that starts with [mailto:] and whose code
    units are all below 128 (the escapes carry everything else). *)
Theorem contact_href_ascii (f : FormFields) (url : jsstr) :
  Forall code_unit_ok (field_name f) -> Forall code_unit_ok (field_email f) ->
  Forall code_unit_ok (field_message f) ->
  SetLocationHref url ∈ (contact_onSubmit f).1 ->
  Forall (fun u => 0 <= u < 128) url /\ exists rest, url = js "mailto:" ++ rest.
Proof.
  intros Hn He Hm Hin.
  destruct (contact_onSubmit_cases f) as [(subject & body & Hes & Heb & Hsub)|(e & Hsub)];
    rewrite Hsub in Hin; cbn [fst] in Hin; [|by apply list_elem_of_singleton in Hin].
  apply elem_of_cons in Hin as [Hin|Hin]; [discriminate|].
  apply list_elem_of_singleton in Hin. injection Hin as ->.
  apply encode_chars in Hes; [|by apply subject_text_units].
  apply encode_chars in Heb; [|by apply body_text_units].
  split; [|by eexists].
  unfold mailto_url. repeat apply Forall_app_2;
    try (eapply Forall_impl; [eassumption|apply uri_char_ascii]); decide_closed.
Qed.

(** ** Witnesses *)

Lemma contact_href_ascii_witness :
  exists url, SetLocationHref url ∈ (contact_onSubmit (mkFormFields (js "Ana") (js "a@x.io") (js "Hi"))).1 /\
    Forall (fun u => 0 <= u < 128) url.
Proof.
  destruct (contact_onSubmit (mkFormFields (js "Ana") (js "a@x.io") (js "Hi"))) as [effs r] eqn:E.
  pose proof E as E'. vm_compute in E'. injection E' as <- _.
  eexists. split; [by apply elem_of_cons; right; apply list_elem_of_singleton|].
  eapply proj1, (contact_href_ascii (mkFormFields (js "Ana") (js "a@x.io") (js "Hi")));
    [decide_closed..|]. rewrite E. by apply elem_of_cons; right; apply list_elem_of_singleton.
Defined.

Lemma contact_mailto_faithful_witness :
  exists subject body,
    contact_onSubmit (mkFormFields (js "Ana & Bo") (js "ana@x.io") (js "a=1?b#")) =
      ([PreventDefault; SetLocationHref (mailto_url subject body)], Normal tt) /\
    parse_mailto (mailto_url subject body) =
      Some (js "youremail@example.com", [(js "subject", subject); (js "body", body)]) /\
    decodeURIComponent subject = Normal (js "Portfolio Inquiry from Ana & Bo") /\
    decodeURIComponent body =
      Normal (js "a=1?b#" ++ [10; 10; 8212; 32] ++ js "Ana & Bo (ana@x.io)").
Proof.
  apply (contact_mailto_faithful (mkFormFields (js "Ana & Bo") (js "ana@x.io") (js "a=1?b#")));
    simpl; decide_closed.
Defined.

