(* ===== verification/UiPrimitives.v ===== *)
(** * The design-system primitives

    The components under [src/src/components/ui/] that the page renders
    through: [Card], [CardHeader], [CardContent], [CardTitle]
    ([card.jsx]), [Badge] ([badge.jsx]), [Button] ([button.jsx]),
    [Input] ([input.jsx]), [Textarea] ([textarea.jsx]) and
    [TooltipContent] ([tooltip.jsx]).  [Switch] is modelled with the
    page's events in [Page].

    Each component is a function from its props (a JavaScript object, an
    association list of property names and values, with the property
    semantics of [Chart.opt_get]) and its children to the element it
    returns.  Their logic is the composition of the [className] string:
    a template literal with a base class list, trimmed with
    [String.prototype.trim], or a concatenation; and [Button]'s
    [asChild], which clones the child with merged props.

    What the class string means is its list of tokens: the DOM splits
    the attribute on ASCII whitespace.  The theorems state that every
    primitive puts its base classes and the caller's in a fixed order
    and loses none, that [Badge] ignores its [variant], that [Button]
    with [asChild] hands its own props to the child, and that [Input]
    and [Textarea] keep every prop but [className] (so a form field keeps
    its [name]). *)

From S2P Require Import Prelude JsString Chart.

(** ** Strings: [trim] and class tokens *)

(** ECMA-262's [WhiteSpace] and [LineTerminator] code points, which
    [TrimString] removes. *)
Definition is_js_whitespace (u : Z) : bool :=
  bool_decide (u ∈ [9; 11; 12; 32; 160; 5760; 8239; 8287; 12288; 65279;
                    10; 13; 8232; 8233]) ||
  ((8192 <=? u) && (u <=? 8202)).

Fixpoint drop_ws (s : jsstr) : jsstr :=
  match s with
  | [] => []
  | c :: r => if is_js_whitespace c then drop_ws r else s
  end.

(** [String.prototype.trim]: [TrimString(S, start+end)]. *)
Definition trim (s : jsstr) : jsstr := rev (drop_ws (rev (drop_ws s))).

(** ASCII whitespace, the separators of the DOM's class attribute. *)
Definition is_ascii_whitespace (u : Z) : bool := bool_decide (u ∈ [9; 10; 12; 13; 32]).

(** The pieces between whitespace code units, empty ones included. *)
Fixpoint split_ws (s : jsstr) : list jsstr :=
  match s with
  | [] => [[]]
  | c :: r =>
      if is_ascii_whitespace c then [] :: split_ws r
      else match split_ws r with
           | [] => [[c]]
           | w :: ws => (c :: w) :: ws
           end
  end.

(** The class names a [className] string gives the element, in order. *)
Definition class_tokens (s : jsstr) : list jsstr :=
  filter (fun w : jsstr => w <> []) (split_ws s).

(** ** Objects and elements *)

Abbreviation obj := (list (jsstr * JsValue)).

(** [o.k] on an object. *)
Definition obj_get (k : jsstr) (o : obj) : JsValue := opt_get (JObj o) k.

Definition obj_has (k : jsstr) (o : obj) : bool := bool_decide (k ∈ o.*1).

(** [o.k = v]: an existing property keeps its place, a new one goes
    last. *)
Fixpoint obj_set (k : jsstr) (v : JsValue) (o : obj) : obj :=
  match o with
  | [] => [(k, v)]
  | (k', v') :: o' => if bool_decide (k = k') then (k, v) :: o' else (k', v') :: obj_set k v o'
  end.

(** [{...o1, ...o2}]: the properties of [o2] assigned over [o1] in
    order. *)
Definition obj_assign (o1 o2 : obj) : obj := fold_left (fun acc kv => obj_set kv.1 kv.2 acc) o2 o1.

(** [const { k1, k2, ..., ...rest } = o]: the rest object. *)
Definition obj_rest (ks : list jsstr) (o : obj) : obj := filter (fun kv => kv.1 ∉ ks) o.

(** What a component returns: a host element with its props and
    children, or text. *)
#[warning="-register-all"]
Inductive Node :=
| Elem (tag : jsstr) (props : obj) (children : list Node)
| TextNode (s : jsstr).

(** [React.isValidElement(children)]: the [children] prop is one element
    exactly when a single element was nested. *)
Definition single_element (children : list Node) : option (jsstr * obj * list Node) :=
  match children with
  | [Elem tag ps ch] => Some (tag, ps, ch)
  | _ => None
  end.

(** A destructured [className = ''] put in a template literal. *)
Definition class_param (props : obj) : jsstr :=
  match obj_get (js "className") props with
  | JUndefined => []
  | v => js_ToString v
  end.

(** [`${base} ${className}`.trim()]. *)
Definition template_class (base cls : jsstr) : jsstr := trim (base ++ js " " ++ cls).

(** The [className] prop of an element, as a string. *)
Definition element_class (props : obj) : jsstr := js_ToString (obj_get (js "className") props).

(** ** The components *)

(** [card.jsx]: a [div] whose class is [`${base} ${className}`.trim()]. *)
Definition card_component (base : jsstr) (props : obj) (children : list Node) : Node :=
  Elem (js "div") [(js "className", JStr (template_class base (class_param props)))] children.

Definition Card := card_component (js "bg-white/5 rounded-lg p-0").
Definition CardHeader := card_component (js "px-4 py-3 border-b").
Definition CardContent := card_component (js "p-4").
Definition CardTitle := card_component (js "text-lg font-semibold").

(** [badge.jsx]: [variant] is destructured and never read. *)
Definition Badge (props : obj) (children : list Node) : Node :=
  let base := js "inline-flex items-center rounded-full px-2 py-1 text-xs bg-white/5" in
  Elem (js "span") [(js "className", JStr (template_class base (class_param props)))] children.

(** [button.jsx]: with a truthy [asChild] and a single element child,
    [React.cloneElement(children, { className: ..., ...props })], which
    keeps the child's type, its children and the props the config does
    not set; otherwise a [button] with [className] and the rest props. *)
Definition Button (props : obj) (children : list Node) : Node :=
  let className := class_param props in
  let rest := obj_rest [js "asChild"; js "children"; js "className"] props in
  match (if truthy (obj_get (js "asChild") props) then single_element children else None) with
  | Some (tag, cprops, cch) =>
      let child_class := js_ToString (js_or (obj_get (js "className") cprops) (JStr [])) in
      Elem tag (obj_assign cprops
                  ((js "className", JStr (template_class className child_class)) :: rest)) cch
  | None => Elem (js "button") (obj_assign [(js "className", JStr className)] rest) children
  end.

(** [input.jsx] and [textarea.jsx]: [{...props}] then
    [className={(props.className||'') + ' rounded-md ...'}]. *)
Definition field_component (tag : jsstr) (props : obj) : Node :=
  Elem tag (obj_set (js "className")
              (JStr (js_ToString (js_or (obj_get (js "className") props) (JStr [])) ++
                     js " rounded-md border px-3 py-2 bg-transparent")) props) [].

Definition Input := field_component (js "input").
Definition Textarea := field_component (js "textarea").

(** [tooltip.jsx]: plain wrappers. *)
Definition TooltipProvider (children : list Node) : Node := Elem (js "div") [] children.
Definition Tooltip (children : list Node) : Node := Elem (js "div") [] children.
Definition TooltipTrigger (children : list Node) : Node := Elem (js "span") [] children.
Definition TooltipContent (children : list Node) : Node :=
  Elem (js "div") [(js "className", JStr (js "bg-black text-white p-2 rounded"))] children.

(** The class string an element carries. *)
Definition node_class (n : Node) : jsstr :=
  match n with
  | Elem _ ps _ => element_class ps
  | TextNode _ => []
  end.

Definition node_children (n : Node) : list Node :=
  match n with
  | Elem _ _ ch => ch
  | TextNode _ => []
  end.

(** The primitives that compose a base class list with the caller's,
    each with its base. *)
Definition class_primitives : list ((obj -> list Node -> Node) * jsstr) := [
  (Card, js "bg-white/5 rounded-lg p-0");
  (CardHeader, js "px-4 py-3 border-b");
  (CardContent, js "p-4");
  (CardTitle, js "text-lg font-semibold");
  (Badge, js "inline-flex items-center rounded-full px-2 py-1 text-xs bg-white/5")
].

(** Code units that [trim] and the DOM agree on: a code unit [trim]
    removes is one the class attribute treats as a separator. *)
Definition ws_safe (s : jsstr) : Prop :=
  Forall (fun u => is_js_whitespace u = true -> is_ascii_whitespace u = true) s.

#[export] Instance ws_safe_dec (s : jsstr) : Decision (ws_safe s).
Proof. unfold ws_safe. apply _. Defined.

(** ** Lemmas: class tokens *)

Lemma split_ws_app_ws (a b : jsstr) (c : Z) :
  is_ascii_whitespace c = true -> split_ws (a ++ c :: b) = split_ws a ++ split_ws b.
Proof.
  intros Hc. induction a as [|d a IH]; simpl; [by rewrite Hc|].
  rewrite IH. destruct (is_ascii_whitespace d); [done|].
  destruct (split_ws a) as [|w ws] eqn:Ha; [|done].
  destruct a; simpl in Ha; [discriminate|]. by case_match; [|case_match].
Qed.

Lemma class_tokens_app_ws (a b : jsstr) (c : Z) :
  is_ascii_whitespace c = true -> class_tokens (a ++ c :: b) = class_tokens a ++ class_tokens b.
Proof. intros Hc. unfold class_tokens. by rewrite split_ws_app_ws, filter_app. Qed.

Lemma class_tokens_ws_prefix (p s : jsstr) :
  Forall (fun u => is_ascii_whitespace u = true) p -> class_tokens (p ++ s) = class_tokens s.
Proof.
  induction 1 as [|c p Hc _ IH]; [done|].
  by rewrite <-app_comm_cons, <-(app_nil_l (c :: _)), class_tokens_app_ws, IH.
Qed.

Lemma class_tokens_ws_suffix (s p : jsstr) :
  Forall (fun u => is_ascii_whitespace u = true) p -> class_tokens (s ++ p) = class_tokens s.
Proof.
  intros Hp. destruct Hp as [|c p Hc Hp]; [by rewrite app_nil_r|].
  rewrite class_tokens_app_ws by done.
  rewrite <-(app_nil_r p), class_tokens_ws_prefix by done. by rewrite app_nil_r.
Qed.

(** [drop_ws] removes a prefix of whitespace. *)
Lemma drop_ws_prefix (s : jsstr) :
  exists p, s = p ++ drop_ws s /\ Forall (fun u => is_js_whitespace u = true) p.
Proof.
  induction s as [|c s (p & Hp & Hw)]; [by exists []|]. simpl.
  destruct (is_js_whitespace c) eqn:Hc; [|by exists []].
  exists (c :: p). split; [simpl; by rewrite <-Hp|by constructor].
Qed.

Lemma ws_safe_ascii (p : jsstr) :
  ws_safe p -> Forall (fun u => is_js_whitespace u = true) p ->
  Forall (fun u => is_ascii_whitespace u = true) p.
Proof.
  intros Hs Hw. apply Forall_forall. intros u Hu.
  by apply (proj1 (Forall_forall _ _) Hs u Hu), (proj1 (Forall_forall _ _) Hw u Hu).
Qed.

(** [trim] keeps the class tokens of a string whose whitespace is ASCII
    whitespace. *)
Lemma class_tokens_trim (s : jsstr) : ws_safe s -> class_tokens (trim s) = class_tokens s.
Proof.
  intros Hs. unfold trim.
  destruct (drop_ws_prefix s) as (p & Hp & Hpw).
  set (d := drop_ws s) in *.
  assert (Hd : ws_safe d) by (unfold ws_safe in *; rewrite Hp, Forall_app in Hs; tauto).
  assert (Hps : ws_safe p) by (unfold ws_safe in *; rewrite Hp, Forall_app in Hs; tauto).
  destruct (drop_ws_prefix (rev d)) as (q & Hq & Hqw).
  assert (Hqs : ws_safe q).
  { unfold ws_safe in *. apply Forall_rev in Hd. rewrite Hq, Forall_app in Hd. tauto. }
  rewrite Hp, class_tokens_ws_prefix by (by apply ws_safe_ascii).
  assert (Hd' : d = rev (drop_ws (rev d)) ++ rev q).
  { by rewrite <-rev_app_distr, <-Hq, rev_involutive. }
  rewrite Hd' at 2. rewrite class_tokens_ws_suffix; [done|].
  apply Forall_rev, ws_safe_ascii; done.
Qed.

Lemma ws_safe_app (a b : jsstr) : ws_safe a -> ws_safe b -> ws_safe (a ++ b).
Proof. unfold ws_safe. intros. by apply Forall_app. Qed.

Lemma ws_safe_space : ws_safe (js " ").
Proof. decide_closed. Qed.

#[local] Hint Resolve ws_safe_app ws_safe_space : js.

(** The template of the primitives: the base's tokens, then the
    caller's. *)
Lemma template_class_tokens (base cls : jsstr) :
  ws_safe base -> ws_safe cls ->
  class_tokens (template_class base cls) = class_tokens base ++ class_tokens cls.
Proof.
  intros Hb Hc. unfold template_class.
  rewrite class_tokens_trim by auto with js.
  by apply class_tokens_app_ws.
Qed.

(** ** Lemmas: objects *)

Lemma obj_get_nil (k : jsstr) : obj_get k [] = JUndefined.
Proof. done. Qed.

Lemma obj_get_cons (k k' : jsstr) (v : JsValue) (o : obj) :
  obj_get k ((k', v) :: o) = if bool_decide (k' = k) then v else obj_get k o.
Proof.
  unfold obj_get, opt_get. simpl. case_decide; rewrite ?bool_decide_true, ?bool_decide_false by done;
    [done|]. by destruct (list_find _ o) as [[? []]|].
Qed.

Lemma obj_get_set_same (k : jsstr) (v : JsValue) (o : obj) : obj_get k (obj_set k v o) = v.
Proof.
  induction o as [|[k' v'] o IH]; simpl; [by rewrite obj_get_cons, bool_decide_true|].
  case_bool_decide; rewrite obj_get_cons; [by rewrite bool_decide_true|].
  by rewrite bool_decide_false by congruence.
Qed.

Lemma obj_get_set_other (k k' : jsstr) (v : JsValue) (o : obj) :
  k <> k' -> obj_get k' (obj_set k v o) = obj_get k' o.
Proof.
  intros Hk. induction o as [|[k'' v'] o IH]; simpl.
  - by rewrite obj_get_cons, bool_decide_false.
  - case_bool_decide as Hkk; subst; rewrite !obj_get_cons.
    + by rewrite !bool_decide_false by congruence.
    + by rewrite IH.
Qed.

Lemma obj_has_cons (k k' : jsstr) (v : JsValue) (o : obj) :
  obj_has k ((k', v) :: o) = bool_decide (k' = k) || obj_has k o.
Proof.
  unfold obj_has. simpl. apply eq_bool_prop_intro. rewrite orb_True, !bool_decide_spec.
  rewrite elem_of_cons. naive_solver.
Qed.

(** Assigning an object with distinct keys: a key it has takes its
    value, any other keeps the old one. *)
Lemma obj_get_assign (k : jsstr) (o1 o2 : obj) :
  NoDup o2.*1 ->
  obj_get k (obj_assign o1 o2) = if obj_has k o2 then obj_get k o2 else obj_get k o1.
Proof.
  unfold obj_assign. revert o1. induction o2 as [|[k' v] o2 IH]; intros o1 Hnd; [done|].
  simpl in Hnd |- *. apply NoDup_cons in Hnd as [Hk' Hnd].
  rewrite IH by done. rewrite obj_has_cons, obj_get_cons.
  destruct (decide (k' = k)) as [->|Hne].
  - rewrite bool_decide_true by done. simpl.
    assert (obj_has k o2 = false) as -> by (unfold obj_has; by apply bool_decide_false).
    by rewrite obj_get_set_same.
  - rewrite bool_decide_false by done. simpl.
    destruct (obj_has k o2); [done|]. by apply obj_get_set_other.
Qed.

Lemma obj_rest_get (ks : list jsstr) (k : jsstr) (o : obj) :
  k ∉ ks -> obj_get k (obj_rest ks o) = obj_get k o /\ obj_has k (obj_rest ks o) = obj_has k o.
Proof.
  intros Hk. unfold obj_rest. induction o as [|[k' v] o IH]; [done|].
  rewrite filter_cons. simpl. case_decide as Hin.
  - by rewrite !obj_get_cons, !obj_has_cons, (proj1 IH), (proj2 IH).
  - rewrite obj_get_cons, obj_has_cons, bool_decide_false by (intros ->; done).
    exact IH.
Qed.

Lemma obj_rest_NoDup (ks : list jsstr) (o : obj) : NoDup o.*1 -> NoDup (obj_rest ks o).*1.
Proof. apply NoDup_fmap_filter. Qed.

Lemma obj_rest_keys (ks : list jsstr) (o : obj) (k : jsstr) :
  k ∈ (obj_rest ks o).*1 -> k ∉ ks.
Proof.
  unfold obj_rest. intros ([k' v] & -> & Hin)%list_elem_of_fmap.
  by apply list_elem_of_filter in Hin as [? _].
Qed.

(** The [className] of an element built with a single [className]
    prop. *)
Lemma element_class_single (c : jsstr) : element_class [(js "className", JStr c)] = c.
Proof. unfold element_class. by rewrite obj_get_cons, bool_decide_true. Qed.

Lemma class_param_set_other (k : jsstr) (v : JsValue) (props : obj) :
  k <> js "className" -> class_param (obj_set k v props) = class_param props.
Proof. intros Hk. unfold class_param. by rewrite obj_get_set_other. Qed.

(** ** Theorems *)

(** C25: every class-composing primitive ([Card], [CardHeader],
    [CardContent], [CardTitle], [Badge]) renders the class tokens of its
    base list followed by the caller's [className] tokens, none lost or
    reordered by the template and [trim], and renders its children
    unchanged; [Badge] renders the same element whatever its [variant]
    ("secondary" and "outline" badges look alike). *)
Theorem primitives_compose_classes (props : obj) (children : list Node) :
  ws_safe (class_param props) ->
  Forall (fun cb => class_tokens (node_class (cb.1 props children)) =
                      class_tokens cb.2 ++ class_tokens (class_param props) /\
                    node_children (cb.1 props children) = children) class_primitives /\
  (forall v, Badge (obj_set (js "variant") v props) children = Badge props children).
Proof.
  intros Hc. split.
  - unfold class_primitives. repeat apply Forall_cons_2; try apply Forall_nil_2;
      (split; [|done]); cbn [fst snd];
      unfold Badge, Card, CardHeader, CardContent, CardTitle, card_component;
      cbn [node_class]; rewrite element_class_single; apply template_class_tokens; done || decide_closed.
  - intros v. unfold Badge. by rewrite class_param_set_other.
Qed.

(** C24: [Button] with a truthy [asChild] and one element child renders
    that child (same tag, same children) with the button's class tokens
    followed by the child's, and every other prop taken from the
    button's props when they have it ([variant], [size] included, which
    reach the DOM as attributes) and from the child's otherwise ([href]
    is kept). *)
Theorem button_as_child (props cprops : obj) (tag : jsstr) (cch : list Node) :
  NoDup props.*1 -> truthy (obj_get (js "asChild") props) = true ->
  ws_safe (class_param props) ->
  ws_safe (js_ToString (js_or (obj_get (js "className") cprops) (JStr []))) ->
  exists P, Button props [Elem tag cprops cch] = Elem tag P cch /\
    class_tokens (element_class P) =
      class_tokens (class_param props) ++
      class_tokens (js_ToString (js_or (obj_get (js "className") cprops) (JStr []))) /\
    (forall k, k ∉ [js "asChild"; js "children"; js "className"] ->
       obj_get k P = if obj_has k props then obj_get k props else obj_get k cprops).
Proof.
  intros Hnd Ha Hc Hcc. unfold Button. rewrite Ha. cbn [single_element].
  set (rest := obj_rest _ props).
  assert (HL : NoDup ((js "className", JStr (template_class (class_param props)
             (js_ToString (js_or (obj_get (js "className") cprops) (JStr []))))) :: rest).*1).
  { simpl. constructor; [|by apply obj_rest_NoDup].
    intros Hin%obj_rest_keys. apply Hin. set_solver. }
  eexists. split_and!; [done| |].
  - unfold element_class. rewrite obj_get_assign by done.
    rewrite obj_has_cons, obj_get_cons, bool_decide_true by done. simpl.
    by apply template_class_tokens.
  - intros k Hk. rewrite obj_get_assign by done.
    rewrite obj_has_cons, obj_get_cons, bool_decide_false by set_solver. simpl.
    unfold rest. by destruct (obj_rest_get [js "asChild"; js "children"; js "className"] k props Hk)
      as [-> ->].
Qed.

(** C26: [Input] and [Textarea] keep every prop but [className] (so the
    contact form's fields keep the [name] its [FormData] reads), and
    their class tokens are the caller's followed by
    [rounded-md border px-3 py-2 bg-transparent]. *)
Theorem fields_keep_props (props : obj) :
  Forall (fun C : obj -> Node =>
            exists tag P, C props = Elem tag P [] /\
              (forall k, k <> js "className" -> obj_get k P = obj_get k props) /\
              class_tokens (element_class P) =
                class_tokens (js_ToString (js_or (obj_get (js "className") props) (JStr []))) ++
                [js "rounded-md"; js "border"; js "px-3"; js "py-2"; js "bg-transparent"])
    [Input; Textarea].
Proof.
  repeat constructor; unfold Input, Textarea, field_component; do 2 eexists;
    (split_and!; [done|intros k Hk; by apply obj_get_set_other, not_eq_sym|]);
    unfold element_class; rewrite obj_get_set_same; cbn [js_ToString];
    change (js " rounded-md border px-3 py-2 bg-transparent")
      with (32 :: js "rounded-md border px-3 py-2 bg-transparent");
    rewrite class_tokens_app_ws by done; f_equal; vm_compute; reflexivity.
Qed.

(** ** Witnesses *)

(** The tag badges of a project card (line 527):
    [<Badge variant="outline" className="rounded-full">]. *)
Lemma primitives_compose_classes_witness :
  class_tokens (node_class
    (Badge [(js "variant", JStr (js "outline")); (js "className", JStr (js "rounded-full"))]
           [TextNode (js "SQL")])) =
  [js "inline-flex"; js "items-center"; js "rounded-full"; js "px-2"; js "py-1";
   js "text-xs"; js "bg-white/5"; js "rounded-full"].
Proof.
  destruct (primitives_compose_classes
              [(js "variant", JStr (js "outline")); (js "className", JStr (js "rounded-full"))]
              [TextNode (js "SQL")] ltac:(decide_closed)) as [HF _].
  pose proof (proj1 (Forall_lookup_1 _ _ 4 _ HF eq_refl)) as H4. cbn [fst snd] in H4.
  rewrite H4. vm_compute. reflexivity.
Defined.

(** A navigation link (line 262):
    [<Button asChild variant="ghost" className="px-3"><a href="#about">]
    renders [<a href="#about" class="px-3" variant="ghost">]. *)
Lemma button_as_child_witness :
  exists P,
    Button [(js "asChild", JBool true); (js "variant", JStr (js "ghost"));
            (js "className", JStr (js "px-3"))]
           [Elem (js "a") [(js "href", JStr (js "#about"))] [TextNode (js "About")]] =
      Elem (js "a") P [TextNode (js "About")] /\
    class_tokens (element_class P) = [js "px-3"] /\
    obj_get (js "href") P = JStr (js "#about") /\
    obj_get (js "variant") P = JStr (js "ghost").
Proof.
  destruct (button_as_child
              [(js "asChild", JBool true); (js "variant", JStr (js "ghost"));
               (js "className", JStr (js "px-3"))]
              [(js "href", JStr (js "#about"))] (js "a") [TextNode (js "About")]
              ltac:(decide_closed) eq_refl ltac:(decide_closed) ltac:(decide_closed))
    as (P & HB & Hcls & Hk).
  exists P. split_and!; [exact HB| |apply Hk; decide_closed..].
  rewrite Hcls. vm_compute. reflexivity.
Defined.
