(* ===== verification/PageEquiv.v ===== *)
(** * The page without its memo caches, and what the user can reach

    [Page] models [Portfolio] as React runs it, with the two [useMemo]
    caches in the state.  This file gives the reference the memoisation
    must not change: a page whose state is only the theme hook and the
    two search strings and whose view computes both filters afresh
    ([RefState], [ref_step], [ref_view]).  The memoised page simulates
    it step by step ([page_step_sim]), so every run of user events shows
    what the memo-free page shows.

    The second part is a liveness property in the style of the
    [eventually] combinator of small-step semantics: from any reachable
    state the user can, by events of the page, reach a state that shows
    every project and every certification in the theme of their
    choice. *)

From S2P Require Import Prelude JsString JsArray PortfolioData TextFilter Theme Page.

(** ** The memo-free reference *)

Section Reference.
Context `{CM : CaseMapping}.

Record RefState := mkRef { ref_dark : DarkMode; ref_query : jsstr; ref_certQuery : jsstr }.

(** The view with both filters computed on every render. *)
Definition ref_view (r : RefState) : View :=
  mkView
    (Array_map nav_sections nav_link)
    [enabled (ref_dark r); enabled (ref_dark r)]
    (Array_map skills skill_card)
    (ref_query r)
    (Array_map (filteredProjects (ref_query r)) project_card)
    (ref_certQuery r)
    (Array_map (filteredCerts (ref_certQuery r)) cert_card).

Definition ref_step (ev : UiEvent) (r : RefState) (b : Browser)
  : RefState * Browser * completion unit :=
  match ev with
  | ThemeSwitch _ =>
      let '(h, b', res) := setEnabled (negb (enabled (ref_dark r))) (ref_dark r) b in
      (mkRef h (ref_query r) (ref_certQuery r), b', res)
  | ProjectSearch v => (mkRef (ref_dark r) v (ref_certQuery r), b, Normal tt)
  | CertSearch v => (mkRef (ref_dark r) (ref_query r) v, b, Normal tt)
  end.

Fixpoint ref_run (evs : list UiEvent) (r : RefState) (b : Browser)
  : RefState * Browser * completion unit :=
  match evs with
  | [] => (r, b, Normal tt)
  | ev :: evs' =>
      match ref_step ev r b with
      | (r', b', Normal _) => ref_run evs' r' b'
      | (r', b', Throw e) => (r', b', Throw e)
      end
  end.

(** The reference state a page state stands for. *)
Definition abstract (st : PageState) : RefState := mkRef (dark st) (query st) (certQuery st).

End Reference.

(** ** Reaching a goal by user events *)

Section Eventually.
Context `{CM : CaseMapping}.

(** [eventually P st b]: some sequence of completed user events leads
    from [(st, b)] to a state satisfying [P]. *)
Inductive eventually (P : PageState -> Browser -> Prop) : PageState -> Browser -> Prop :=
| eventually_done st b : P st b -> eventually P st b
| eventually_step ev st b st' b' :
    page_step ev st b = (st', b', Normal tt) -> eventually P st' b' -> eventually P st b.

End Eventually.

(** ** Lemmas: simulation *)

Section Simulation.
Context `{CM : CaseMapping}.

(** In an invariant state the page shows what the reference shows. *)
Lemma view_abstract (st : PageState) (b : Browser) :
  page_inv st b -> view st = ref_view (abstract st).
Proof. intros (Hm1 & Hm2 & _). unfold view, ref_view. simpl. by rewrite Hm1, Hm2. Qed.

(** One step of the page is one step of the reference on the abstract
    state, and keeps the invariant. *)
Lemma page_step_sim (ev : UiEvent) (st st' : PageState) (b b' : Browser)
    (res : completion unit) :
  page_inv st b -> page_step ev st b = (st', b', res) ->
  res = Normal tt /\ ref_step ev (abstract st) b = (abstract st', b', Normal tt) /\
  page_inv st' b'.
Proof.
  intros Hi Hstep.
  destruct (page_step_total ev st b Hi) as (st1 & b1 & Hs1).
  rewrite Hs1 in Hstep. injection Hstep as <- <- <-.
  split_and!; [done| |by eapply page_step_inv].
  destruct ev as [d|v|v].
  - destruct (page_step_switch d st b Hi) as (h & b2 & Hset & Heq & _).
    rewrite Heq in Hs1. injection Hs1 as <- <-. simpl. by rewrite Hset.
  - simpl in Hs1 |- *. case_bool_decide; injection Hs1 as <- <-; [by subst|done].
  - simpl in Hs1 |- *. case_bool_decide; injection Hs1 as <- <-; [by subst|done].
Qed.

Lemma run_events_sim (evs : list UiEvent) (st st' : PageState) (b b' : Browser)
    (res : completion unit) :
  page_inv st b -> run_events evs st b = (st', b', res) ->
  res = Normal tt /\ ref_run evs (abstract st) b = (abstract st', b', Normal tt) /\
  page_inv st' b'.
Proof.
  revert st b. induction evs as [|ev evs IH]; intros st b Hi Hrun; simpl in Hrun |- *.
  - by injection Hrun as <- <- <-.
  - destruct (page_step ev st b) as [[st1 b1] r1] eqn:Hs.
    destruct (page_step_sim ev st st1 b b1 r1 Hi Hs) as (-> & -> & Hi1).
    by apply IH.
Qed.

End Simulation.

(** ** Lemmas: reaching a goal *)

Section Reach.
Context `{CM : CaseMapping}.

Lemma eventually_reachable_step (P : PageState -> Browser -> Prop) ev st b :
  page_reachable st b ->
  (forall st' b', page_step ev st b = (st', b', Normal tt) -> page_reachable st' b' ->
     eventually P st' b') ->
  eventually P st b.
Proof.
  intros Hr HP. destruct (page_step_total ev st b (page_reachable_inv st b Hr)) as (st' & b' & Hs).
  eapply eventually_step; [exact Hs|]. apply HP; [done|]. by eapply page_stepped.
Qed.

Lemma eventually_trans (P Q : PageState -> Browser -> Prop) st b :
  eventually P st b -> (forall st' b', P st' b' -> eventually Q st' b') -> eventually Q st b.
Proof. induction 1; eauto using eventually_step. Qed.

(** Clearing a search box that is not empty renders the page with an
    empty query. *)
Lemma clear_project_search (st : PageState) (b : Browser) (st' : PageState) (b' : Browser) :
  page_step (ProjectSearch []) st b = (st', b', Normal tt) ->
  query st' = [] /\ certQuery st' = certQuery st /\ dark st' = dark st /\ b' = b.
Proof.
  simpl. case_bool_decide as Hq; intros [= <- <-]; [by rewrite Hq|done].
Qed.

Lemma clear_cert_search (st : PageState) (b : Browser) (st' : PageState) (b' : Browser) :
  page_step (CertSearch []) st b = (st', b', Normal tt) ->
  certQuery st' = [] /\ query st' = query st /\ dark st' = dark st /\ b' = b.
Proof.
  simpl. case_bool_decide as Hq; intros [= <- <-]; [by rewrite Hq|done].
Qed.


(** From a reachable state both search boxes can be cleared, the theme
    left as it is. *)
Lemma reach_cleared (st : PageState) (b : Browser) :
  page_reachable st b ->
  eventually (fun st' b' => page_reachable st' b' /\ dark st' = dark st /\
                            query st' = [] /\ certQuery st' = []) st b.
Proof.
  intros Hr. apply (eventually_reachable_step _ (ProjectSearch [])); [done|].
  intros st1 b1 Hs1 Hr1. destruct (clear_project_search st b st1 b1 Hs1) as (Hq1 & _ & Hd1 & _).
  apply (eventually_reachable_step _ (CertSearch [])); [done|].
  intros st2 b2 Hs2 Hr2. destruct (clear_cert_search st1 b1 st2 b2 Hs2) as (Hc2 & Hq2 & Hd2 & _).
  apply eventually_done. split_and!; congruence.
Qed.

(** From a reachable state the theme can be set to either value. *)
Lemma reach_theme (target : bool) (st : PageState) (b : Browser) :
  page_reachable st b ->
  eventually (fun st' b' => page_reachable st' b' /\ enabled (dark st') = target) st b.
Proof.
  intros Hr. destruct (decide (enabled (dark st) = target)) as [He|He].
  { by apply eventually_done. }
  apply (eventually_reachable_step _ (ThemeSwitch true)); [done|].
  intros st1 b1 Hs1 Hr1. apply eventually_done. split; [done|].
  destruct (page_step_switch true st b (page_reachable_inv st b Hr)) as (h & b' & _ & Heq & _ & Hh).
  rewrite Heq in Hs1. injection Hs1 as <- <-. simpl. rewrite Hh.
  by destruct (enabled (dark st)), target.
Qed.

End Reach.

(** ** Theorems *)

Section Theorems.
Context `{CM : CaseMapping}.

(** C7: the memo caches are transparent: from a reachable state, every
    sequence of user events runs on the memoised page exactly as on the
    page that recomputes both filters on every render (same browser,
    same completion, same abstract state), and the memoised page shows
    what the memo-free page shows. *)
Theorem memo_transparent (evs : list UiEvent) (st st' : PageState) (b b' : Browser)
    (res : completion unit) :
  page_reachable st b -> run_events evs st b = (st', b', res) ->
  res = Normal tt /\ ref_run evs (abstract st) b = (abstract st', b', Normal tt) /\
  view st' = ref_view (abstract st').
Proof.
  intros Hr Hrun.
  destruct (run_events_sim evs st st' b b' res (page_reachable_inv st b Hr) Hrun)
    as (-> & Href & Hi').
  split_and!; [done|done|by eapply view_abstract].
Qed.

(** C14: whatever the user did before, they can always get back to the
    whole portfolio: from every reachable state some sequence of user
    events (clearing both search boxes, clicking a switch if needed)
    leads to a reachable state that shows every project and every
    certification, in the theme of their choice. *)
Theorem page_can_show_everything `{!CaseMappingLaws} (target : bool) (st : PageState)
    (b : Browser) :
  page_reachable st b ->
  eventually (fun st' b' => page_reachable st' b' /\ enabled (dark st') = target /\
                project_cards (view st') = Array_map projects project_card /\
                cert_cards (view st') = Array_map certifications cert_card) st b.
Proof.
  intros Hr. apply (eventually_trans _ _ _ _ (reach_theme target st b Hr)).
  intros st1 b1 [Hr1 Ht1]. apply (eventually_trans _ _ _ _ (reach_cleared st1 b1 Hr1)).
  intros st2 b2 (Hr2 & Hd2 & Hq2 & Hc2). apply eventually_done.
  rewrite (view_abstract st2 b2 (page_reachable_inv st2 b2 Hr2)). simpl.
  rewrite Hq2, Hc2. unfold filteredProjects, filteredCerts.
  by rewrite filter_projects_nil, filter_certs_nil, Hd2.
Qed.

End Theorems.

(** ** Witnesses *)

Lemma memo_transparent_witness :
  exists st b st' b', page_reachable st b /\
    run_events [CertSearch (js "2022"); ProjectSearch (js "sql"); ThemeSwitch false] st b
      = (st', b', Normal tt) /\
    view st' = ref_view (abstract st').
Proof.
  destruct page_first_visit_reachable as (st & b & Hr & _).
  destruct (run_events [CertSearch (js "2022"); ProjectSearch (js "sql"); ThemeSwitch false]
              st b) as [[st' b'] res] eqn:Hrun.
  destruct (memo_transparent _ st st' b b' res Hr Hrun) as (-> & _ & Hv).
  by exists st, b, st', b'.
Defined.

Lemma page_can_show_everything_witness :
  exists st b, page_reachable st b /\ query st = js "py" /\
    eventually (fun st' b' => page_reachable st' b' /\ enabled (dark st') = false /\
                  project_cards (view st') = Array_map projects project_card /\
                  cert_cards (view st') = Array_map certifications cert_card) st b.
Proof.
  destruct page_first_visit_reachable as (st & b & Hr & Hq).
  exists st, b. split_and!; [done|done|]. by apply page_can_show_everything.
Defined.
