(* ===== verification/Modules.v ===== *)
(** * The page's imports and the modules of the repository

    Lines 1-48 of the page import React's hooks, framer-motion, the
    design-system primitives under [@/components/ui/], lucide-react's
    icons and recharts.  This file writes those import declarations down
    as data, with the export table of each primitive file of
    [src/src/components/ui/], and links them the way an ES module graph
    is linked: a specifier under [@/components/ui/] must name one of the
    repository's primitive files, and each imported name must be one of
    its exports ([import X from] needs a default export).  The packages
    ([react], [framer-motion], [lucide-react], [recharts]) are not part
    of the repository; they are taken as installed and their exports are
    not checked.

    The lemmas relate the linker to [resolves]; evaluated on the page's
    imports, it reports one error, the module [@/components/ui/tabs],
    which the repository does not contain. *)

From S2P Require Import Prelude.

(** ** Import declarations *)

(** [import Default, { imported as local, ... } from "specifier"]. *)
Record ImportDecl := mkImport {
  import_default : option jsstr;
  import_named : list jsstr;
  import_from : jsstr
}.

Definition named (names : list string) (from : string) : ImportDecl :=
  mkImport None (map js names) (js from).

(** Lines 1-48 of the page, in order.  [Tooltip as RechartsTooltip]
    imports recharts' [Tooltip]. *)
Definition page_imports : list ImportDecl := [
  mkImport (Some (js "React")) (map js ["useEffect"; "useMemo"; "useRef"; "useState"]%string)
    (js "react");
  named ["motion"; "AnimatePresence"] "framer-motion";
  named ["Button"] "@/components/ui/button";
  named ["Card"; "CardContent"; "CardHeader"; "CardTitle"] "@/components/ui/card";
  named ["Badge"] "@/components/ui/badge";
  named ["Input"] "@/components/ui/input";
  named ["Textarea"] "@/components/ui/textarea";
  named ["Tooltip"; "TooltipContent"; "TooltipProvider"; "TooltipTrigger"] "@/components/ui/tooltip";
  named ["Switch"] "@/components/ui/switch";
  named ["Tabs"; "TabsContent"; "TabsList"; "TabsTrigger"] "@/components/ui/tabs";
  named ["Download"; "Github"; "Linkedin"; "Mail"; "ExternalLink"; "Search"; "Sun"; "Moon";
         "Database"; "Brain"; "LineChart"; "Bot"; "ChevronRight"; "Award"; "Phone"; "Send";
         "School"; "Briefcase"; "Building2"] "lucide-react";
  named ["Area"; "AreaChart"; "CartesianGrid"; "ResponsiveContainer"; "Tooltip"; "XAxis";
         "YAxis"] "recharts"
]%string.

(** ** The repository's modules *)

(** What a module file exports: its named exports and whether it has
    [export default]. *)
Record ModuleExports := mkExports { exports_named : list jsstr; exports_default : bool }.

Definition exports (names : list string) : ModuleExports := mkExports (map js names) true.

Definition badge_exports := exports ["Badge"]%string.
Definition button_exports := exports ["Button"]%string.
Definition card_exports := exports ["Card"; "CardHeader"; "CardContent"; "CardTitle"]%string.
Definition input_exports := exports ["Input"]%string.
Definition switch_exports := exports ["Switch"]%string.
Definition textarea_exports := exports ["Textarea"]%string.
Definition tooltip_exports :=
  exports ["TooltipProvider"; "Tooltip"; "TooltipTrigger"; "TooltipContent"]%string.

(** The files of [src/src/components/ui/], by the specifier that names
    them. *)
Definition ui_modules : list (jsstr * ModuleExports) := [
  (js "@/components/ui/badge", badge_exports);
  (js "@/components/ui/button", button_exports);
  (js "@/components/ui/card", card_exports);
  (js "@/components/ui/input", input_exports);
  (js "@/components/ui/switch", switch_exports);
  (js "@/components/ui/textarea", textarea_exports);
  (js "@/components/ui/tooltip", tooltip_exports)
].

Definition packages : list jsstr :=
  map js ["react"; "framer-motion"; "lucide-react"; "recharts"]%string.

(** ** Linking *)

Inductive LinkError :=
| ModuleNotFound (specifier : jsstr)
| MissingExport (specifier : jsstr) (name : jsstr)
| MissingDefault (specifier : jsstr).

Definition lookup_module (spec : jsstr) (table : list (jsstr * ModuleExports))
  : option ModuleExports :=
  match list_find (fun e => e.1 = spec) table with
  | Some (_, (_, m)) => Some m
  | None => None
  end.

(** The errors of one declaration: an unknown module, or each imported
    name the module does not export. *)
Definition import_errors (table : list (jsstr * ModuleExports)) (d : ImportDecl)
  : list LinkError :=
  if bool_decide (import_from d ∈ packages) then []
  else
    match lookup_module (import_from d) table with
    | None => [ModuleNotFound (import_from d)]
    | Some m =>
        (if import_default d is Some _ then
           if exports_default m then [] else [MissingDefault (import_from d)]
         else []) ++
        map (MissingExport (import_from d))
          (filter (fun n => n ∉ exports_named m) (import_named d))
    end.

(** Every error of the module graph of the page. *)
Definition link_errors (table : list (jsstr * ModuleExports)) (ds : list ImportDecl)
  : list LinkError :=
  concat (map (import_errors table) ds).

(** What it means for a declaration to resolve. *)
Definition resolves (table : list (jsstr * ModuleExports)) (d : ImportDecl) : Prop :=
  import_from d ∈ packages \/
  exists m, lookup_module (import_from d) table = Some m /\
    (import_default d <> None -> exports_default m = true) /\
    Forall (fun n => n ∈ exports_named m) (import_named d).

(** ** Lemmas *)

(** The checker reports no error exactly for a declaration that
    resolves. *)
Lemma import_errors_nil (table : list (jsstr * ModuleExports)) (d : ImportDecl) :
  import_errors table d = [] <-> resolves table d.
Proof.
  unfold import_errors, resolves. case_bool_decide as Hp; [split; [by left|done]|].
  destruct (lookup_module (import_from d) table) as [m|] eqn:Hl.
  - rewrite app_nil. split.
    + intros [Hd Hn]. right. exists m. split_and!; [done| |].
      * destruct (import_default d); [|done]. by destruct (exports_default m).
      * apply map_eq_nil in Hn. apply Forall_forall. intros n Hin.
        destruct (decide (n ∈ exports_named m)) as [|Hni]; [done|].
        assert (n ∈ filter (fun n => n ∉ exports_named m) (import_named d)) as Hf
          by (by apply list_elem_of_filter).
        rewrite Hn in Hf. by apply not_elem_of_nil in Hf.
    + intros [|(m' & Hm' & Hd & Hn)]; [done|]. simplify_eq. split.
      * destruct (import_default d); [by rewrite Hd|done].
      * induction Hn as [|n ns Hn _ IH]; [done|].
        rewrite filter_cons. by rewrite decide_False by naive_solver.
  - split; [done|]. by intros [|(m & ? & _)].
Qed.

Lemma link_errors_nil (table : list (jsstr * ModuleExports)) (ds : list ImportDecl) :
  link_errors table ds = [] <-> Forall (resolves table) ds.
Proof.
  unfold link_errors. induction ds as [|d ds IH]; simpl; [split; by constructor|].
  rewrite app_nil, Forall_cons, IH, import_errors_nil. done.
Qed.

(** ** Theorem *)

