(* ===== verification/Decorations.v ===== *)
(** * The decorations: [AnimatedGradient] and [Particles]

    Lines 166-199 of the page.  [AnimatedGradient] is a fixed pair of
    [div]s.  [Particles] renders forty [span]s whose inline style is
    drawn from [Math.random]: for the [i]-th span, in the order the
    object literal evaluates its properties, [top] and [left] are
    [Math.random() * 100] percent, [animationDelay] is
    [Math.random() * 5] seconds and the scale of [transform] is
    [0.7 + Math.random() * 1.2]; then a [<style>] element defines the
    [float] keyframes.

    [Math.random] is a source of numbers in [0, 1): the file takes it as
    a function from the index of a draw to its value and threads the
    index of the next draw through the render, so the order of the draws
    is explicit.  Numbers are rationals and the arithmetic is exact; the
    rounding of the doubles is not modelled (it cannot leave the
    intervals below: [x * 100] rounds to at most the double below 100
    when [x < 1]).  The style strings are the numbers followed by their
    unit ([%], [s], [scale(...)]); the file keeps the numbers. *)

From S2P Require Import Prelude JsString Chart UiPrimitives.
From Stdlib Require Import QArith Lqa.

(** ** [AnimatedGradient] *)

Definition AnimatedGradient : Node :=
  Elem (js "div")
    [(js "aria-hidden", JBool true);
     (js "className", JStr (js "pointer-events-none absolute inset-0 -z-10 [mask-image:radial-gradient(ellipse_at_center,white,transparent_70%)]"))]
    [Elem (js "div")
       [(js "className", JStr (js "absolute -top-16 left-1/2 h-[60rem] w-[60rem] -translate-x-1/2 rounded-full bg-gradient-to-tr from-violet-500/40 via-fuchsia-500/30 to-cyan-500/40 blur-3xl animate-pulse"))]
       []].

(** ** [Math.random] *)

(** A run's draws: the value of the [n]-th call. *)
Definition RandomSource := nat -> Q.

Definition random_ok (src : RandomSource) : Prop := forall n, (0 <= src n < 1)%Q.

(** [Math.random()]: the next draw, and the index after it. *)
Definition Math_random (src : RandomSource) (next : nat) : Q * nat := (src next, S next).

(** ** [Particles] *)

Record ParticleStyle := mkStyle {
  style_top : Q;    (** percent *)
  style_left : Q;   (** percent *)
  style_delay : Q;  (** seconds *)
  style_scale : Q   (** the factor of [scale(...)] *)
}.

Record Particle := mkParticle { particle_key : nat; particle_class : jsstr; particle_style : ParticleStyle }.

Definition particle_class_name : jsstr :=
  js "absolute h-1 w-1 rounded-full bg-foreground/20 animate-[float_12s_ease-in-out_infinite]".

(** The callback [(_, i) => <span key={i} ... style={{...}} />]: four
    draws, in the order of the properties. *)
Definition particle (src : RandomSource) (i : nat) (next : nat) : Particle * nat :=
  let '(r_top, n1) := Math_random src next in
  let '(r_left, n2) := Math_random src n1 in
  let '(r_delay, n3) := Math_random src n2 in
  let '(r_scale, n4) := Math_random src n3 in
  (mkParticle i particle_class_name
     (mkStyle (r_top * 100)%Q (r_left * 100)%Q (r_delay * 5)%Q ((7 # 10) + r_scale * (6 # 5))%Q), n4).

(** [[...Array(40)].map(callback)]: the indices [k] to [len - 1] in
    order, the draws threaded from one call to the next. *)
Fixpoint particles_loop (src : RandomSource) (k fuel : nat) (next : nat) : list Particle * nat :=
  match fuel with
  | O => ([], next)
  | S fuel' =>
      let '(p, n1) := particle src k next in
      let '(ps, n2) := particles_loop src (S k) fuel' n1 in
      (p :: ps, n2)
  end.

Definition particle_count : nat := 40.

Definition Particles (src : RandomSource) (next : nat) : list Particle * nat :=
  particles_loop src 0 particle_count next.

(** The [float] keyframes of the [<style>] element: offset in percent,
    [translateY] in pixels, [scale], [opacity]. *)
Record Keyframe := mkKeyframe { kf_offset : Z; kf_translateY : Z; kf_scale : Q; kf_opacity : Q }.

Definition float_keyframes : list Keyframe := [
  mkKeyframe 0 0 1%Q (1 # 2);
  mkKeyframe 50 (-20) (105 # 100) (9 # 10);
  mkKeyframe 100 0 1%Q (1 # 2)
].

(** The style of a particle is within the bounds of its formulas. *)
Definition style_in_bounds (st : ParticleStyle) : Prop :=
  (0 <= style_top st < 100)%Q /\ (0 <= style_left st < 100)%Q /\
  (0 <= style_delay st < 5)%Q /\ (7 # 10 <= style_scale st < 19 # 10)%Q.

(** ** Lemmas *)

Section Draws.
Variable src : RandomSource.

Lemma particle_eq (i next : nat) :
  particle src i next =
    (mkParticle i particle_class_name
       (mkStyle (src next * 100)%Q (src (next + 1)%nat * 100)%Q (src (next + 2)%nat * 5)%Q
                ((7 # 10) + src (next + 3)%nat * (6 # 5))%Q), (next + 4)%nat).
Proof. unfold particle, Math_random. repeat f_equal; lia. Qed.

(** A particle is keyed by its index and makes four calls. *)
Lemma particle_next (i next : nat) :
  particle_key (particle src i next).1 = i /\ (particle src i next).2 = (next + 4)%nat.
Proof. unfold particle, Math_random. simpl. split; [done|lia]. Qed.

Lemma particles_loop_shape (k fuel next : nat) :
  length (particles_loop src k fuel next).1 = fuel /\
  (particles_loop src k fuel next).2 = (next + 4 * fuel)%nat.
Proof.
  revert k next. induction fuel as [|fuel IH]; intros k next; cbn [particles_loop];
    [cbn; split; [done|lia]|].
  destruct (particle src k next) as [p n1] eqn:Hp.
  destruct (particle_next k next) as [_ Hn1]. rewrite Hp in Hn1. cbn [snd] in Hn1. subst n1.
  destruct (particles_loop src (S k) fuel (next + 4)) as [ps n2] eqn:Hl.
  destruct (IH (S k) (next + 4)%nat) as [Hlen Hn]. rewrite Hl in Hlen, Hn. cbn in *. lia.
Qed.

(** The [j]-th particle is drawn by the [j]-th call, from the draws
    [next + 4 j] to [next + 4 j + 3]. *)
Lemma particles_loop_lookup (k fuel next j : nat) :
  (j < fuel)%nat ->
  (particles_loop src k fuel next).1 !! j = Some (particle src (k + j) (next + 4 * j)).1.
Proof.
  revert k next j. induction fuel as [|fuel IH]; intros k next j Hj; [lia|]. cbn [particles_loop].
  destruct (particle src k next) as [p n1] eqn:Hp.
  destruct (particles_loop src (S k) fuel n1) as [ps n2] eqn:Hl. cbn [fst].
  destruct j as [|j].
  - by rewrite Nat.add_0_r, Nat.mul_0_r, Nat.add_0_r, Hp.
  - change ((p :: ps) !! S j) with (ps !! j).
    destruct (particle_next k next) as [_ Hn1]. rewrite Hp in Hn1. cbn [snd] in Hn1. subst n1.
    pose proof (IH (S k) (next + 4)%nat j ltac:(lia)) as H. rewrite Hl in H. cbn [fst] in H.
    rewrite H. do 3 f_equal; lia.
Qed.

Lemma particle_bounds (i next : nat) :
  random_ok src -> style_in_bounds (particle_style (particle src i next).1).
Proof.
  intros Hr. rewrite particle_eq. unfold style_in_bounds. simpl.
  pose proof (Hr next). pose proof (Hr (next + 1)%nat).
  pose proof (Hr (next + 2)%nat). pose proof (Hr (next + 3)%nat).
  split_and!; lra.
Qed.

End Draws.

(** ** Theorems *)

(** C16: whatever [Math.random] returns, as long as each call gives a
    number in [[0, 1)], [Particles] renders exactly forty particles,
    keyed [0] to [39], makes exactly 160 calls, and places every
    particle inside the container ([top] and [left] in [[0, 100)]
    percent) with an [animationDelay] in [[0, 5)] seconds and a scale
    in [[0.7, 1.9)]. *)
Theorem particles_bounds (src : RandomSource) (next : nat) :
  random_ok src ->
  length (Particles src next).1 = 40%nat /\
  (Particles src next).2 = (next + 160)%nat /\
  particle_key <$> (Particles src next).1 = seq 0 40 /\
  Forall (fun p => style_in_bounds (particle_style p)) (Particles src next).1.
Proof.
  intros Hr. unfold Particles, particle_count.
  destruct (particles_loop_shape src 0 40 next) as [Hlen Hn].
  split_and!; [done|lia| |].
  - apply list_eq. intros j. rewrite list_lookup_fmap.
    destruct (decide (j < 40)%nat) as [Hj|Hj].
    + rewrite particles_loop_lookup, lookup_seq_lt by done. cbn [fmap option_fmap option_map].
      by rewrite (proj1 (particle_next _ _ _)).
    + rewrite lookup_ge_None_2, lookup_seq_ge by lia. done.
  - apply Forall_lookup_2. intros j p Hp.
    assert (j < 40)%nat as Hj by (apply lookup_lt_Some in Hp; lia).
    rewrite particles_loop_lookup in Hp by done. injection Hp as <-.
    by apply particle_bounds.
Qed.

(** ** Witnesses *)

Lemma particles_bounds_witness :
  length (Particles (fun _ => 1 # 2) 0).1 = 40%nat /\
  Forall (fun p => style_in_bounds (particle_style p)) (Particles (fun _ => 1 # 2) 0).1.
Proof.
  destruct (particles_bounds (fun _ => 1 # 2) 0) as (H1 & _ & _ & H4);
    [intros n; cbv beta; lra|done].
Defined.

