(* ===== verification/Layout.v ===== *)
(** * The page's element tree: layout helpers, navigation, cards, contact

    The parts of the JSX of [Portfolio] that carry links, ids, form
    fields or data, written as the element trees they render through the
    primitives of [UiPrimitives]: the helpers [Section] and
    [SectionTitle] (lines 202-213), the navigation bar (248-279), the
    hero's two buttons (300-307), a project card (509-538), the contact
    form (588-611), the "Connect" card (613-622) and the footer
    (628-635).  Library components (lucide's icons, framer-motion's
    [motion.div]) are elements named after the component, with the
    props the page gives them; [motion.div]'s animation props are not
    attributes and are dropped.  Event handlers are modelled where they
    run ([Page.Switch_onChange], [Mailto.contact_onSubmit]) and are not
    props here.

    The readers of a tree ([node_collect], [node_hrefs]) and the
    lemmas about a project card's link, used by [PageTree]'s theorems on
    the whole page. *)

From S2P Require Import Prelude JsString JsArray Chart UiPrimitives PortfolioData TextFilter Page.

(** ** Element helpers *)

Definition text (s : string) : Node := TextNode (js s).

(** An element with only a literal [className]. *)
Definition el (tag cls : string) (children : list Node) : Node :=
  Elem (js tag) [(js "className", JStr (js cls))] children.

(** A library component used as [<Name className="..." />]. *)
Definition Icon (name cls : string) : Node := el name cls [].

Definition str (s : string) : JsValue := JStr (js s).

(** ** [Section] and [SectionTitle] *)

(** [({ id, className = "", children }) => <section id={id}
    className={`scroll-mt-24 py-16 md:py-24 ${className}`}>]. *)
Definition Section_ (id : jsstr) (className : jsstr) (children : list Node) : Node :=
  Elem (js "section")
    [(js "id", JStr id); (js "className", JStr (js "scroll-mt-24 py-16 md:py-24 " ++ className))]
    children.

(** [{Icon && <Icon className="h-4 w-4" />}]: nothing without an icon. *)
Definition SectionTitle (icon : option string) (title subtitle : jsstr) : Node :=
  el "div" "mx-auto mb-10 max-w-3xl text-center"
    [el "div" "mb-3 flex items-center justify-center gap-2 text-sm text-primary"
       ((if icon is Some i then [Icon i "h-4 w-4"] else []) ++
        [el "span" "uppercase tracking-wider" [TextNode subtitle]]);
     el "h2" "text-3xl font-semibold leading-tight md:text-4xl" [TextNode title]].

(** ** The navigation bar *)

(** [switch.jsx]: the checkbox the [Switch] renders. *)
Definition SwitchEl (checked : bool) : Node :=
  Elem (js "input")
    [(js "type", str "checkbox"); (js "checked", JBool checked);
     (js "className", str "h-5 w-9 rounded-full"); (js "aria-checked", JBool checked)] [].

(** [<Button key={href} asChild variant="ghost" className="px-3">
    <a href={`#${href}`}>{label}</a></Button>]. *)
Definition nav_button (lh : jsstr * jsstr) (_ : nat) : Node :=
  Button [(js "asChild", JBool true); (js "variant", str "ghost"); (js "className", str "px-3")]
    [Elem (js "a") [(js "href", JStr (js "#" ++ lh.2))] [TextNode lh.1]].

Definition theme_toggle (enabled : bool) (cls : string) : Node :=
  el "div" cls [Icon "Sun" "h-4 w-4"; SwitchEl enabled; Icon "Moon" "h-4 w-4"].

Definition navbar (enabled : bool) : Node :=
  el "header" "sticky top-0 z-30 backdrop-blur supports-[backdrop-filter]:bg-background/70 border-b border-border"
    [el "nav" "mx-auto flex max-w-7xl items-center justify-between px-4 py-3 md:px-6"
       [Elem (js "a") [(js "href", str "#hero"); (js "className", str "font-semibold tracking-tight")]
          [TextNode (js "DA " ++ [8226] ++ js " AI/ML Portfolio")];
        el "div" "hidden items-center gap-1 md:flex"
          (Array_map nav_sections nav_button ++
           [theme_toggle enabled "ml-2 flex items-center gap-2 rounded-full border px-3 py-1 text-xs"]);
        el "div" "flex items-center gap-2 md:hidden"
          [theme_toggle enabled "flex items-center gap-2 rounded-full border px-3 py-1 text-xs"]]].

(** ** The hero's buttons *)

Definition hero_actions : Node :=
  el "div" "flex flex-wrap gap-3"
    [Button [(js "asChild", JBool true); (js "size", str "lg")]
       [Elem (js "a") [(js "href", str "/resume.pdf"); (js "download", JBool true);
                       (js "className", str "inline-flex items-center gap-2")]
          [Icon "Download" "h-4 w-4"; text " Download Resume"]];
     Button [(js "asChild", JBool true); (js "size", str "lg"); (js "variant", str "secondary")]
       [Elem (js "a") [(js "href", str "#projects"); (js "className", str "inline-flex items-center gap-2")]
          [Icon "LineChart" "h-4 w-4"; text " View Projects"]]].

(** ** A project card *)

Definition project_card_node (p : Project.t) (_ : nat) : Node :=
  Elem (js "div") []
    [Card [(js "className", str "group h-full overflow-hidden")]
       [CardHeader []
          [CardTitle [(js "className", str "group-hover:text-primary transition-colors")]
             [TextNode (Project.title p)]];
        CardContent [(js "className", str "space-y-4")]
          [el "p" "text-sm text-muted-foreground" [TextNode (Project.blurb p)];
           el "div" "flex flex-wrap gap-2"
             (Array_map (Project.tags p) (fun t _ =>
                Badge [(js "variant", str "outline"); (js "className", str "rounded-full")] [TextNode t]));
           Button [(js "asChild", JBool true); (js "size", str "sm"); (js "variant", str "secondary")]
             [Elem (js "a") [(js "href", JStr (Project.link p)); (js "target", str "_blank");
                             (js "rel", str "noreferrer");
                             (js "className", str "inline-flex items-center gap-2")]
                [text "View details "; Icon "ExternalLink" "h-4 w-4"]]]]].

(** ** The contact section *)

(** The form without its [onSubmit] (modelled by [contact_onSubmit]). *)
Definition contact_form : Node :=
  Elem (js "form") [(js "className", str "space-y-4")]
    [Input [(js "name", str "name"); (js "placeholder", str "Name"); (js "required", JBool true)];
     Input [(js "name", str "email"); (js "type", str "email"); (js "placeholder", str "Email");
            (js "required", JBool true)];
     Textarea [(js "name", str "message"); (js "placeholder", str "Message");
               (js "className", str "min-h-[120px]"); (js "required", JBool true)];
     el "div" "flex items-center gap-2"
       [Button [(js "type", str "submit"); (js "className", str "inline-flex items-center gap-2")]
          [Icon "Send" "h-4 w-4"; text " Send"];
        Button [(js "asChild", JBool true); (js "variant", str "secondary")]
          [Elem (js "a") [(js "href", str "/resume.pdf"); (js "download", JBool true);
                          (js "className", str "inline-flex items-center gap-2")]
             [Icon "Download" "h-4 w-4"; text " Resume"]]]].

Definition connect_link (href : string) (external : bool) (icon label : string) : Node :=
  Elem (js "a")
    ([(js "href", str href)] ++
     (if external then [(js "target", str "_blank"); (js "rel", str "noreferrer")] else []) ++
     [(js "className", str "flex items-center gap-2 text-sm hover:text-primary")])
    [Icon icon "h-4 w-4"; text label].

Definition connect_card : Node :=
  Card []
    [CardHeader [] [CardTitle [] [text "Connect"]];
     CardContent [(js "className", str "space-y-3")]
       [connect_link "https://www.linkedin.com/" true "Linkedin" " LinkedIn";
        connect_link "https://github.com/" true "Github" " GitHub";
        connect_link "mailto:youremail@example.com" false "Mail" " Email"]].

(** ** The footer *)

(** [© {new Date().getFullYear()} ...]: the year is read from the clock. *)
Definition footer (year : Z) : Node :=
  el "footer" "border-t border-border py-10 text-center text-sm text-muted-foreground"
    [el "div" "mx-auto max-w-6xl px-4 md:px-6"
       [Elem (js "p") []
          [TextNode ([169; 32] ++ Number_toString_int year ++
                     js " Data Analyst & AI/ML Enthusiast " ++ [8226] ++
                     js " Built with React, Tailwind, Framer Motion, shadcn/ui & Recharts.")];
        el "p" "mt-2" [TextNode (js "Dark/Light mode " ++ [8226] ++ js " Smooth scroll " ++ [8226] ++
                                 js " Responsive " ++ [8226] ++ js " Glassmorphism accents")]]].

(** ** Sections, links and ids *)

(** What [f] reads off each element of a tree, in document order
    (the order of [querySelectorAll]). *)
Fixpoint node_collect {A} (f : jsstr -> obj -> list A) (n : Node) : list A :=
  match n with
  | Elem tag ps ch => f tag ps ++ concat (map (node_collect f) ch)
  | TextNode _ => []
  end.

(** The string value of attribute [k] of every element that has one. *)
Definition attr_of (k : jsstr) (_ : jsstr) (ps : obj) : list jsstr :=
  if obj_get k ps is JStr v then [v] else [].

(** The [href]s of an element tree, in document order. *)
Definition node_hrefs : Node -> list jsstr := node_collect (attr_of (js "href")).

(** A link inside the page: its [href] starts with [#]. *)
Definition in_page (h : jsstr) : bool := bool_decide (take 1 h = js "#").

(** ** Lemmas *)

(** A project card has one link, the project's. *)
Lemma project_card_hrefs (p : Project.t) (i : nat) :
  node_hrefs (project_card_node p i) = [Project.link p].
Proof.
  assert (Hb : concat (map (node_collect (attr_of (js "href")))
     (Array_map (Project.tags p) (fun t _ =>
        Badge [(js "variant", str "outline"); (js "className", str "rounded-full")] [TextNode t])))
     = []).
  { apply concat_nil_Forall, Forall_map. rewrite Array_map_spec.
    apply Forall_forall. intros n (k & t & -> & _)%elem_of_lookup_imap. reflexivity. }
  unfold node_hrefs, project_card_node. simpl. by rewrite Hb.
Qed.

Lemma projects_links : Forall (fun p => Project.link p = js "#") projects.
Proof. decide_closed. Qed.
