(* ===== verification/DateYear.v ===== *)
(** * The footer's year: [new Date().getFullYear()]

    The footer (line 631) prints [new Date().getFullYear()].  The
    constructor and the method are ECMA-262's (sections 21.4.1 and
    21.4.4): [new Date()] reads the clock and clips the time value,
    [getFullYear] maps it to local time and takes [YearFromTime].  This
    file writes those abstract operations over [Z] milliseconds, the
    floor divisions as [Z.div], and the clock as an input: the current
    time value and the local time zone adjustment.

    [YearFromTime] is specified declaratively ("the largest integral y
    such that TimeFromYear(y) <= t"); [YearFromTime] below computes it
    from a 400-year estimate corrected by one year at most, and the
    theorems prove that it meets the specification for every time value
    and that the year the footer prints lies in the range every valid
    date has, [-271821] to [275760]. *)

From Stdlib Require Import ZArith Lia.
From S2P Require Import Prelude JsString UiPrimitives Layout.

Open Scope Z_scope.

(** ** Time values (ECMA-262 21.4.1) *)

Definition msPerDay : Z := 86400000.

(** [Day(t) = floor(t / msPerDay)]. *)
Definition Day (t : Z) : Z := t / msPerDay.

(** [DayFromYear(y)]: the day number of the first day of year [y]. *)
Definition DayFromYear (y : Z) : Z :=
  365 * (y - 1970) + (y - 1969) / 4 - (y - 1901) / 100 + (y - 1601) / 400.

Definition TimeFromYear (y : Z) : Z := msPerDay * DayFromYear y.

(** [DaysInYear(y)]: 366 in a leap year of the Gregorian calendar. *)
Definition DaysInYear (y : Z) : Z :=
  if (y mod 4 =? 0) && (negb (y mod 100 =? 0) || (y mod 400 =? 0)) then 366 else 365.

(** [YearFromTime(t)]: an estimate from the mean Gregorian year
    (146097 days in 400 years), moved by one year when the estimate is
    past or before the year [t] lies in. *)
Definition YearFromTime (t : Z) : Z :=
  let d := Day t in
  let y := 1970 + (d * 400) / 146097 in
  if DayFromYear (y + 1) <=? d then y + 1
  else if d <? DayFromYear y then y - 1
  else y.

(** [TimeClip(time)]: [NaN] (here [None]) beyond 8.64e15 ms. *)
Definition TimeClip (time : Z) : option Z :=
  if Z.abs time <=? 8640000000000000 then Some time else None.

(** ** The clock and the two calls *)

(** What the host provides: the current time value and the local time
    zone adjustment [LocalTZA(t, true)] (daylight saving time included). *)
Record Clock := mkClock { now : Z; LocalTZA : Z -> Z }.

Definition LocalTime (c : Clock) (t : Z) : Z := t + LocalTZA c t.

(** [new Date()]: [TimeClip] of the current time. *)
Definition new_Date (c : Clock) : option Z := TimeClip (now c).

(** [Date.prototype.getFullYear]: [NaN] for an invalid date, else
    [YearFromTime(LocalTime(t))]. *)
Definition getFullYear (c : Clock) (tv : option Z) : option Z :=
  match tv with
  | None => None
  | Some t => Some (YearFromTime (LocalTime c t))
  end.

(** The footer as the page renders it at the clock [c]; [None] is the
    footer of an invalid date, which would print [NaN]. *)
Definition footer_now (c : Clock) : option Node :=
  match getFullYear c (new_Date c) with
  | Some y => Some (footer y)
  | None => None
  end.

(** ** Lemmas *)

Lemma DayFromYear_estimate (y : Z) :
  (y - 1970) * 146097 - 800 <= DayFromYear y * 400 <= (y - 1970) * 146097 + 800.
Proof. unfold DayFromYear. Z.div_mod_to_equations. lia. Qed.

(** A year has 365 or 366 days, as [DaysInYear] says. *)
Lemma DayFromYear_succ (y : Z) : DayFromYear (y + 1) = DayFromYear y + DaysInYear y.
Proof.
  unfold DayFromYear, DaysInYear.
  destruct (Z.eqb_spec (y mod 4) 0), (Z.eqb_spec (y mod 100) 0), (Z.eqb_spec (y mod 400) 0);
    cbn [andb orb negb]; Z.div_mod_to_equations; lia.
Qed.

Lemma DaysInYear_bounds (y : Z) : 365 <= DaysInYear y <= 366.
Proof. unfold DaysInYear. destruct (_ && _); lia. Qed.

(** The computed year is the one [Day t] falls in. *)
Lemma YearFromTime_day (t : Z) :
  DayFromYear (YearFromTime t) <= Day t < DayFromYear (YearFromTime t + 1).
Proof.
  unfold YearFromTime. set (d := Day t). set (y := 1970 + d * 400 / 146097).
  assert (Hy : (y - 1970) * 146097 <= d * 400 < (y - 1969) * 146097)
    by (subst y; Z.div_mod_to_equations; lia).
  pose proof (DayFromYear_estimate y). pose proof (DayFromYear_estimate (y + 1)).
  pose proof (DayFromYear_succ (y - 1)). pose proof (DaysInYear_bounds (y - 1)).
  pose proof (DayFromYear_succ (y + 1)). pose proof (DaysInYear_bounds (y + 1)).
  replace (y - 1 + 1) with y in * by lia.
  destruct (Z.leb_spec (DayFromYear (y + 1)) d); [lia|].
  destruct (Z.ltb_spec d (DayFromYear y)); [replace (y - 1 + 1) with y by lia; lia|lia].
Qed.

Lemma DayFromYear_mono (y1 y2 : Z) : y1 <= y2 -> DayFromYear y1 <= DayFromYear y2.
Proof. unfold DayFromYear. Z.div_mod_to_equations. lia. Qed.

Lemma TimeFromYear_le (y : Z) (t : Z) : TimeFromYear y <= t <-> DayFromYear y <= Day t.
Proof. unfold TimeFromYear, Day, msPerDay. Z.div_mod_to_equations. lia. Qed.

(** [YearFromTime] is the specification's: the year whose first
    millisecond is the last one not after [t]. *)
Lemma YearFromTime_time (t : Z) :
  TimeFromYear (YearFromTime t) <= t < TimeFromYear (YearFromTime t + 1).
Proof.
  pose proof (YearFromTime_day t) as [H1 H2]. split; [by apply TimeFromYear_le|].
  destruct (Z.lt_ge_cases t (TimeFromYear (YearFromTime t + 1))) as [|H]; [done|].
  apply TimeFromYear_le in H. lia.
Qed.

Lemma YearFromTime_largest (t y : Z) : TimeFromYear y <= t -> y <= YearFromTime t.
Proof.
  intros Hy. destruct (Z.le_gt_cases y (YearFromTime t)) as [|Hgt]; [done|].
  pose proof (YearFromTime_time t) as [_ H2].
  pose proof (DayFromYear_mono (YearFromTime t + 1) y ltac:(lia)).
  unfold TimeFromYear, msPerDay in *. lia.
Qed.

(** Every time value of a valid date, moved by less than a day, lies in
    one of the years [-271821] to [275760]. *)
Lemma YearFromTime_range (t : Z) :
  Z.abs t <= 8640000000000000 + msPerDay -> -271821 <= YearFromTime t <= 275760.
Proof.
  intros Ht. pose proof (YearFromTime_time t) as [H1 H2].
  assert (DayFromYear 275761 = 100000110) as Hmax by (vm_compute; reflexivity).
  assert (DayFromYear (-271821) = -100000109) as Hmin by (vm_compute; reflexivity).
  unfold TimeFromYear, msPerDay in *. split.
  - destruct (Z.le_gt_cases (-271821) (YearFromTime t)) as [|Hlt]; [done|].
    pose proof (DayFromYear_mono (YearFromTime t + 1) (-271821) ltac:(lia)). lia.
  - destruct (Z.le_gt_cases (YearFromTime t) 275760) as [|Hgt]; [done|].
    pose proof (DayFromYear_mono 275761 (YearFromTime t) ltac:(lia)). lia.
Qed.

(** The clock of a host: the current time is a valid date and the local
    time zone adjustment is less than a day. *)
Definition valid_clock (c : Clock) : Prop :=
  Z.abs (now c) <= 8640000000000000 /\ forall t, Z.abs (LocalTZA c t) <= msPerDay.

(** ** Theorem *)

(** C17: the footer prints the year of the local date: on a valid clock
    [new Date().getFullYear()] is the year [y] whose first millisecond
    is the last one not after the local time (ECMA-262's [YearFromTime]),
    between [-271821] and [275760]; a clock beyond the range of dates
    gives an invalid date, whose year is [NaN]. *)
Theorem footer_year_spec (c : Clock) :
  (footer_now c = None <-> 8640000000000000 < Z.abs (now c)) /\
  (valid_clock c ->
   exists y, footer_now c = Some (footer y) /\
     TimeFromYear y <= LocalTime c (now c) < TimeFromYear (y + 1) /\
     (forall y', TimeFromYear y' <= LocalTime c (now c) -> y' <= y) /\
     -271821 <= y <= 275760).
Proof.
  unfold footer_now, getFullYear, new_Date, TimeClip. split.
  { destruct (Z.leb_spec (Z.abs (now c)) 8640000000000000); split; done || lia. }
  intros [Hn Htz]. rewrite (proj2 (Z.leb_le _ _) Hn).
  eexists. split_and!; [reflexivity|apply YearFromTime_time|apply YearFromTime_time|
    intros; by apply YearFromTime_largest|..];
    apply YearFromTime_range; unfold LocalTime; specialize (Htz (now c)); lia.
Qed.

(** ** Witness *)

(** 2025-12-31T23:00Z on a host two hours east of UTC: the footer
    already prints 2026. *)
Definition new_year_clock : Clock := mkClock 1767222000000 (fun _ => 7200000).

Lemma footer_year_spec_witness :
  valid_clock new_year_clock /\ footer_now new_year_clock = Some (footer 2026).
Proof.
  assert (Hv : valid_clock new_year_clock) by (split; [|intros t]; unfold msPerDay; cbn; lia).
  split; [exact Hv|].
  destruct (proj2 (footer_year_spec new_year_clock) Hv) as (y & Hf & [Hy _] & Hl & _).
  rewrite Hf. assert (y = 2026) as ->; [|reflexivity].
  assert (2026 <= y) by (apply Hl; vm_compute; discriminate).
  destruct (Z.le_gt_cases y 2026) as [|Hgt]; [lia|exfalso].
  pose proof (DayFromYear_mono 2027 y ltac:(lia)).
  assert (DayFromYear 2027 = 20819) by (vm_compute; reflexivity).
  revert Hy. unfold TimeFromYear, LocalTime, msPerDay. cbn [now LocalTZA new_year_clock]. lia.
Defined.
