(* ===== verification/PageTree.v ===== *)
(** * The whole element tree of [Portfolio]

    [Layout] writes the parts of the JSX that carry links and form
    controls; this file writes the rest of the page's sections (the
    hero, about with the career chart, education, experience, skills,
    the two searchable lists and the contact section, lines 283-625) and
    assembles them into [Portfolio_tree], the tree [Portfolio] returns
    (lines 241-639) for a page state of [Page].  The conventions are
    [Layout]'s: library components are elements named after the
    component, [motion.*] elements are their host element with the
    animation props dropped, event handlers and the chart's formatter
    callbacks are modelled where they run ([Page.page_step],
    [Chart.formatter]).  [Particles] appears as its element: its
    rendering, which depends on [Math.random], is [Decorations.Particles].

    The theorems: every in-page link of the whole tree, in every state,
    names the [id] of exactly one element of that tree, and the only
    other in-page links are the projects' placeholders [#]; the tree of
    a reachable state shows the theme the browser applies, the typed
    queries in the search boxes and the cards of the filtered lists. *)

From S2P Require Import Prelude JsString JsArray Chart UiPrimitives PortfolioData TextFilter Theme Page Decorations Layout.

(** ** Helpers *)

Definition cls (s : string) : jsstr * JsValue := (js "className", str s).

Definition variant (s : string) : jsstr * JsValue := (js "variant", str s).

(** [" • "] and [" – "], with their non-ASCII code unit. *)
Definition bullet : jsstr := [32; 8226; 32].
Definition ndash : jsstr := [32; 8211; 32].

(** ** Hero (lines 283-330) *)

Definition hero_section : Node :=
  Section_ (js "hero") (js "relative pt-12")
    [el "div" "mx-auto grid max-w-7xl items-center gap-8 px-4 md:grid-cols-2 md:px-6"
       [el "div" "order-2 md:order-1"
          [Badge [cls "mb-4 gap-1 bg-primary/15 text-primary hover:bg-primary/20"]
             [el "span" "inline-flex items-center gap-1"
                [Icon "Brain" "h-3.5 w-3.5"; TextNode (js " Data" ++ bullet ++ js "AI" ++ bullet ++ js "GenAI")]];
           el "h1" "mb-4 text-3xl font-extrabold leading-tight md:text-5xl"
             [text ("6 Years Global Experience | Data Analyst | Data Science | AI & Machine Learning Enthusiast | " ++
                    "Generative AI Application Builder | SQL, Pandas, NumPy, Oracle DB Developer | FastAPI/Flask | " ++
                    "Pinecone, Weaviate, FAISS (for GenAI search apps) | Data Analytics | Power BI | Advanced Excel | " ++
                    "Crystal Reports Expertise | Python, Seaborn, Matplotlib | PL/SQL Developer | Web Scraping")];
           el "p" "mb-6 text-muted-foreground text-lg"
             [TextNode ([34] ++ js "Transforming Data into Actionable Insights & Building Scalable AI Solutions" ++ [34])];
           hero_actions;
           el "div" "mt-6 flex flex-wrap items-center gap-4 text-sm text-muted-foreground"
             [el "span" "inline-flex items-center gap-2"
                [Icon "Database" "h-4 w-4"; TextNode (js " Oracle" ++ bullet ++ js "SQL" ++ bullet ++ js "PL/SQL")];
              el "span" "inline-flex items-center gap-2"
                [Icon "Bot" "h-4 w-4"; TextNode (js " LLM" ++ bullet ++ js "Vector DB" ++ bullet ++ js "LangChain")]]];
        el "div" "order-1 md:order-2"
          [el "div" ("relative mx-auto aspect-square w-64 overflow-hidden rounded-3xl border " ++
                     "bg-gradient-to-tr from-muted to-transparent p-1 shadow-2xl md:w-80")
             [el "div" "flex h-full w-full items-center justify-center rounded-3xl bg-muted/40"
                [el "span" "text-muted-foreground" [text "Upload your professional photo"]];
              el "div" "pointer-events-none absolute inset-0 rounded-3xl ring-1 ring-white/10" []]]]]%string.

(** ** About, with the career chart (lines 332-389) *)

(** The chart's element tree (lines 369-385); [labelFormatter] and
    [formatter] are [Chart.labelFormatter] and [Chart.formatter]. *)
Definition career_chart : Node :=
  el "div" "h-48 w-full"
    [Elem (js "ResponsiveContainer") [(js "width", str "100%"); (js "height", str "100%")]
       [Elem (js "AreaChart")
          [(js "data", JArr timeline);
           (js "margin", JObj [(js "top", int_num 10); (js "right", int_num 10);
                               (js "left", int_num 0); (js "bottom", int_num 0)])]
          [Elem (js "defs") []
             [Elem (js "linearGradient")
                [(js "id", str "grad"); (js "x1", str "0"); (js "y1", str "0"); (js "x2", str "0");
                 (js "y2", str "1")]
                [Elem (js "stop") [(js "offset", str "5%"); (js "stopColor", str "currentColor");
                                   (js "stopOpacity", JNum (mkDecimal 4 1))] [];
                 Elem (js "stop") [(js "offset", str "95%"); (js "stopColor", str "currentColor");
                                   (js "stopOpacity", JNum (mkDecimal 5 2))] []]];
           Elem (js "CartesianGrid") [(js "strokeDasharray", str "3 3");
                                      (js "opacity", JNum (mkDecimal 2 1))] [];
           Elem (js "XAxis") [(js "dataKey", str "year"); (js "tick", JObj [(js "fontSize", int_num 12)]);
                              (js "domain", JArr [int_num 2019; int_num 2025])] [];
           Elem (js "YAxis") [(js "hide", JBool true)] [];
           Elem (js "RechartsTooltip")
             [(js "contentStyle", JObj [(js "background", str "hsl(var(--popover))");
                                        (js "border", str "1px solid hsl(var(--border))")])] [];
           Elem (js "Area") [(js "type", str "monotone"); (js "dataKey", str "value");
                             (js "stroke", str "currentColor"); (js "fill", str "url(#grad)")] []]]].

(** [<li><strong>{head}</strong> {rest}</li>]. *)
Definition specialty (head rest : string) : Node :=
  Elem (js "li") [] [Elem (js "strong") [] [text head]; text rest].

Definition about_section : Node :=
  Section_ (js "about") []
    [SectionTitle (Some "Brain") (js "About Me") (js "Profile");
     el "div" "mx-auto grid max-w-6xl gap-6 px-4 md:grid-cols-3 md:px-6"
       [Card [cls "md:col-span-2"]
          [CardContent [cls "space-y-4 p-6 text-muted-foreground"]
             [Elem (js "p") []
                [text ("I am a Data Analyst, SQL Developer, and AI/ML Enthusiast with over 6 years of global " ++
                       "experience in delivering data-driven solutions, automating business processes, and " ++
                       "building intelligent applications. My expertise spans across core banking systems, " ++
                       "data analytics, reporting, and modern AI-powered solutions.")];
              Elem (js "p") [] [el "strong" "text-foreground" [text "I specialize in:"]];
              el "ul" "list-disc space-y-2 pl-6"
                [specialty "Data Analytics & BI:"
                   (" Transforming raw data into actionable insights through Power BI, Crystal Reports, " ++
                    "Advanced Excel, and Python visualizations (Matplotlib, Seaborn).");
                 specialty "SQL & Database Development:"
                   (" Designing and optimizing complex SQL queries, stored procedures, triggers, and " ++
                    "database schemas for high-performance financial applications.");
                 specialty "AI & Generative AI:"
                   (" Developing intelligent apps with Python, FastAPI, Flask, Streamlit, and integrating " ++
                    "LLMs (ChatGPT, HuggingFace, LangChain) with vector databases like Pinecone, Weaviate, " ++
                    "and FAISS for next-gen search & automation solutions.");
                 specialty "Core Banking Support:"
                   (" Hands-on experience in requirements gathering, process analysis, MIS reporting, and " ++
                    "database optimization for enterprise-grade banking systems.")];
              Elem (js "p") []
                [text ("With a proven track record in both corporate banking software engineering and data " ++
                       "science applications, I thrive at the intersection of data analytics, AI/ML, and " ++
                       "financial technology, enabling organizations to make smarter, faster, and more " ++
                       "informed decisions.")]]];
        Card []
          [CardHeader [] [CardTitle [cls "text-lg"] [text "Career Growth"]];
           CardContent []
             [career_chart;
              el "p" "mt-2 text-xs text-muted-foreground"
                [text "Interactive timeline of impact & responsibility over time."]]]]]%string.

(** ** Education (lines 391-408) *)

(** [<Card><CardHeader><CardTitle>{degree}</CardTitle></CardHeader>
    <CardContent className="text-muted-foreground">{year}</CardContent></Card>]. *)
Definition degree_card (degree : jsstr) (year : string) : Node :=
  Card [] [CardHeader [] [CardTitle [] [TextNode degree]];
           CardContent [cls "text-muted-foreground"] [text year]].

Definition education_section : Node :=
  Section_ (js "education") []
    [SectionTitle (Some "School") (js "Education") (js "Academic");
     el "div" "mx-auto grid max-w-5xl gap-4 px-4 md:grid-cols-2 md:px-6"
       [degree_card (js "B.Sc. in Computer Science and Engineering" ++ ndash ++
                     js "Dhaka International University") "2020";
        degree_card (js "Diploma in Computer Engineering" ++ ndash ++
                     js "Jhenaidah Polytechnic Institute") "2016"]].

(** ** Experience (lines 410-463) *)

(** A job card: company, role, period badge and the list of duties. *)
Definition job_card (company role period : jsstr) (duties : list string) : Node :=
  Card [cls "border-primary/20"]
    [CardHeader []
       [el "div" "flex items-start justify-between gap-4"
          [Elem (js "div") []
             [CardTitle [] [TextNode company]; el "p" "text-sm text-muted-foreground" [TextNode role]];
           Badge [variant "secondary"] [TextNode period]]];
     CardContent []
       [el "ul" "list-disc space-y-2 pl-6 text-muted-foreground"
          (map (fun d => Elem (js "li") [] [text d]) duties)]].

Definition leads_duties : list string := [
  "Gathered requirements for core banking systems (transactions, account management, loan disbursement, compliance).";
  "Analyzed workflows and integrated them into new core banking solutions.";
  "Developed optimized SQL queries, stored procedures, views, and functions to automate banking operations.";
  "Designed and managed database objects (tables, indexes, partitions) for efficient data retrieval.";
  "Enhanced database performance via indexing, restructuring, and partitioning.";
  "Integrated SQL scripts into banking applications for real-time data access.";
  "Built Power BI dashboards for KPIs, customer behavior, and regulatory reports.";
  "Designed dynamic Crystal Reports for customer activity and operational performance.";
  "Conducted data cleaning & preprocessing to ensure accuracy."
]%string.

Definition meghna_duties : list string := [
  "Built MIS reports and provided end-to-end support for general banking operations.";
  "Designed Power BI & Streamlit dashboards with predictive analytics (loans, sales, risks).";
  "Automated workflows using Python scripts for reporting, forecasting, and preprocessing.";
  "Implemented AI/ML models for trend prediction & risk forecasting.";
  "Developed Generative AI apps using LLMs, LangChain, Pinecone, Weaviate, FAISS.";
  "Created optimized SQL queries, triggers, and stored procedures to streamline workflows.";
  "Built Crystal Reports for finance, customers, and operations.";
  "Supported core banking solution software implementation."
]%string.

Definition experience_section : Node :=
  Section_ (js "experience") []
    [SectionTitle (Some "Briefcase") (js "Work Experience") (js "Career");
     el "div" "mx-auto grid max-w-6xl gap-6 px-4 md:grid-cols-2 md:px-6"
       [job_card (js "Leads Corporation Ltd") (js "Senior Software Engineer | Core Banking & Data Analytics")
          (js "Nov 2019" ++ ndash ++ js "Feb 2023") leads_duties;
        job_card (js "Meghna Bank PLC") (js "Assistant Officer (Data Analyst & Python Developer)")
          (js "Feb 2023" ++ ndash ++ js "Present") meghna_duties]].

(** ** Skills (lines 465-491) *)

(** [Object.entries(skills).map(([group, items]) => <Card key={group}> ...)],
    each item a [motion.span] around a badge. *)
Definition skill_card_node (entry : jsstr * list jsstr) (_ : nat) : Node :=
  Card []
    [CardHeader []
       [CardTitle [cls "flex items-center gap-2 text-lg"]
          [Icon "ChevronRight" "h-4 w-4"; text " "; TextNode entry.1]];
     CardContent [cls "flex flex-wrap gap-2"]
       (Array_map entry.2 (fun s _ =>
          Elem (js "span") [] [Badge [variant "outline"; cls "rounded-full px-3 py-1"] [TextNode s]]))].

Definition skills_section : Node :=
  Section_ (js "skills") []
    [SectionTitle (Some "LineChart") (js "Skills") (js "Toolbox");
     el "div" "mx-auto grid max-w-6xl gap-6 px-4 md:grid-cols-2 md:px-6"
       (Array_map skills skill_card_node)].

(** ** The two searchable lists (lines 493-578) *)

(** The search box: a controlled [Input] showing [value]; its
    [onChange] is the event [Page.ProjectSearch] or [Page.CertSearch]. *)
Definition search_box (value placeholder : jsstr) : Node :=
  el "div" "mb-6 flex items-center gap-2"
    [el "div" "relative w-full md:w-96"
       [Icon "Search" "absolute left-3 top-1/2 -translate-y-1/2 h-4 w-4 text-muted-foreground";
        Input [(js "value", JStr value); (js "placeholder", JStr placeholder); cls "pl-9"]]].

Definition projects_section (query : jsstr) (filteredProjects : list Project.t) : Node :=
  Section_ (js "projects") []
    [SectionTitle (Some "LineChart") (js "Projects") (js "Selected Work");
     el "div" "mx-auto max-w-6xl px-4 md:px-6"
       [search_box query (js "Search by title or tag" ++ [8230]);
        el "div" "grid gap-6 sm:grid-cols-2 lg:grid-cols-3"
          [Elem (js "AnimatePresence") [] (Array_map filteredProjects project_card_node)]]].

(** A certification card (lines 560-574); its key [c.title + idx] is
    [Page.cert_card]'s. *)
Definition cert_card_node (c : Certification.t) (_ : nat) : Node :=
  Card [cls "min-w-[280px] snap-center"]
    [CardContent [cls "p-6"]
       [el "div" "mb-2 flex items-center gap-2"
          [Icon "Award" "h-5 w-5 text-primary"; el "span" "font-medium" [TextNode (Certification.title c)]];
        el "p" "text-sm text-muted-foreground"
          [TextNode (Certification.org c); TextNode bullet;
           TextNode (Number_toString_int (Certification.year c))];
        el "div" "mt-4 flex items-center gap-2"
          [Badge [variant "secondary"] [text "Verified"]; Badge [variant "outline"] [text "Professional"]]]].

Definition certs_section (certQuery : jsstr) (filteredCerts : list Certification.t) : Node :=
  Section_ (js "certifications") []
    [SectionTitle (Some "Award") (js "Certifications") (js "Badges");
     el "div" "mx-auto max-w-6xl px-4 md:px-6"
       [search_box certQuery (js "Search certifications" ++ [8230]);
        el "div" "no-scrollbar flex snap-x gap-4 overflow-x-auto pb-2"
          (Array_map filteredCerts cert_card_node)]].

(** ** Contact (lines 580-625) *)

Definition contact_section : Node :=
  Section_ (js "contact") []
    [SectionTitle (Some "Mail") (js "Contact") (js "Let's Talk");
     el "div" "mx-auto grid max-w-5xl gap-6 px-4 md:grid-cols-2 md:px-6"
       [Card [] [CardHeader [] [CardTitle [] [text "Send a Message"]]; CardContent [] [contact_form]];
        connect_card]].

(** ** The page *)

(** What [Portfolio] returns in state [st] (lines 241-639); [year] is
    what [new Date().getFullYear()] reads. *)
Definition Portfolio_tree (st : PageState) (year : Z) : Node :=
  TooltipProvider
    [el "div" "relative min-h-screen scroll-smooth bg-background text-foreground antialiased"
       [AnimatedGradient; Elem (js "Particles") [] [];
        navbar (enabled (dark st));
        hero_section; about_section; education_section; experience_section; skills_section;
        projects_section (query st) (memoProjects st).2;
        certs_section (certQuery st) (memoCerts st).2;
        contact_section;
        footer year]].

(** ** Reading the tree *)

(** The [id]s of the elements of a tree, in document order. *)
Definition node_ids : Node -> list jsstr := node_collect (attr_of (js "id")).

(** The value of prop [k] of every element that has it. *)
Definition prop_of (k : jsstr) (_ : jsstr) (ps : obj) : list JsValue :=
  if obj_has k ps then [obj_get k ps] else [].

Definition node_prop (k : jsstr) : Node -> list JsValue := node_collect (prop_of k).

(** ** Lemmas: the dynamic parts of the tree *)

(** The cards come last in their section, in document order. *)
Lemma projects_section_collect {A} (f : jsstr -> obj -> list A) (q : jsstr) (fps : list Project.t) :
  node_collect f (projects_section q fps) =
    node_collect f (projects_section q []) ++
    concat (map (node_collect f) (Array_map fps project_card_node)).
Proof.
  unfold projects_section, Section_, el. change (Array_map [] project_card_node) with (@nil Node).
  cbn [node_collect concat map app]. by rewrite ?app_nil_r, <-?app_assoc.
Qed.

Lemma certs_section_collect {A} (f : jsstr -> obj -> list A) (cq : jsstr)
    (fcs : list Certification.t) :
  node_collect f (certs_section cq fcs) =
    node_collect f (certs_section cq []) ++
    concat (map (node_collect f) (Array_map fcs cert_card_node)).
Proof.
  unfold certs_section, Section_, el. change (Array_map [] cert_card_node) with (@nil Node).
  cbn [node_collect concat map app]. by rewrite ?app_nil_r, <-?app_assoc.
Qed.

(** What a list of cards contributes, when each card contributes [g]
    of its item whatever its index. *)
Lemma cards_collect {A B} (f : jsstr -> obj -> list A) (card : B -> nat -> Node) (g : B -> list A)
    (l : list B) :
  (forall x i, node_collect f (card x i) = g x) ->
  concat (map (node_collect f) (Array_map l card)) = concat (map g l).
Proof.
  intros Hc. rewrite Array_map_spec.
  enough (H : forall F : nat -> B -> Node, (forall i x, node_collect f (F i x) = g x) ->
            concat (map (node_collect f) (imap F l)) = concat (map g l)) by (apply H; intros; apply Hc).
  induction l as [|x l IH]; intros F HF; [done|]. rewrite imap_cons. simpl.
  rewrite HF, IH; [done|]. intros; apply HF.
Qed.

Lemma concat_map_nil {A B} (l : list B) : concat (map (fun _ => @nil A) l) = [].
Proof. by induction l. Qed.

(** A project card's tag badges contribute nothing to [f] when a badge
    without text does not. *)
Lemma project_card_collect {A} (f : jsstr -> obj -> list A) (p : Project.t) (i : nat) :
  node_collect f (Badge [(js "variant", str "outline"); (js "className", str "rounded-full")] []) = [] ->
  node_collect f (project_card_node p i) =
    node_collect f (project_card_node (Project.mk (Project.title p) [] (Project.blurb p) (Project.link p)) 0).
Proof.
  intros Hb. unfold project_card_node, Card, CardHeader, CardTitle, CardContent, card_component, el.
  cbn [node_collect concat map app].
  rewrite !(cards_collect f _ (fun _ => [])) by (intros; exact Hb). by rewrite !concat_map_nil.
Qed.

(** Pushes [node_collect] through the page down to its sections, the
    cards of the two lists set apart. *)
Ltac tree_split :=
  unfold Portfolio_tree, TooltipProvider, el; cbn [node_collect concat map app];
  lazymatch goal with
  | |- context [node_collect ?f (projects_section ?q ?fps)] => rewrite (projects_section_collect f q fps)
  end;
  lazymatch goal with
  | |- context [node_collect ?f (certs_section ?q ?fcs)] => rewrite (certs_section_collect f q fcs)
  end.

(** Evaluates what [f] reads off each section, leaving the state's
    variables in place. *)
Ltac eval_sections :=
  repeat match goal with
  | |- context [node_collect ?f ?n] =>
      let v := eval vm_compute in (node_collect f n) in change (node_collect f n) with v
  end; cbn [app].

Lemma concat_map_singleton {A B} (g : B -> A) (l : list B) : concat (map (fun x => [g x]) l) = map g l.
Proof. by induction l as [|x l IH]; [|simpl; rewrite IH]. Qed.

(** The ids of the page, in document order, whatever its state. *)
Lemma tree_ids (st : PageState) (year : Z) :
  node_ids (Portfolio_tree st year) =
    map js ["hero"; "about"; "grad"; "education"; "experience"; "skills"; "projects";
            "certifications"; "contact"]%string.
Proof.
  unfold node_ids. tree_split.
  rewrite (cards_collect _ project_card_node (fun _ => [])), (cards_collect _ cert_card_node (fun _ => [])),
    !concat_map_nil.
  2: { intros c i. vm_compute. reflexivity. }
  2: { intros p i. rewrite project_card_collect; vm_compute; reflexivity. }
  generalize (enabled (dark st)) (query st) (certQuery st). intros e q cq. vm_compute. reflexivity.
Qed.

(** The links of the page, in document order: the navigation, the
    hero's buttons, one link per rendered project card, the contact
    section's. *)
Lemma tree_hrefs (st : PageState) (year : Z) :
  node_hrefs (Portfolio_tree st year) =
    map js ["#hero"; "#about"; "#education"; "#experience"; "#skills"; "#projects";
            "#certifications"; "#contact"; "/resume.pdf"; "#projects"]%string ++
    map Project.link (memoProjects st).2 ++
    map js ["/resume.pdf"; "https://www.linkedin.com/"; "https://github.com/";
            "mailto:youremail@example.com"]%string.
Proof.
  unfold node_hrefs. tree_split.
  rewrite (cards_collect _ project_card_node (fun p => [Project.link p])),
    (cards_collect _ cert_card_node (fun _ => [])), concat_map_nil, concat_map_singleton.
  2: { intros c i. vm_compute. reflexivity. }
  2: { intros p i. apply project_card_hrefs. }
  generalize (enabled (dark st)) (query st) (certQuery st) (map Project.link (memoProjects st).2).
  intros e q cq L. eval_sections. by rewrite ?app_nil_r.
Qed.

(** The [checked] and [value] props of the page: the two theme switches
    and the two search boxes. *)
Lemma tree_props (st : PageState) (year : Z) :
  node_prop (js "checked") (Portfolio_tree st year) =
    [JBool (enabled (dark st)); JBool (enabled (dark st))] /\
  node_prop (js "value") (Portfolio_tree st year) = [JStr (query st); JStr (certQuery st)].
Proof.
  unfold node_prop. split; tree_split;
    rewrite (cards_collect _ project_card_node (fun _ => [])),
      (cards_collect _ cert_card_node (fun _ => [])), !concat_map_nil;
    try (intros p i; rewrite project_card_collect; vm_compute; reflexivity);
    try (intros c i; vm_compute; reflexivity);
    generalize (enabled (dark st)) (query st) (certQuery st); intros e q cq;
    destruct e; vm_compute; reflexivity.
Qed.

(** Whether the document root has the class [dark]. *)
Definition root_dark (b : Browser) : bool := bool_decide (js "dark" ∈ root_classes b).

Section Reachable.
Context `{CM : CaseMapping}.

Lemma filtered_links (q : jsstr) : Forall (fun h => h = js "#") (map Project.link (filteredProjects q)).
Proof.
  apply Forall_map.
  exact (Forall_sublist_of _ _ _ (filteredProjects_sublist q) projects_links).
Qed.

(** In a reachable state the page's tree is the tree of a first render
    of the same theme and queries, and its switches show the theme the
    browser applies. *)
Lemma reachable_tree (st : PageState) (b : Browser) (year : Z) :
  page_reachable st b ->
  Portfolio_tree st year = Portfolio_tree (render (dark st) (query st) (certQuery st) None) year /\
  enabled (dark st) = root_dark b.
Proof.
  intros Hr. destruct (page_reachable_inv st b Hr) as (Hp & Hc & _ & _ & Hd).
  split; [unfold Portfolio_tree; simpl; by rewrite Hp, Hc|].
  unfold root_dark. destruct (enabled (dark st)); symmetry.
  - apply bool_decide_eq_true. by apply Hd.
  - apply bool_decide_eq_false. intros H. apply Hd in H. discriminate.
Qed.

End Reachable.

(** ** Theorems *)

Section Theorems.
Context `{CM : CaseMapping}.

(** C11: in every reachable state of the page, the element ids of the
    rendered tree are distinct, every in-page link of the tree ([href]
    starting with [#]) is either the bare placeholder [#] or names the
    id of an element of that same tree, and the placeholders are exactly
    the links of the project cards shown, one per card. *)
Theorem tree_links_resolve (st : PageState) (b : Browser) (year : Z) :
  page_reachable st b ->
  NoDup (node_ids (Portfolio_tree st year)) /\
  Forall (fun h => in_page h = true -> h = js "#" \/ drop 1 h ∈ node_ids (Portfolio_tree st year))
    (node_hrefs (Portfolio_tree st year)) /\
  filter (fun h => h = js "#") (node_hrefs (Portfolio_tree st year)) =
    map Project.link (filteredProjects (query st)).
Proof.
  intros Hr. destruct (page_reachable_inv st b Hr) as (Hp & _).
  rewrite tree_ids, tree_hrefs, Hp. cbn [snd]. pose proof (filtered_links (query st)) as Hl.
  split_and!; [decide_closed| |].
  - rewrite !Forall_app. split_and!; [decide_closed| |decide_closed].
    eapply Forall_impl; [exact Hl|]. intros h -> _. by left.
  - rewrite !filter_app, (filter_all _ _ (proj1 (Forall_forall _ _) Hl)).
    repeat match goal with
    | |- context [filter ?P (map js ?l)] =>
        let v := eval vm_compute in (filter P (map js l)) in change (filter P (map js l)) with v
    end.
    by rewrite app_nil_r.
Qed.

(** C8: what the page shows in a reachable state: the same tree as a
    first render of its theme and queries (the memo caches change
    nothing on screen), both theme switches checked exactly when the
    browser applies the [dark] class, and each search box showing the
    query typed into it. *)
Theorem tree_shows_state (st : PageState) (b : Browser) (year : Z) :
  page_reachable st b ->
  Portfolio_tree st year = Portfolio_tree (render (dark st) (query st) (certQuery st) None) year /\
  node_prop (js "checked") (Portfolio_tree st year) = [JBool (root_dark b); JBool (root_dark b)] /\
  node_prop (js "value") (Portfolio_tree st year) = [JStr (query st); JStr (certQuery st)].
Proof.
  intros Hr. destruct (reachable_tree st b year Hr) as [Ht Hd].
  destruct (tree_props st year) as [Hc Hv]. rewrite <-Hd. by split_and!.
Qed.

End Theorems.

(** ** Witnesses *)

Lemma tree_links_resolve_witness :
  exists st b, page_reachable st b /\ query st = js "py" /\
    filter (fun h => h = js "#") (node_hrefs (Portfolio_tree st 2025)) =
      map Project.link (filteredProjects (js "py")).
Proof.
  destruct page_first_visit_reachable as (st & b & Hr & Hq).
  exists st, b. split_and!; [done|done|]. rewrite <-Hq.
  exact (proj2 (proj2 (tree_links_resolve st b 2025 Hr))).
Defined.

Lemma tree_shows_state_witness :
  exists st b, page_reachable st b /\
    node_prop (js "value") (Portfolio_tree st 2025) = [JStr (js "py"); JStr (certQuery st)].
Proof.
  destruct page_first_visit_reachable as (st & b & Hr & Hq).
  exists st, b. split; [done|]. rewrite <-Hq.
  exact (proj2 (proj2 (tree_shows_state st b 2025 Hr))).
Defined.
