(* ===== verification/FormSubmit.v ===== *)
(** * Submitting the contact form

    What happens between the rendered [contact_form] of [Layout] and the
    handler [contact_onSubmit] of [Mailto] when the user presses "Send".
    The browser first validates the form (HTML's constraint validation):
    a [required] control with an empty value, or an [type="email"]
    control whose value is not a valid e-mail address, stops the
    submission and no [submit] event is fired.  Otherwise the handler
    runs, and [new FormData(form)] holds one entry per named control in
    tree order; [data.get(name)] is the value of the first entry with
    that name ([null] when there is none).

    A control's value is what the user typed, after the value
    sanitization of its type: an [input] of type [text] loses its line
    breaks, one of type [email] also its leading and trailing ASCII
    whitespace; a [textarea]'s API value has its CR LF pairs and lone CRs
    turned into LF.  Validation reads these values.  [FormData] then
    creates each entry (XMLHttpRequest Standard, "create an entry") with
    its name and value converted to scalar value strings (Infra): every
    lone surrogate becomes U+FFFD.  A valid e-mail address is the HTML
    Standard's: [atext] and dots, [@], then labels of at most 63 letters,
    digits and hyphens, not starting or ending with a hyphen, separated
    by dots.

    The theorems: the handler runs exactly on a valid form and receives
    the three values converted to scalar value strings; so whatever the
    user typed, a submission that reaches the handler completes: it
    cancels the native submission and navigates to the [mailto:] URL of
    the encoded subject and body, and [encodeURIComponent] never throws
    there. *)

From S2P Require Import Prelude JsString Chart UiPrimitives Mailto Layout.

(** ** Controls and values *)

(** The form controls of a tree, in tree order: tag and props. *)
Fixpoint controls (n : Node) : list (jsstr * obj) :=
  match n with
  | Elem tag ps ch =>
      (if bool_decide (tag ∈ map js ["input"; "textarea"; "button"; "select"]%string)
       then [(tag, ps)] else []) ++ concat (map controls ch)
  | TextNode _ => []
  end.

Definition prop_string (k : jsstr) (ps : obj) : option jsstr :=
  if obj_get k ps is JStr s then Some s else None.

(** An [input]'s type, [text] when absent. *)
Definition input_type (ps : obj) : jsstr := default (js "text") (prop_string (js "type") ps).

Definition is_ascii_ws (u : Z) : bool := bool_decide (u ∈ [9; 10; 12; 13; 32]).

Definition strip_newlines (s : jsstr) : jsstr := filter (fun u => u <> 10 /\ u <> 13) s.

Fixpoint strip_leading_ws (s : jsstr) : jsstr :=
  match s with
  | [] => []
  | u :: r => if is_ascii_ws u then strip_leading_ws r else s
  end.

Definition strip_ws (s : jsstr) : jsstr := rev (strip_leading_ws (rev (strip_leading_ws s))).

(** A [textarea]'s API value: each CR LF pair and each remaining CR
    becomes LF. *)
Fixpoint normalize_newlines (s : jsstr) : jsstr :=
  match s with
  | [] => []
  | u :: r =>
      if u =? 13 then
        match r with
        | v :: r' => if v =? 10 then 10 :: normalize_newlines r' else 10 :: normalize_newlines r
        | [] => [10]
        end
      else u :: normalize_newlines r
  end.

(** The value of a control from what was typed in it: the value
    sanitization algorithm of an [input]'s type, a [textarea]'s API
    value. *)
Definition sanitize (tag : jsstr) (ps : obj) (raw : jsstr) : jsstr :=
  if bool_decide (tag = js "input") then
    if bool_decide (input_type ps = js "email") then strip_ws (strip_newlines raw)
    else strip_newlines raw
  else normalize_newlines raw.

(** Infra's "convert a string into a scalar value string": each lone
    surrogate becomes U+FFFD, surrogate pairs are kept. *)
Fixpoint to_scalar_value_string (s : jsstr) : jsstr :=
  match s with
  | [] => []
  | u :: r =>
      if is_lead_surrogate u then
        match r with
        | v :: r' =>
            if is_trail_surrogate v then u :: v :: to_scalar_value_string r'
            else 65533 :: to_scalar_value_string r
        | [] => [65533]
        end
      else if is_trail_surrogate u then 65533 :: to_scalar_value_string r
      else u :: to_scalar_value_string r
  end.

(** XMLHttpRequest's "create an entry" for a string value. *)
Definition create_entry (name value : jsstr) : jsstr * jsstr :=
  (to_scalar_value_string name, to_scalar_value_string value).

(** What the user typed, by the control's name. *)
Abbreviation Typed := (jsstr -> jsstr).

Definition control_value (typed : Typed) (c : jsstr * obj) : option (jsstr * jsstr) :=
  if bool_decide (c.1 ∈ [js "input"; js "textarea"]) then
    match prop_string (js "name") c.2 with
    | Some n => if bool_decide (n = []) then None else Some (n, sanitize c.1 c.2 (typed n))
    | None => None
    end
  else None.

(** [new FormData(form)]: the entry list, one entry per named [input]
    and [textarea] in tree order. *)
Definition form_entries (typed : Typed) (form : Node) : list (jsstr * jsstr) :=
  omap (fun c => (fun nv => create_entry nv.1 nv.2) <$> control_value typed c) (controls form).

(** [data.get(name)] put in a template literal: [null] when absent. *)
Definition form_get (entries : list (jsstr * jsstr)) (k : jsstr) : jsstr :=
  match list_find (fun e => e.1 = k) entries with
  | Some (_, (_, v)) => v
  | None => js "null"
  end.

(** ** Valid e-mail addresses *)

Definition is_alnum (u : Z) : bool :=
  ((48 <=? u) && (u <=? 57)) || ((65 <=? u) && (u <=? 90)) || ((97 <=? u) && (u <=? 122)).

Definition is_atext (u : Z) : bool :=
  is_alnum u || bool_decide (u ∈ js ".!#$%&'*+/=?^_`{|}~-").

Definition valid_label (l : jsstr) : bool :=
  match l with
  | [] => false
  | u :: _ =>
      (length l <=? 63)%nat && forallb (fun c => is_alnum c || (c =? 45)) l &&
      is_alnum u && is_alnum (default 0 (last l))
  end.

Definition valid_email (s : jsstr) : bool :=
  match break_at 64 s with
  | (local, Some domain) =>
      negb (bool_decide (local = [])) && forallb is_atext local &&
      forallb valid_label (split_on 46 domain)
  | (_, None) => false
  end.

(** ** Validation and submission *)

(** A control's constraints: [required] and the [email] type. *)
Definition control_valid (typed : Typed) (c : jsstr * obj) : bool :=
  match control_value typed c with
  | None => true
  | Some (_, v) =>
      (negb (truthy (obj_get (js "required") c.2)) || negb (bool_decide (v = []))) &&
      (negb (bool_decide (c.1 = js "input" /\ input_type c.2 = js "email")) ||
       bool_decide (v = []) || valid_email v)
  end.

Definition form_valid (typed : Typed) (form : Node) : bool :=
  forallb (control_valid typed) (controls form).

(** Pressing "Send": nothing when the form is invalid (validation reads
    the controls' values), the handler on the fields [FormData] gives it
    otherwise. *)
Definition submit_contact (typed : Typed) : option (list SubmitEffect * completion unit) :=
  if form_valid typed contact_form then
    let entries := form_entries typed contact_form in
    Some (contact_onSubmit (mkFormFields (form_get entries (js "name"))
                                         (form_get entries (js "email"))
                                         (form_get entries (js "message"))))
  else None.

(** ** Lemmas: the contact form's controls *)

Section Contact.
Variable typed : Typed.

Definition name_value : jsstr := strip_newlines (typed (js "name")).
Definition email_value : jsstr := strip_ws (strip_newlines (typed (js "email"))).
Definition message_value : jsstr := normalize_newlines (typed (js "message")).

Lemma contact_entries :
  form_entries typed contact_form =
    [(js "name", to_scalar_value_string name_value); (js "email", to_scalar_value_string email_value);
     (js "message", to_scalar_value_string message_value)].
Proof. reflexivity. Qed.

Lemma contact_valid_eq :
  form_valid typed contact_form =
    (negb (bool_decide (name_value = [])) && true) &&
    ((negb (bool_decide (email_value = [])) &&
      (bool_decide (email_value = []) || valid_email email_value)) &&
     ((negb (bool_decide (message_value = [])) && true) && (true && true))).
Proof. reflexivity. Qed.

(** The browser lets the form through exactly when the three fields are
    filled and the address is valid. *)
Lemma contact_valid :
  form_valid typed contact_form = true <->
  name_value <> [] /\ message_value <> [] /\ valid_email email_value = true.
Proof.
  rewrite contact_valid_eq, !andb_true_r, !andb_true_iff, !negb_true_iff, !bool_decide_eq_false.
  split.
  - intros (Hn & (He & Hv) & Hm). split_and!; [done|done|].
    rewrite orb_true_iff, bool_decide_eq_true in Hv. by destruct Hv.
  - intros (Hn & Hm & Hv). split_and!; [done| |by rewrite Hv, orb_true_r|done].
    intros He. rewrite He in Hv. discriminate.
Qed.

End Contact.

Lemma contact_fields (typed : Typed) :
  let entries := form_entries typed contact_form in
  form_get entries (js "name") = to_scalar_value_string (name_value typed) /\
  form_get entries (js "email") = to_scalar_value_string (email_value typed) /\
  form_get entries (js "message") = to_scalar_value_string (message_value typed).
Proof. simpl. rewrite contact_entries. by split_and!. Qed.

(** ** Lemmas: valid addresses are ASCII *)

Lemma break_at_some (sep : Z) (s a b : jsstr) :
  break_at sep s = (a, Some b) -> s = a ++ sep :: b.
Proof.
  revert a. induction s as [|c s IH]; intros a; simpl; [discriminate|].
  destruct (Z.eqb_spec c sep) as [->|]; [by intros [= <- <-]|].
  destruct (break_at sep s) as [a' b'] eqn:Hb. intros [= <- ->]. simpl. by rewrite (IH a').
Qed.

Lemma split_on_ne (sep : Z) (s : jsstr) : split_on sep s <> [].
Proof. destruct s as [|c s]; simpl; [done|]. case_match; [done|]. by case_match. Qed.

Lemma split_on_Forall (P : Z -> Prop) (sep : Z) (s : jsstr) :
  P sep -> Forall (Forall P) (split_on sep s) -> Forall P s.
Proof.
  intros Hsep. induction s as [|c s IH]; simpl; [done|].
  destruct (Z.eqb_spec c sep) as [->|].
  - intros [_ Hs]%Forall_cons. constructor; [done|]. by apply IH.
  - destruct (split_on sep s) as [|w ws] eqn:Hs; [by destruct (split_on_ne sep s)|].
    intros [[Hc Hw]%Forall_cons Hws]%Forall_cons. constructor; [done|]. apply IH. by constructor.
Qed.

Definition ascii_unit (u : Z) : Prop := 0 <= u < 128.

Lemma forallb_elem {A} (f : A -> bool) (l : list A) (x : A) :
  forallb f l = true -> x ∈ l -> f x = true.
Proof. rewrite forallb_forall. intros H Hx. by apply H, list_elem_of_In. Qed.

Lemma is_alnum_ascii (u : Z) : is_alnum u = true -> ascii_unit u.
Proof.
  unfold is_alnum, ascii_unit. intros H. js_bool;
    repeat match goal with H : (_ <=? _) = true |- _ => apply Z.leb_le in H end; lia.
Qed.

Lemma is_atext_ascii (u : Z) : is_atext u = true -> ascii_unit u.
Proof.
  unfold is_atext. intros [Ha%is_alnum_ascii|Hl]%orb_true_iff; [done|].
  apply bool_decide_eq_true in Hl.
  assert (Forall ascii_unit (js ".!#$%&'*+/=?^_`{|}~-")) as Hall by decide_closed.
  by apply (proj1 (Forall_forall _ _) Hall).
Qed.

Lemma valid_label_ascii (l : jsstr) : valid_label l = true -> Forall ascii_unit l.
Proof.
  destruct l as [|u l]; [discriminate|]. unfold valid_label. intros H. js_bool.
  apply Forall_forall. intros c Hc.
  match goal with H : forallb _ _ = true |- _ => eapply forallb_elem in Hc; [|exact H] end.
  apply orb_true_iff in Hc as [Hc%is_alnum_ascii|Hc]; [done|].
  apply Z.eqb_eq in Hc. unfold ascii_unit. lia.
Qed.

(** A valid e-mail address is ASCII. *)
Lemma valid_email_ascii (s : jsstr) : valid_email s = true -> Forall ascii_unit s.
Proof.
  unfold valid_email. destruct (break_at 64 s) as [local [domain|]] eqn:Hb; [|discriminate].
  intros H. js_bool. apply break_at_some in Hb as ->.
  apply Forall_app_2; [|constructor; [unfold ascii_unit; lia|]].
  - apply Forall_forall. intros c Hc. apply is_atext_ascii.
    match goal with H : forallb is_atext _ = true |- _ => exact (forallb_elem _ _ _ H Hc) end.
  - apply (split_on_Forall _ 46); [unfold ascii_unit; lia|].
    apply Forall_forall. intros l Hl. apply valid_label_ascii.
    match goal with H : forallb valid_label _ = true |- _ => exact (forallb_elem _ _ _ H Hl) end.
Qed.

Lemma ascii_wf (s : jsstr) : Forall ascii_unit s -> utf16_wf s.
Proof.
  intros H. apply utf16_wf_low. eapply Forall_impl; [exact H|].
  unfold ascii_unit, low_unit. lia.
Qed.

Lemma ascii_units_ok (s : jsstr) : Forall ascii_unit s -> Forall code_unit_ok s.
Proof. intros H. eapply Forall_impl; [exact H|]. unfold ascii_unit, code_unit_ok. lia. Qed.

(** ** Lemmas: the entries [FormData] creates *)

(** Converting to a scalar value string gives well-formed UTF-16. *)
Lemma to_scalar_value_string_wf (s : jsstr) :
  Forall code_unit_ok s -> utf16_wf (to_scalar_value_string s).
Proof.
  induction s as [s IH] using (induction_ltof1 _ (@length Z)); unfold ltof in IH.
  destruct s as [|u r]; [constructor|]. intros [Hu Hr]%Forall_cons. cbn [to_scalar_value_string].
  unfold code_unit_ok in Hu.
  destruct (is_lead_surrogate u) eqn:Hl; [destruct r as [|v r']|destruct (is_trail_surrogate u) eqn:Ht].
  - by repeat constructor.
  - apply Forall_cons in Hr as [Hv Hr']. destruct (is_trail_surrogate v) eqn:Ht.
    + constructor; [done|done|]. apply IH; [simpl; lia|done].
    + constructor; [lia|done|done|]. apply IH; [simpl; lia|by constructor].
  - constructor; [lia|done|done|]. apply IH; [simpl; lia|done].
  - constructor; [lia|done|done|]. apply IH; [simpl; lia|done].
Qed.

Lemma strip_newlines_Forall (P : Z -> Prop) (s : jsstr) : Forall P s -> Forall P (strip_newlines s).
Proof.
  intros H. apply Forall_forall. intros u [_ Hu]%list_elem_of_filter.
  by apply (proj1 (Forall_forall _ _) H).
Qed.

Lemma normalize_newlines_Forall (P : Z -> Prop) (s : jsstr) :
  P 10 -> Forall P s -> Forall P (normalize_newlines s).
Proof.
  intros H10. induction s as [s IH] using (induction_ltof1 _ (@length Z)); unfold ltof in IH.
  destruct s as [|u r]; [constructor|]. intros [Hu Hr]%Forall_cons. cbn [normalize_newlines].
  destruct (u =? 13); [destruct r as [|v r']|].
  - by repeat constructor.
  - pose proof Hr as [_ Hr']%Forall_cons.
    case_match; (constructor; [done|]); (apply IH; [simpl; lia|done]).
  - constructor; [done|]. apply IH; [simpl; lia|done].
Qed.

Section Entries.
Variable typed : Typed.
Hypothesis typed_units : forall k, Forall code_unit_ok (typed k).

(** Whatever was typed, the name and the message [FormData] hands over
    are well-formed UTF-16. *)
Lemma contact_fields_wf :
  utf16_wf (to_scalar_value_string (name_value typed)) /\
  utf16_wf (to_scalar_value_string (message_value typed)).
Proof.
  split; apply to_scalar_value_string_wf.
  - apply strip_newlines_Forall, typed_units.
  - apply normalize_newlines_Forall; [unfold code_unit_ok; lia|apply typed_units].
Qed.

End Entries.

(** ** Theorems *)

(** C6: pressing "Send" on the rendered contact form runs the page's
    handler exactly when the browser's validation lets it through (name
    and message filled, a valid address), and the handler then reads
    from [FormData] the three values of the controls, each converted to
    a scalar value string; otherwise nothing happens. *)
Theorem submit_contact_spec (typed : Typed) :
  submit_contact typed =
    if bool_decide (name_value typed <> [] /\ message_value typed <> [] /\
                    valid_email (email_value typed) = true)
    then Some (contact_onSubmit (mkFormFields (to_scalar_value_string (name_value typed))
                                              (to_scalar_value_string (email_value typed))
                                              (to_scalar_value_string (message_value typed))))
    else None.
Proof.
  unfold submit_contact. destruct (contact_fields typed) as (-> & -> & ->).
  destruct (form_valid typed contact_form) eqn:Hv.
  - by rewrite bool_decide_true by (by apply contact_valid).
  - rewrite bool_decide_false; [done|]. rewrite <-contact_valid, Hv. discriminate.
Qed.

(** C10: whatever the user typed, a submission that reaches the handler
    completes: name and message are filled, the address is valid, both
    templates encode (the fields [FormData] gives are scalar value
    strings, so [encodeURIComponent] cannot throw), and the handler
    cancels the native submission and navigates to the [mailto:] URL of
    the encoded subject and body. *)
Theorem submit_contact_outcome (typed : Typed) (effs : list SubmitEffect) (r : completion unit) :
  (forall k, Forall code_unit_ok (typed k)) ->
  submit_contact typed = Some (effs, r) ->
  r = Normal tt /\ name_value typed <> [] /\ message_value typed <> [] /\
  valid_email (email_value typed) = true /\
  let f := mkFormFields (to_scalar_value_string (name_value typed))
             (to_scalar_value_string (email_value typed))
             (to_scalar_value_string (message_value typed)) in
  exists subject body,
    encodeURIComponent (subject_text f) = Normal subject /\
    encodeURIComponent (body_text f) = Normal body /\
    effs = [PreventDefault; SetLocationHref (mailto_url subject body)].
Proof.
  intros Hty Hs. unfold submit_contact in Hs. destruct (contact_fields typed) as (Hf1 & Hf2 & Hf3).
  rewrite Hf1, Hf2, Hf3 in Hs. destruct (form_valid typed contact_form) eqn:Hv; [|discriminate].
  injection Hs as Hs. apply contact_valid in Hv as (Hne & Hme & He).
  destruct (contact_fields_wf typed Hty) as [Hwn Hwm].
  assert (Hwe : utf16_wf (to_scalar_value_string (email_value typed))).
  { apply to_scalar_value_string_wf, ascii_units_ok, valid_email_ascii, He. }
  set (f := mkFormFields (to_scalar_value_string (name_value typed))
             (to_scalar_value_string (email_value typed)) (to_scalar_value_string (message_value typed))) in *.
  pose proof (contact_onSubmit_normal f Hwn Hwe Hwm) as Hok.
  destruct (contact_onSubmit_cases f) as [(subject & body & Hsu & Hbo & Hc)|(e & Hc)]; rewrite Hc in Hs, Hok; [|discriminate].
  injection Hs as <- <-. split_and!; [done..|]. by exists subject, body.
Qed.

(** ** Witness *)

(** A name ending in a lone surrogate, an address typed with spaces
    around it, a message typed with a CR LF. *)
Definition typed_example : Typed := fun k =>
  if bool_decide (k = js "name") then js "Ana " ++ [55296]
  else if bool_decide (k = js "email") then js " ana@x.io "
  else js "Hi" ++ [13; 10] ++ js "there".

Lemma submit_contact_outcome_witness :
  email_value typed_example = js "ana@x.io" /\
  exists effs, submit_contact typed_example = Some (effs, Normal tt) /\ length effs = 2%nat.
Proof.
  split; [vm_compute; reflexivity|].
  destruct (submit_contact typed_example) as [[effs r]|] eqn:Hs; [|revert Hs; vm_compute; discriminate].
  assert (Hty : forall k, Forall code_unit_ok (typed_example k)).
  { intros k. unfold typed_example. repeat case_bool_decide; decide_closed. }
  destruct (submit_contact_outcome typed_example effs r Hty Hs) as (-> & _ & _ & _ & sb & b & _ & _ & ->).
  by exists [PreventDefault; SetLocationHref (mailto_url sb b)].
Defined.
